(* ===== verification/_CoqProject ===== *)
-Q . S2P
Prelude.v
JsString.v
Motion.v
Hooks.v
Vdom.v
Types.v
Dom.v
Button.v
ModelViewer.v
Navbar.v
Catalog.v
Primitives.v
App.v
Sections.v
Page.v
