(* ===== verification/Prelude.v ===== *)
(** * ColdBoxers landing page: a verification development

    ** The program

    The repository is a single-page React application written in
    TypeScript.  It has no backend: everything it does is to render a tree
    of elements from three pieces of page state and two pieces of state of
    the navigation bar, and to change that state when the visitor clicks or
    scrolls.

    - [src/types.ts]: the [Bundle] interface, the string enum [ColorOption],
      the constant arrays [COLORS] and [SIZES];
    - [src/components/Button.tsx]: the [Button] component (three variants);
    - [src/components/Navbar.tsx]: the navigation bar, with two state cells
      ([isScrolled], [isMobileMenuOpen]) and a scroll listener registered on
      [window] by an effect and removed by its cleanup;
    - [src/components/ModelViewer.tsx]: a static frame around an external 3D
      viewer, which [App] does not use;
    - [src/App.tsx]: the data arrays ([bundles], [galleryImages], [faqs],
      [reviews]), four animation components ([FadeInUp], [RevealText],
      [ParallaxImage], [Marquee]) and the page [App] with three state cells
      ([selectedColor], [selectedSize], [activeFaq]) and eleven sections.

    ** How the code is modelled

    A component is a function from its props, its state and what its
    hooks read from the browser to an element tree ([node], file [Vdom]):
    tags, keys, props in the order of the source, children, array children
    for [list.map(...)], a hole for a child that is [false].  A hook of the
    animation library is a function of the options the component passes
    and of what the browser knows of the element (file [Hooks]), so the
    options written in the source are data of the model.  An event handler
    is the list of effects its closure runs ([effect], file [Dom]),
    computed when the tree is rendered from the state the closure captures.
    State cells are fields of a [Record] and setters are functions on it;
    [undefined] is [None]; JavaScript numbers are rationals ([Q]), which is
    exact for the integers, halves and tenths the page uses and avoids the
    rounding of floating point, which no statement here depends on;
    strings are [string].

    ** The files

    - [Prelude] (this file): the scope [js_scope], the tactics, the hint
      databases [cb] and [cb_rw], and the lemmas on rationals, counting,
      filters and options that the other files share.
    - [JsString]: [split], [join], truthiness and class tokens, from the
      language specification, with the round trip [join_split].
    - [Motion]: the clamped interpolation of [useTransform], from the
      documented behaviour of framer-motion, with bounds, monotonicity and
      compatibility with the equality of rationals ([Proper] instances).
    - [Hooks]: [useInView] with its options [once] and [margin], and
      [useScroll] with a target and its [offset], from the documented
      behaviour of framer-motion: the first latches when [once] is set, the
      second is the clamped progress of the window between the two
      intersections the offset names.
    - [Vdom]: element trees, decidable equality, the queries the theorems
      are stated with ([descendants], [classes], [onClick], [ids], [keyed],
      [texts], [count_nodes], [all_nodes]) and how they go through a tree.
    - [Types], [Catalog]: [src/types.ts] and the data arrays of
      [src/App.tsx], with the invariants of the data.
    - [Dom]: effects, the interface [EventTarget] of [addEventListener] and
      [removeEventListener] as a class with its laws, and [Window], the
      instance the page runs on.
    - [Button], [ModelViewer]: the two components of these names.
    - [Navbar]: module [Navbar], the bar: its state, [handleScroll], the
      effect ([subscribe]) and its cleanup ([unsubscribe]) against the
      interface [EventTarget], and the tree [render].
    - [Primitives]: the four animation components.
    - [App]: module [App], the state of the page, the bundles section
      (configurator and cards) and the FAQ accordion.
    - [Sections]: module [Sections], the nine sections that do not read the
      state, and the motion values [heroY] and [heroOpacity].
    - [Page]: module [Page], the tree [App] returns ([render]) and the life
      cycle of the page as a transition system ([step], [exec]): mounting,
      unmounting, scroll events, reports of the observers of the two
      outcome headings, and clicks on elements of the rendered tree.

    ** What is proved

    - Data: the names of [COLORS] are the four members of the enum, once
      each; [SIZES], the bundle identifiers and the gallery have no
      repetition; every bundle is well formed.
    - Components: the class list and the handler of a [Button]; [RevealText]
      renders the words of its text, in order, one span per word, the span
      of word [i] with a delay of [i / 20]; the shift of a [ParallaxImage]
      is linear in the progress and bounded by its offset; [Marquee]
      renders its images twice and wraps without a jump; the opacity and
      shift of the hero are bounded and monotone; a bundle card shows what
      its bundle says and none of its elements handles a click.
    - Navigation bar: the listener sets [isScrolled] to whether the offset
      exceeds 50; the cleanup undoes the effect on any event target; clicks
      inside the menu close it, only the menu button opens it, and no click
      writes [isScrolled].
    - Configurator and FAQ: exactly one swatch and one size are marked;
      a click selects what was clicked and leaves the other cell alone; the
      accordion opens, closes and never shows two answers.
    - Page, in every state in which it renders: its anchors are
      [how-it-works], [bundles] and [faq]; every scrolling button and every
      link points at one of them or is the placeholder [#]; every array is
      keyed; every animation that starts in view plays once; the one
      [onError] handler is on the outcome image; the 3D viewer is not
      embedded.
    - Life cycle, in every reachable state: the scroll listeners of the
      window are exactly the closure of the mounted instance; no update
      reaches an instance that is gone; the selections are entries of the
      catalogue; rendering does not throw; one answer is expanded when a
      question is open and none otherwise; a heading that was revealed
      stays revealed.  The relation [step] and the function [exec] agree.
      The buttons of the accordion and of the configurator are on the page
      whenever it renders, and the scenario of the specification runs as
      the specification says from every reachable state without a page,
      for every offset, question and colour ([end_to_end]).

    ** Bounds and case analyses

    No definition uses fuel: every function is structurally recursive.
    Statements about the tree in an arbitrary state are reduced to finitely
    many evaluations: the bar has four states; the bundles section depends
    on the state through the name of the selected colour (four) and the
    place of the selected size in [SIZES] (four, or none); the FAQ section
    through the open index (five, or none).  [App.faq_section_view],
    [App.bundles_section_view] and [Navbar.render_view] show that these
    views are all there are, for every state and not only for the reachable
    ones; a colour that is not [undefined] is enough for the page to render.
    The sections are evaluated with the scroll offset, the layout and the
    year as variables: no test of these statements reads a motion value.

    ** What is not modelled

    React's reconciliation, the playback of the animations, CSS and the
    layout of the browser are outside the repository.  Their results enter
    as inputs: the scroll offset is the parameter of a [Scroll] event,
    whether a heading of the outcome section is in view is an [Intersect]
    event, where the outcome image lies in the document and the year of
    the footer are fields of the state.  The margin of [useInView] is
    carried as an option and decides nothing: when an element counts as in
    view is the observer's report.  The pixel values of the marquee assume
    the default root font size of 16 pixels.  A handler that calls [scrollIntoView] or [window.scrollTo]
    is recorded as an effect and shown to name an existing element; where
    the smooth scroll ends is the browser's business and shows up as later
    [Scroll] events.  The window has no listeners but the page's: other
    scripts are not part of the system. *)

From Stdlib Require Export QArith Lqa.
From stdpp Require Export base tactics option list sets strings.

Declare Scope js_scope.
Delimit Scope js_scope with js.

Create HintDb cb discriminated.

(** ** Tactics *)

(** Case analysis on the scrutinee of the first [match] or [if] of the goal. *)
Ltac destruct_match :=
  match goal with
  | |- context [match ?e with _ => _ end] => destruct e eqn:?
  end.

(** Turn the boolean tests of the code, in hypotheses and goal, into the
    propositions they decide. *)
Ltac propify :=
  repeat match goal with
  | H : negb _ = true |- _ => apply negb_true_iff in H
  | H : negb _ = false |- _ => apply negb_false_iff in H
  | H : andb _ _ = true |- _ => apply andb_true_iff in H; destruct H
  | H : Qle_bool _ _ = true |- _ => apply Qle_bool_iff in H
  | H : (_ =? _)%string = true |- _ => apply String.eqb_eq in H
  | H : (_ =? _)%string = false |- _ => apply String.eqb_neq in H
  | H : bool_decide _ = true |- _ => apply bool_decide_eq_true_1 in H
  | H : bool_decide _ = false |- _ => apply bool_decide_eq_false_1 in H
  end.

(** Close a goal by evaluating it. *)
Ltac by_compute := vm_compute; reflexivity.

(** Decide a decidable proposition by evaluating its decision procedure. *)
Ltac by_decide := apply (bool_decide_eq_true_1 _); by_compute.

(** ** JavaScript numbers as rationals *)

#[export] Instance Q_eq_dec : EqDecision Q.
Proof. solve_decision. Defined.

(** [x > y] on numbers, as a boolean. *)
Definition Qgtb (x y : Q) : bool := negb (Qle_bool x y).

Notation "x >? y" := (Qgtb x y) (at level 70, no associativity) : js_scope.

Lemma Qgtb_lt (x y : Q) : Qgtb x y = true <-> (y < x)%Q.
Proof.
  unfold Qgtb. rewrite negb_true_iff, <- not_true_iff_false, Qle_bool_iff.
  split; [apply Qnot_le_lt | apply Qlt_not_le].
Qed.

Lemma Qgtb_le (x y : Q) : Qgtb x y = false <-> (x <= y)%Q.
Proof. unfold Qgtb. rewrite negb_false_iff. apply Qle_bool_iff. Qed.

#[export] Instance Qgtb_proper : Proper (Qeq ==> Qeq ==> eq) Qgtb.
Proof. intros x x' Hx y y' Hy. unfold Qgtb. now rewrite Hx, Hy. Qed.

#[export] Instance Qeq_bool_proper : Proper (Qeq ==> Qeq ==> eq) Qeq_bool.
Proof.
  intros x x' Hx y y' Hy. apply eq_true_iff_eq.
  rewrite !Qeq_bool_iff. now rewrite Hx, Hy.
Qed.

(** ** Counting the elements of a list that pass a boolean test *)

Definition count {A : Type} (p : A -> bool) (l : list A) : nat :=
  length (List.filter p l).

Section count.
Context {A : Type}.
Implicit Types (p q : A -> bool) (l k : list A).

Lemma count_nil p : count p [] = 0%nat.
Proof. reflexivity. Qed.

Lemma count_cons p x l :
  count p (x :: l) = ((if p x then 1 else 0) + count p l)%nat.
Proof. unfold count; simpl. now destruct (p x). Qed.

Lemma count_app p l k : count p (l ++ k) = (count p l + count p k)%nat.
Proof. unfold count. now rewrite List.filter_app, length_app. Qed.

Lemma count_zero p l : (forall x, x ∈ l -> p x = false) -> count p l = 0%nat.
Proof.
  induction l as [|x l IH]; intros Hl; [done|].
  rewrite count_cons, Hl, IH by (try intros; try apply Hl; set_solver).
  done.
Qed.

Lemma count_ext p q l : (forall x, x ∈ l -> p x = q x) -> count p l = count q l.
Proof.
  induction l as [|x l IH]; intros Hl; [done|].
  rewrite !count_cons, Hl, IH by (try intros; try apply Hl; set_solver).
  done.
Qed.

(** In a list whose keys are pairwise distinct, exactly one element has the
    key of a given member. *)
Lemma count_key_unique `{EqDecision K} (key : A -> K) (l : list A) (x : A) :
  NoDup (key <$> l) -> x ∈ l ->
  count (fun y => bool_decide (key y = key x)) l = 1%nat.
Proof.
  induction l as [|y l IH]; intros Hnd Hx; [by apply elem_of_nil in Hx|].
  rewrite fmap_cons in Hnd. apply NoDup_cons in Hnd as [Hy Hnd].
  rewrite count_cons. apply elem_of_cons in Hx as [->|Hx].
  - rewrite bool_decide_eq_true_2 by done.
    rewrite count_zero; [done|]. intros z Hz.
    apply bool_decide_eq_false_2. intros Heq. apply Hy.
    rewrite <- Heq. now apply list_elem_of_fmap_2.
  - rewrite bool_decide_eq_false_2, IH by
      (try done; intros Heq; apply Hy; rewrite Heq; now apply list_elem_of_fmap_2).
    done.
Qed.

(** No element has a key that is not in the list. *)
Lemma count_key_absent `{EqDecision K} (key : A -> K) (l : list A) (k : K) :
  k ∉ key <$> l -> count (fun y => bool_decide (key y = k)) l = 0%nat.
Proof.
  intros Hk. apply count_zero. intros x Hx. apply bool_decide_eq_false_2.
  intros <-. apply Hk. now apply list_elem_of_fmap_2.
Qed.

End count.

Lemma count_fmap {A B} (f : B -> A) (p : A -> bool) (l : list B) :
  count p (f <$> l) = count (p ∘ f) l.
Proof.
  induction l as [|x l IH]; [done|].
  rewrite fmap_cons, !count_cons, IH. done.
Qed.

Create Rewrite HintDb cb_rw.
#[export] Hint Rewrite @count_nil @count_cons @count_app : cb_rw.

(** Among the first [n] numbers, exactly the one an option names is equal
    to it. *)
Lemma count_seq_Some (o : option nat) (k n : nat) :
  count (fun i => bool_decide (o = Some i)) (seq k n) =
  match o with
  | Some i => if bool_decide (k <= i < k + n)%nat then 1%nat else 0%nat
  | None => 0%nat
  end.
Proof.
  revert k. induction n as [|n IH]; intros k.
  - destruct o; [|done]. by rewrite bool_decide_eq_false_2 by lia.
  - cbn [seq]. rewrite count_cons, IH. destruct o as [i|]; [|done].
    destruct (decide (i = k)) as [->|Hik].
    + rewrite bool_decide_eq_true_2 by done.
      rewrite bool_decide_eq_false_2, bool_decide_eq_true_2 by lia. done.
    + rewrite (bool_decide_eq_false_2 (Some i = Some k)) by congruence.
      repeat case_bool_decide; lia.
Qed.

(** ** Filters *)

Lemma filter_all {A} (P : A -> Prop) `{forall x, Decision (P x)} (l : list A) :
  (forall x, x ∈ l -> P x) -> filter P l = l.
Proof.
  induction l as [|x l IH]; intros Hl; [done|].
  rewrite filter_cons_True, IH; [done| |]; intros; try apply Hl;
    rewrite elem_of_cons; auto.
Qed.

Lemma omap_flat_map {A B C} (f : B -> option C) (g : A -> list B) (l : list A) :
  omap f (flat_map g l) = flat_map (fun x => omap f (g x)) l.
Proof.
  induction l as [|x l IH]; [done|]. cbn [flat_map]. by rewrite omap_app, IH.
Qed.

Lemma list_bind_singleton {A} (l : list A) : l ≫= (fun a => [a]) = l.
Proof. induction l as [|a l IH]; [done|]. cbn. by rewrite IH. Qed.

Lemma list_bind_nil {A B} (l : list A) : l ≫= (fun _ => @nil B) = [].
Proof. induction l as [|a l IH]; [done|]. cbn. by rewrite IH. Qed.

Lemma forallb_flat_map {A B} (p : B -> bool) (f : A -> list B) (l : list A) :
  forallb p (flat_map f l) = forallb (fun x => forallb p (f x)) l.
Proof.
  induction l as [|x l IH]; [done|]. cbn [flat_map forallb].
  by rewrite forallb_app, IH.
Qed.

Lemma forallb_true {A} (p : A -> bool) (l : list A) :
  (forall x, x ∈ l -> p x = true) -> forallb p l = true.
Proof.
  intros Hl. apply forallb_forall. intros x Hx. by apply Hl, list_elem_of_In.
Qed.

Lemma forallb_elem_of {A} (p : A -> bool) (l : list A) (x : A) :
  forallb p l = true -> x ∈ l -> p x = true.
Proof. rewrite forallb_forall. intros Hl Hx. by apply Hl, list_elem_of_In. Qed.

(** ** A list followed by itself *)

Lemma lookup_twice_l {A} (l : list A) (i : nat) :
  (i < length l)%nat -> (l ++ l) !! i = l !! i.
Proof. apply lookup_app_l. Qed.

Lemma lookup_twice_r {A} (l : list A) (i : nat) :
  (l ++ l) !! (i + length l)%nat = l !! i.
Proof. rewrite lookup_app_r by lia. f_equal. lia. Qed.

(** ** Options *)

(** A traversal with a function that never fails is a map. *)
Lemma mapM_total {A B} (f : A -> B) (l : list A) :
  mapM (fun x => Some (f x)) l = Some (f <$> l).
Proof. induction l as [|x l IH]; [done|]. simpl. by rewrite IH. Qed.

(** A traversal with a function that always fails succeeds on nothing only. *)
Lemma mapM_fail {A B} (l : list A) :
  mapM (fun _ => @None B) l = if l is [] then Some [] else None.
Proof. by destruct l. Qed.

Lemma from_option_Some_eq {A B} (f : A -> B) (d : B) (o : option A) (x : A) :
  o = Some x -> from_option f d o = f x.
Proof. now intros ->. Qed.
