(* ===== verification/JsString.v ===== *)
(** * JsString: the string operations of JavaScript the page uses

    [String.prototype.split] with a one-character separator (used by
    [RevealText] in src/App.tsx to cut a sentence into words),
    [Array.prototype.join], and the truthiness of a string (used by the
    [bundle.badge && ...] and [bundle.badge ? ... : ...] tests).  These are
    built-ins of the language, modelled from their specification; the
    components that call them are in [Primitives] and [App]. *)

From Stdlib Require Import Ascii String.
From S2P Require Import Prelude.

#[local] Open Scope string_scope.

(** A string is falsy exactly when it is empty. *)
Definition truthy (s : string) : bool := negb (s =? "").

(** [undefined] and the empty string are falsy. *)
Definition truthy_opt (o : option string) : bool := from_option truthy false o.

(** The one-character string. *)
Definition str1 (c : ascii) : string := String c EmptyString.

(** The character U+0020. *)
Definition space : ascii := Ascii.ascii_of_nat 32.

(** The character U+0022, kept out of literals. *)
Definition dquote : ascii := Ascii.ascii_of_nat 34.

Section split.
Variable sep : ascii.

(** [s.split(sep)]: the pieces of [s] between the occurrences of [sep], in
    order; the empty string gives one empty piece. *)
Fixpoint split (s : string) : list string :=
  match s with
  | EmptyString => [EmptyString]
  | String c s' =>
      if Ascii.eqb c sep then EmptyString :: split s'
      else match split s' with
           | [] => [str1 c]
           | w :: ws => String c w :: ws
           end
  end.

(** [l.join(sep)]. *)
Definition join (l : list string) : string := String.concat (str1 sep) l.

(** The number of occurrences of [sep]. *)
Fixpoint occurrences (s : string) : nat :=
  match s with
  | EmptyString => 0
  | String c s' => (if Ascii.eqb c sep then 1 else 0) + occurrences s'
  end.

(** [sep] does not occur in [s]. *)
Fixpoint sep_free (s : string) : bool :=
  match s with
  | EmptyString => true
  | String c s' => negb (Ascii.eqb c sep) && sep_free s'
  end.

Lemma split_nonempty s : split s <> [].
Proof. induction s as [|c s IH]; simpl; [done|]. by repeat destruct_match. Qed.

Lemma split_cons_inv s : exists w ws, split s = w :: ws.
Proof. pose proof (split_nonempty s). destruct (split s); [done|eauto]. Qed.

Lemma join_cons_cons w w' ws :
  join (w :: w' :: ws) = w ++ String sep (join (w' :: ws)).
Proof. reflexivity. Qed.

Lemma join_String c w ws : join (String c w :: ws) = String c (join (w :: ws)).
Proof. destruct ws; reflexivity. Qed.

Lemma join_empty_cons w ws : join ("" :: w :: ws) = String sep (join (w :: ws)).
Proof. reflexivity. Qed.

(** Joining the pieces with the separator gives the string back. *)
Lemma join_split s : join (split s) = s.
Proof.
  induction s as [|c s IH]; [done|]. simpl.
  destruct (split_cons_inv s) as (w & ws & Hs). rewrite Hs in *.
  destruct (Ascii.eqb_spec c sep) as [->|_].
  - by rewrite join_empty_cons, IH.
  - by rewrite join_String, IH.
Qed.

(** There is one piece more than there are separators. *)
Lemma length_split s : List.length (split s) = S (occurrences s).
Proof.
  induction s as [|c s IH]; [done|]. simpl.
  destruct (split_cons_inv s) as (w & ws & Hs). rewrite Hs in *.
  destruct (Ascii.eqb c sep); simpl in *; lia.
Qed.

(** No piece contains the separator. *)
Lemma split_sep_free s : Forall (fun w => sep_free w = true) (split s).
Proof.
  induction s as [|c s IH]; simpl; [by repeat constructor|].
  destruct (split_cons_inv s) as (w & ws & Hs). rewrite Hs in *.
  apply Forall_cons in IH as [Hw Hws].
  destruct (Ascii.eqb c sep) eqn:Hc; repeat constructor; simpl; auto.
  by rewrite Hc.
Qed.

(** A string without separator is its own single piece. *)
Lemma split_sep_free_one s : sep_free s = true -> split s = [s].
Proof.
  induction s as [|c s IH]; simpl; [done|].
  intros [Hc Hs]%andb_true_iff. apply negb_true_iff in Hc.
  by rewrite Hc, IH.
Qed.

(** Splitting undoes joining, for a non-empty list of separator-free pieces. *)
Lemma split_join w ws :
  Forall (fun w => sep_free w = true) (w :: ws) -> split (join (w :: ws)) = w :: ws.
Proof.
  revert w. induction ws as [|w' ws IH]; intros w Hall.
  - apply Forall_cons in Hall as [Hw _]. by apply split_sep_free_one.
  - apply Forall_cons in Hall as [Hw Hall]. rewrite join_cons_cons.
    induction w as [|c w IHw]; simpl.
    + by rewrite Ascii.eqb_refl, IH.
    + simpl in Hw. apply andb_true_iff in Hw as [Hc Hw].
      apply negb_true_iff in Hc. by rewrite Hc, IHw.
Qed.

(** Splitting a string at one of its separators splits both sides. *)
Lemma split_app_sep s1 s2 :
  split (s1 ++ String sep s2) = (split s1 ++ split s2)%list.
Proof.
  induction s1 as [|c s1 IH]; simpl.
  - by rewrite Ascii.eqb_refl.
  - rewrite IH. destruct (split_cons_inv s1) as (w & ws & ->).
    by destruct (Ascii.eqb c sep).
Qed.

End split.

(** The words of a string of space-separated tokens, as a class attribute
    is read: the non-empty pieces. *)
Definition tokens (s : string) : list string :=
  List.filter truthy (split space s).

Lemma tokens_app_space (s1 s2 : string) :
  tokens (s1 ++ String space s2) = (tokens s1 ++ tokens s2)%list.
Proof. unfold tokens. by rewrite split_app_sep, List.filter_app. Qed.

Lemma tokens_app_blank (s1 s2 : string) :
  tokens (s1 ++ " " ++ s2) = (tokens s1 ++ tokens s2)%list.
Proof. apply tokens_app_space. Qed.

Lemma tokens_empty : tokens "" = [].
Proof. reflexivity. Qed.

#[export] Hint Resolve split_nonempty split_sep_free : cb.
#[export] Hint Rewrite join_split length_split tokens_app_space tokens_app_blank tokens_empty : cb_rw.

Lemma truthy_opt_Some (o : option string) :
  truthy_opt o = true <-> exists s, o = Some s /\ s <> "".
Proof.
  destruct o as [s|]; simpl; unfold truthy.
  - rewrite negb_true_iff, String.eqb_neq. split; [eauto|].
    by intros (? & [= <-] & ?).
  - split; [done|]. by intros (? & ? & ?).
Qed.
