(* ===== verification/Motion.v ===== *)
(** * Motion: the motion-value arithmetic of the animation library

    [useTransform(value, [i0, i1], [o0, o1])] of framer-motion maps a motion
    value through a clamped linear interpolation.  src/App.tsx uses it for the
    hero parallax ([heroY], [heroOpacity]) and in [ParallaxImage].  The
    library is not part of the repository: [clamp], [progress], [mix] and
    [transform] are modelled from its documented behaviour, over rationals,
    and the facts proved here are the interface the page's theorems use. *)

From S2P Require Import Prelude.

#[local] Open Scope Q_scope.

(** [clamp(min, max, v)]: [v > max ? max : v < min ? min : v]. *)
Definition clamp (min max v : Q) : Q :=
  if Qgtb v max then max else if Qgtb min v then min else v.

(** [progress(from, to, value)]: where [value] lies between [from] and [to],
    as a fraction; [1] for an empty range. *)
Definition progress (from to value : Q) : Q :=
  let d := to - from in
  if Qeq_bool d 0 then 1 else (value - from) / d.

(** [mix(from, to, p)]: the point at fraction [p] between [from] and [to]. *)
Definition mix (from to p : Q) : Q := from + (to - from) * p.

(** The interpolation for an ascending input range. *)
Definition transform_asc (i0 i1 o0 o1 v : Q) : Q :=
  mix o0 o1 (progress i0 i1 (clamp i0 i1 v)).

(** [transform(v, [i0, i1], [o0, o1])] with the default [clamp: true]; a
    descending input range is reversed together with the output range. *)
Definition transform (i0 i1 o0 o1 v : Q) : Q :=
  if Qgtb i0 i1 then transform_asc i1 i0 o1 o0 v else transform_asc i0 i1 o0 o1 v.

(** ** Compatibility with the equality of rationals *)

#[export] Instance clamp_proper : Proper (Qeq ==> Qeq ==> Qeq ==> Qeq) clamp.
Proof.
  intros a a' Ha b b' Hb v v' Hv. unfold clamp.
  rewrite (Qgtb_proper _ _ Hv _ _ Hb), (Qgtb_proper _ _ Ha _ _ Hv).
  by repeat destruct_match.
Qed.

#[export] Instance progress_proper : Proper (Qeq ==> Qeq ==> Qeq ==> Qeq) progress.
Proof.
  intros a a' Ha b b' Hb v v' Hv. unfold progress; cbv zeta.
  assert (Hd : b - a == b' - a') by now rewrite Ha, Hb.
  rewrite (Qeq_bool_proper _ _ Hd 0 0 (Qeq_refl 0)).
  destruct (Qeq_bool (b' - a') 0); [done|]. by rewrite Ha, Hb, Hv.
Qed.

#[export] Instance mix_proper : Proper (Qeq ==> Qeq ==> Qeq ==> Qeq) mix.
Proof. intros a a' Ha b b' Hb v v' Hv. unfold mix. by rewrite Ha, Hb, Hv. Qed.

#[export] Instance transform_asc_proper :
  Proper (Qeq ==> Qeq ==> Qeq ==> Qeq ==> Qeq ==> Qeq) transform_asc.
Proof.
  intros a a' Ha b b' Hb c c' Hc d d' Hd v v' Hv. unfold transform_asc.
  by rewrite Ha, Hb, Hc, Hd, Hv.
Qed.

#[export] Instance transform_proper :
  Proper (Qeq ==> Qeq ==> Qeq ==> Qeq ==> Qeq ==> Qeq) transform.
Proof.
  intros a a' Ha b b' Hb c c' Hc d d' Hd v v' Hv. unfold transform.
  rewrite Ha, Hb. destruct (Qgtb a' b'); by rewrite Ha, Hb, Hc, Hd, Hv.
Qed.

(** ** Clamping *)

(** The three cases of [clamp], as propositions. *)
Lemma clamp_cases (min max v : Q) :
  (max < v /\ clamp min max v = max) \/
  (v <= max /\ v < min /\ clamp min max v = min) \/
  (v <= max /\ min <= v /\ clamp min max v = v).
Proof.
  unfold clamp.
  destruct (Qgtb v max) eqn:H1; [apply Qgtb_lt in H1; auto|].
  apply Qgtb_le in H1.
  destruct (Qgtb min v) eqn:H2; [apply Qgtb_lt in H2|apply Qgtb_le in H2]; auto.
Qed.

Ltac clamp_cases min max v :=
  let H := fresh "Hc" in
  destruct (clamp_cases min max v) as [[? H]|[(? & ? & H)|(? & ? & H)]];
  rewrite H; clear H.

Lemma clamp_bounds (min max v : Q) :
  min <= max -> min <= clamp min max v <= max.
Proof. intros. clamp_cases min max v; lra. Qed.

Lemma clamp_inside (min max v : Q) :
  min <= v <= max -> clamp min max v = v.
Proof. intros. clamp_cases min max v; (done || (exfalso; lra)). Qed.

Lemma clamp_below (min max v : Q) :
  min <= max -> v <= min -> clamp min max v == min.
Proof. intros. clamp_cases min max v; lra. Qed.

Lemma clamp_above (min max v : Q) :
  min <= max -> max <= v -> clamp min max v == max.
Proof. intros. clamp_cases min max v; lra. Qed.

Lemma clamp_mono (min max v w : Q) :
  min <= max -> v <= w -> clamp min max v <= clamp min max w.
Proof. intros. clamp_cases min max v; clamp_cases min max w; lra. Qed.

(** ** Progress and mixing *)

Lemma progress_eq (from to v : Q) :
  from < to -> progress from to v == (v - from) / (to - from).
Proof.
  intros H. unfold progress; cbv zeta.
  destruct (Qeq_bool (to - from) 0) eqn:E; [|done].
  apply Qeq_bool_iff in E. lra.
Qed.

Lemma progress_bounds (from to v : Q) :
  from < to -> from <= v <= to -> 0 <= progress from to v <= 1.
Proof.
  intros H Hv. rewrite progress_eq by done. split.
  - apply Qle_shift_div_l; lra.
  - apply Qle_shift_div_r; lra.
Qed.

Lemma progress_mono (from to v w : Q) :
  from < to -> v <= w -> progress from to v <= progress from to w.
Proof.
  intros H Hvw. rewrite !progress_eq by done.
  unfold Qdiv. apply Qmult_le_compat_r; [lra|].
  apply Qlt_le_weak, Qinv_lt_0_compat. lra.
Qed.

Lemma progress_from (from to : Q) : from < to -> progress from to from == 0.
Proof. intros. rewrite progress_eq by done. unfold Qdiv. ring. Qed.

Lemma progress_to (from to : Q) : from < to -> progress from to to == 1.
Proof. intros. rewrite progress_eq by done. field. lra. Qed.

Lemma mix_bounds (from to p : Q) :
  from <= to -> 0 <= p <= 1 -> from <= mix from to p <= to.
Proof. intros. unfold mix. nra. Qed.

Lemma mix_bounds_desc (from to p : Q) :
  to <= from -> 0 <= p <= 1 -> to <= mix from to p <= from.
Proof. intros. unfold mix. nra. Qed.

Lemma mix_mono (from to p q : Q) :
  from <= to -> p <= q -> mix from to p <= mix from to q.
Proof. intros. unfold mix. nra. Qed.

Lemma mix_anti (from to p q : Q) :
  to <= from -> p <= q -> mix from to q <= mix from to p.
Proof. intros. unfold mix. nra. Qed.

(** ** The transform, for an ascending input range *)

Section transform.
Context (i0 i1 o0 o1 : Q) (Hi : i0 < i1).

Lemma transform_ascending v : transform i0 i1 o0 o1 v = transform_asc i0 i1 o0 o1 v.
Proof.
  unfold transform. destruct (Qgtb i0 i1) eqn:E; [|done].
  apply Qgtb_lt in E. lra.
Qed.

Lemma transform_progress_bounds v : 0 <= progress i0 i1 (clamp i0 i1 v) <= 1.
Proof. apply progress_bounds, clamp_bounds; lra. Qed.

(** Inside the input range the transform is the straight line through
    [(i0, o0)] and [(i1, o1)]. *)
Lemma transform_inside v :
  i0 <= v <= i1 ->
  transform i0 i1 o0 o1 v == o0 + (o1 - o0) * ((v - i0) / (i1 - i0)).
Proof.
  intros Hv. rewrite transform_ascending. unfold transform_asc, mix.
  by rewrite clamp_inside, progress_eq.
Qed.

(** Below the range it stays at [o0], above it at [o1]. *)
Lemma transform_below v : v <= i0 -> transform i0 i1 o0 o1 v == o0.
Proof.
  intros Hv. rewrite transform_ascending. unfold transform_asc, mix.
  rewrite clamp_below, progress_from by lra. ring.
Qed.

Lemma transform_above v : i1 <= v -> transform i0 i1 o0 o1 v == o1.
Proof.
  intros Hv. rewrite transform_ascending. unfold transform_asc, mix.
  rewrite clamp_above, progress_to by lra. ring.
Qed.

(** The value never leaves the output range. *)
Lemma transform_bounds v :
  o0 <= o1 -> o0 <= transform i0 i1 o0 o1 v <= o1.
Proof.
  intros. rewrite transform_ascending.
  apply mix_bounds, transform_progress_bounds. done.
Qed.

Lemma transform_bounds_desc v :
  o1 <= o0 -> o1 <= transform i0 i1 o0 o1 v <= o0.
Proof.
  intros. rewrite transform_ascending.
  apply mix_bounds_desc, transform_progress_bounds. done.
Qed.

(** It is monotone for an ascending output range, antitone for a descending one. *)
Lemma transform_mono v w :
  o0 <= o1 -> v <= w -> transform i0 i1 o0 o1 v <= transform i0 i1 o0 o1 w.
Proof.
  intros. rewrite !transform_ascending.
  apply mix_mono, progress_mono, clamp_mono; (done || lra).
Qed.

Lemma transform_anti v w :
  o1 <= o0 -> v <= w -> transform i0 i1 o0 o1 w <= transform i0 i1 o0 o1 v.
Proof.
  intros. rewrite !transform_ascending.
  apply mix_anti, progress_mono, clamp_mono; (done || lra).
Qed.

End transform.

#[export] Hint Resolve clamp_bounds progress_bounds mix_bounds transform_bounds
  transform_bounds_desc transform_mono transform_anti : cb.
