(* ===== verification/Hooks.v ===== *)
(** * Hooks: what the hooks of the animation library return

    src/App.tsx calls two hooks of framer-motion with options:
    [useInView(ref, { once: true, margin: "-10%" })] in [RevealText] and
    [useScroll({ target: ref, offset: ["start end", "end start"] })] in
    [ParallaxImage].  The hooks belong to the library; they are modelled
    here from its documented behaviour, as functions of their options and
    of what the browser knows of the element: for [useInView] whether the
    element is in view and whether it has been ([Visibility]), for
    [useScroll] where the element lies in the document ([Layout]) and how
    far the window is scrolled.  The components pass the options they are
    written with, so an option of the source is data of the model. *)

From Stdlib Require Import Ascii String.
From S2P Require Import Prelude JsString Motion.

#[local] Open Scope string_scope.

(** ** useInView *)

Module InView.
Record Options : Type := { once : bool; margin : string }.
End InView.

(** What the observer of an element knows: whether the element is in view
    now, and whether it was at some time since the component mounted. *)
Record Visibility : Type := { visible : bool; seen : bool }.

#[export] Instance Visibility_eq_dec : EqDecision Visibility.
Proof. solve_decision. Defined.

(** The element of a component that has just mounted. *)
Definition unseen : Visibility := {| visible := false; seen := false |}.

(** The observer reports that the element is in view, or not. *)
Definition observed (now : bool) (v : Visibility) : Visibility :=
  {| visible := now; seen := seen v || now |}.

(** [useInView(ref, options)]: whether the element is in view; with [once],
    whether it has been. *)
Definition useInView (v : Visibility) (o : InView.Options) : bool :=
  if InView.once o then seen v else visible v.

(** ** useScroll with a target *)

(** The edges of an element and of the viewport: ["start"] and ["end"]. *)
Inductive edge : Type := Leading | Trailing.

Definition parse_edge (s : string) : option edge :=
  if s =? "start" then Some Leading
  else if s =? "end" then Some Trailing
  else None.

(** An intersection ["<target edge> <container edge>"]. *)
Definition parse_intersection (s : string) : option (edge * edge) :=
  match split space s with
  | [t; c] => t ← parse_edge t; c ← parse_edge c; Some (t, c)
  | _ => None
  end.

(** Where the target lies in the document, and the height of the viewport. *)
Record Layout : Type := { viewport : Q; top : Q; height : Q }.

#[local] Open Scope Q_scope.

(** The scroll offset at which an edge of the target meets an edge of the
    viewport. *)
Definition meets (i : edge * edge) (l : Layout) : Q :=
  (match i.1 with Leading => top l | Trailing => top l + height l end) -
  (match i.2 with Leading => 0 | Trailing => viewport l end).

(** [useScroll({ target, offset }).scrollYProgress]: 0 at the first
    intersection of [offset], 1 at the second, linear in between and
    constant outside. *)
Definition scrollYProgress (offset : list string) (l : Layout) (scrollY : Q) : Q :=
  match parse_intersection <$> offset with
  | [Some a; Some b] => clamp 0 1 (progress (meets a l) (meets b l) scrollY)
  | _ => 0
  end.

(** ** Facts *)

(** Once seen, always seen. *)
Lemma seen_observed (now : bool) (v : Visibility) :
  seen v = true -> seen (observed now v) = true.
Proof. by intros; simpl; apply orb_true_iff; left. Qed.

(** With [once] the hook goes from [false] to [true] and never back;
    without it the hook follows the observer. *)
Lemma useInView_once (now : bool) (v : Visibility) (o : InView.Options) :
  InView.once o = true -> useInView v o = true ->
  useInView (observed now v) o = true.
Proof. unfold useInView. intros ->. apply seen_observed. Qed.

Lemma useInView_follows (now : bool) (v : Visibility) (o : InView.Options) :
  InView.once o = false -> useInView (observed now v) o = now.
Proof. unfold useInView. by intros ->. Qed.

(** The progress is a fraction, whatever the options and the layout. *)
Lemma scrollYProgress_bounds (offset : list string) (l : Layout) (y : Q) :
  0 <= scrollYProgress offset l y <= 1.
Proof.
  unfold scrollYProgress. repeat destruct_match; try lra.
  apply clamp_bounds. lra.
Qed.

(** From the start of the target at the end of the viewport to the end of
    the target at its start: the element enters at the bottom with progress
    0 and leaves at the top with progress 1. *)
Lemma scrollYProgress_through (l : Layout) (y : Q) :
  scrollYProgress ["start end"; "end start"]%string l y =
  clamp 0 1 (progress (top l - viewport l) (top l + height l - 0) y).
Proof. reflexivity. Qed.

Lemma scrollYProgress_mono (l : Layout) (y y' : Q) :
  0 < viewport l + height l -> y <= y' ->
  scrollYProgress ["start end"; "end start"]%string l y <=
  scrollYProgress ["start end"; "end start"]%string l y'.
Proof.
  intros Hl Hy. rewrite !scrollYProgress_through.
  apply clamp_mono; [lra|]. apply progress_mono; lra.
Qed.
