(* ===== verification/Vdom.v ===== *)
(** * Vdom: the element trees the components return

    A React component is a function from props and state to a tree of
    elements.  [node H] is that tree, with [H] the type of event handlers:
    a host or component element with its tag, its [key], its props in the
    order they are written and its children; a text or a number child; the
    hole left by a [false] or [undefined] child; an array child (the value
    of a [list.map(...)] expression), whose items React tells apart by
    their keys.  [jsval] is the type of the
    values that occur as props (strings, numbers, objects, arrays).  JSX and
    the element model belong to React, not to the repository; the queries
    defined here (descendants, class tokens, handlers) are what the
    components' theorems are stated with. *)

From Stdlib Require Import Ascii String.
From S2P Require Import Prelude JsString.

#[local] Open Scope string_scope.

(** ** Prop values *)

#[warnings="-register-all"]
Inductive jsval : Type :=
| JUndefined
| JBool (b : bool)
| JNum (q : Q)
| JInfinity
| JStr (s : string)
| JMotion (q : Q)
| JRef
| JArr (l : list jsval)
| JObj (fields : list (string * jsval)).

Fixpoint jsval_decide_eq (x y : jsval) {struct x} : Decision (x = y).
Proof.
  refine
    (match x, y with
     | JUndefined, JUndefined => left eq_refl
     | JBool a, JBool b => cast_if (decide (a = b))
     | JNum a, JNum b => cast_if (decide (a = b))
     | JInfinity, JInfinity => left eq_refl
     | JStr a, JStr b => cast_if (decide (a = b))
     | JMotion a, JMotion b => cast_if (decide (a = b))
     | JRef, JRef => left eq_refl
     | JArr l, JArr l' => cast_if (@list_eq_dec _ jsval_decide_eq l l')
     | JObj l, JObj l' =>
         cast_if (@list_eq_dec _ (@prod_eq_dec _ _ _ jsval_decide_eq) l l')
     | _, _ => right _
     end); abstract congruence.
Defined.
#[export] Instance jsval_eq_dec : EqDecision jsval := jsval_decide_eq.

(** [v.name] for an object [v]; the last writer wins. *)
Definition obj_get (name : string) (v : jsval) : option jsval :=
  match v with
  | JObj fields => snd <$> last (List.filter (fun kv => fst kv =? name) fields)
  | _ => None
  end.

(** A prop is a value or an event handler. *)
Inductive prop (H : Type) : Type :=
| PVal (v : jsval)
| POn (h : H).
Arguments PVal {H} v.
Arguments POn {H} h.

#[export] Instance prop_eq_dec `{EqDecision H} : EqDecision (prop H).
Proof. solve_decision. Defined.

(** A [key] is a string, or the index of a [map] callback. *)
Inductive rkey : Type :=
| KStr (s : string)
| KIdx (i : nat).

#[export] Instance rkey_eq_dec : EqDecision rkey.
Proof. solve_decision. Defined.

(** ** Element trees *)

Unset Elimination Schemes.
Inductive node (H : Type) : Type :=
| Text (s : string)
| Num (q : Q)
| Hole
| Elem (tag : string) (key : option rkey) (ps : list (string * prop H))
    (children : list (node H))
| Arr (items : list (node H)).
Set Elimination Schemes.
Arguments Text {H} s.
Arguments Num {H} q.
Arguments Hole {H}.
Arguments Elem {H} tag key ps children.
Arguments Arr {H} items.

(** Induction with the hypothesis for every child. *)
Definition node_forall_ind (H : Type) (P : node H -> Prop)
  (ftext : forall s, P (Text s)) (fnum : forall q, P (Num q)) (fhole : P Hole)
  (felem : forall tag key ps cs, Forall P cs -> P (Elem tag key ps cs))
  (farr : forall cs, Forall P cs -> P (Arr cs)) :
  forall n, P n :=
  fix F (n : node H) : P n :=
    let G := fix G (l : list (node H)) : Forall P l :=
      match l with
      | [] => @List.Forall_nil _ P
      | c :: l' => @List.Forall_cons _ P c l' (F c) (G l')
      end in
    match n with
    | Text s => ftext s
    | Num q => fnum q
    | Hole => fhole
    | Elem tag key ps cs => felem tag key ps cs (G cs)
    | Arr cs => farr cs (G cs)
    end.

(** Shorthands for the commonest shapes: the [className] prop, an element
    with only a class, an object-valued and a string-valued prop. *)
Definition cls {H} (c : string) : string * prop H := ("className", PVal (JStr c)).

Definition el {H} (tag c : string) (children : list (node H)) : node H :=
  Elem tag None [cls c] children.

Definition pobj {H} (name : string) (fields : list (string * jsval)) : string * prop H :=
  (name, PVal (JObj fields)).

Definition pstr {H} (name v : string) : string * prop H := (name, PVal (JStr v)).

Section node_eq.
Context `{EqDecision H}.

Fixpoint node_decide_eq (x y : node H) {struct x} : Decision (x = y).
Proof.
  refine
    (match x, y with
     | Text a, Text b => cast_if (decide (a = b))
     | Num a, Num b => cast_if (decide (a = b))
     | Hole, Hole => left eq_refl
     | Elem t k ps cs, Elem t' k' ps' cs' =>
         cast_if_and4 (decide (t = t')) (decide (k = k')) (decide (ps = ps'))
           (@list_eq_dec _ node_decide_eq cs cs')
     | Arr cs, Arr cs' => cast_if (@list_eq_dec _ node_decide_eq cs cs')
     | _, _ => right _
     end); abstract congruence.
Defined.

#[export] Instance node_eq_dec : EqDecision (node H) := node_decide_eq.

End node_eq.

Section queries.
Context {H : Type}.
Implicit Types (n c : node H) (ps : list (string * prop H)).

(** The value of a prop: the last writer wins, as in an object literal. *)
Fixpoint get_prop (name : string) ps : option (prop H) :=
  match ps with
  | [] => None
  | (k, v) :: ps' =>
      match get_prop name ps' with
      | Some w => Some w
      | None => if k =? name then Some v else None
      end
  end.

(** [{...ps, name: v}]: overwrite in place, or add at the end. *)
Fixpoint set_prop (name : string) (v : prop H) ps : list (string * prop H) :=
  match ps with
  | [] => [(name, v)]
  | (k, w) :: ps' =>
      if k =? name then (k, v) :: ps' else (k, w) :: set_prop name v ps'
  end.

(** [{...ps, ...qs}]. *)
Definition spread ps (qs : list (string * prop H)) : list (string * prop H) :=
  fold_left (fun acc kv => set_prop kv.1 kv.2 acc) qs ps.

Definition tag_of n : string :=
  match n with Elem t _ _ _ => t | _ => "" end.

Definition key_of n : option rkey :=
  match n with Elem _ k _ _ => k | _ => None end.

Definition props_of n : list (string * prop H) :=
  match n with Elem _ _ ps _ => ps | _ => [] end.

Definition children_of n : list (node H) :=
  match n with Elem _ _ _ cs | Arr cs => cs | _ => [] end.

(** A string-valued prop, [None] when absent or of another type. *)
Definition str_prop (name : string) n : option string :=
  match get_prop name (props_of n) with
  | Some (PVal (JStr s)) => Some s
  | _ => None
  end.

Definition className n : string := default "" (str_prop "className" n).

(** The class tokens of an element. *)
Definition classes n : list string := tokens (className n).

Definition has_class (c : string) n : bool :=
  bool_decide (c ∈ classes n).

Definition is_tag (t : string) n : bool := tag_of n =? t.

(** The handler of an event prop. *)
Definition on_event (name : string) n : option H :=
  match get_prop name (props_of n) with
  | Some (POn h) => Some h
  | _ => None
  end.

Definition onClick n : option H := on_event "onClick" n.

(** Every node of the tree, the root first, in document order. *)
Fixpoint descendants n : list (node H) :=
  n :: match n with
       | Elem _ _ _ cs | Arr cs => flat_map descendants cs
       | _ => []
       end.

(** The nodes that pass a test, and their number. *)
Definition select (p : node H -> bool) n : list (node H) :=
  List.filter p (descendants n).

Definition count_nodes (p : node H -> bool) n : nat := count p (descendants n).

(** A value-valued prop. *)
Definition val_prop (name : string) n : option jsval :=
  match get_prop name (props_of n) with
  | Some (PVal v) => Some v
  | _ => None
  end.

(** The text children of the tree, in document order. *)
Definition texts n : list string :=
  omap (fun m => match m with Text s => Some s | _ => None end) (descendants n).

(** The numbers the tree shows, in document order. *)
Definition numbers n : list Q :=
  omap (fun m => match m with Num q => Some q | _ => None end) (descendants n).

(** The values of a string attribute over the tree, in document order. *)
Definition attrs (name : string) n : list string :=
  omap (str_prop name) (descendants n).

(** Every click handler of the tree passes a test. *)
Definition all_clicks (p : H -> bool) n : bool :=
  forallb (fun m => from_option p true (onClick m)) (descendants n).

(** Every node of the tree passes a test. *)
Definition all_nodes (p : node H -> bool) n : bool := forallb p (descendants n).

(** The click handlers of the tree, in document order. *)
Definition clicks n : list H := omap onClick (descendants n).

(** The [id] attributes of the tree. *)
Definition ids n : list string := attrs "id" n.

(** The items of an array all carry a key, and the keys are pairwise
    distinct: what React asks of an array child. *)
Definition keys_ok (cs : list (node H)) : bool :=
  forallb (fun c => bool_decide (is_Some (key_of c))) cs &&
  bool_decide (NoDup (omap key_of cs)).

(** Every array of the tree is well keyed. *)
Fixpoint keyed n : bool :=
  match n with
  | Elem _ _ _ cs => forallb keyed cs
  | Arr cs => keys_ok cs && forallb keyed cs
  | _ => true
  end.

Lemma get_prop_None name ps : name ∉ ps.*1 -> get_prop name ps = None.
Proof.
  induction ps as [|[k w] ps IH]; simpl; [done|].
  rewrite not_elem_of_cons. intros [Hk Hps]. rewrite IH by done.
  apply not_eq_sym, String.eqb_neq in Hk. by rewrite Hk.
Qed.

(** Reading back a prop that was written, in an object without repeated
    names. *)
Lemma get_prop_set_prop_eq name v ps :
  NoDup ps.*1 -> get_prop name (set_prop name v ps) = Some v.
Proof.
  induction ps as [|[k w] ps IH]; simpl; intros Hnd.
  - by rewrite String.eqb_refl.
  - apply NoDup_cons in Hnd as [Hk Hnd]. destruct (k =? name) eqn:E; simpl.
    + apply String.eqb_eq in E as ->.
      by rewrite get_prop_None, String.eqb_refl.
    + by rewrite IH.
Qed.

(** Writing a prop that the object does not have adds it. *)
Lemma get_prop_set_prop_fresh name v ps :
  get_prop name ps = None -> get_prop name (set_prop name v ps) = Some v.
Proof.
  induction ps as [|[k w] ps IH]; simpl; intros Hn.
  - by rewrite String.eqb_refl.
  - destruct (get_prop name ps) eqn:Hp; [done|].
    destruct (k =? name) eqn:E; [done|]. simpl. by rewrite IH, ?E.
Qed.

Lemma get_prop_set_prop_ne name name' v ps :
  name <> name' -> get_prop name' (set_prop name v ps) = get_prop name' ps.
Proof.
  intros Hne. induction ps as [|[k w] ps IH]; simpl.
  - apply String.eqb_neq in Hne. by rewrite Hne.
  - destruct (k =? name) eqn:E; simpl; [|by rewrite IH].
    apply String.eqb_eq in E as ->. apply String.eqb_neq in Hne. by rewrite Hne.
Qed.

(** Writing a prop keeps the names of an object pairwise distinct. *)
Lemma set_prop_names name v ps x :
  x ∈ (set_prop name v ps).*1 <-> x = name \/ x ∈ ps.*1.
Proof.
  induction ps as [|[k w] ps IH]; simpl.
  - rewrite list_elem_of_singleton, elem_of_nil. tauto.
  - destruct (k =? name) eqn:E; simpl; rewrite !elem_of_cons.
    + apply String.eqb_eq in E as ->. tauto.
    + rewrite IH. tauto.
Qed.

Lemma NoDup_set_prop name v ps : NoDup ps.*1 -> NoDup (set_prop name v ps).*1.
Proof.
  induction ps as [|[k w] ps IH]; simpl; [intros; apply NoDup_singleton|].
  intros [Hk Hnd]%NoDup_cons. destruct (k =? name) eqn:E; simpl.
  - by apply NoDup_cons.
  - apply NoDup_cons. split; [|auto]. rewrite set_prop_names.
    apply String.eqb_neq in E. intros [?|?]; done.
Qed.

(** Spreading props that leave a name alone leaves its value alone. *)
Lemma get_prop_spread_absent name ps (qs : list (string * prop H)) :
  name ∉ qs.*1 -> get_prop name (spread ps qs) = get_prop name ps.
Proof.
  unfold spread. revert ps.
  induction qs as [|[k v] qs IH]; intros ps Hn; [done|].
  rewrite fmap_cons, not_elem_of_cons in Hn. destruct Hn as [Hk Hn].
  simpl. rewrite IH by done. by apply get_prop_set_prop_ne.
Qed.

(** A prop that the spread writes is read back. *)
Lemma get_prop_spread_present name v ps (qs : list (string * prop H)) :
  NoDup ps.*1 -> NoDup qs.*1 -> (name, v) ∈ qs ->
  get_prop name (spread ps qs) = Some v.
Proof.
  unfold spread. revert ps.
  induction qs as [|[k w] qs IH]; intros ps Hps Hnd Hin;
    [by apply elem_of_nil in Hin|].
  rewrite fmap_cons in Hnd. apply NoDup_cons in Hnd as [Hk Hnd].
  apply elem_of_cons in Hin as [[= <- <-]|Hin]; simpl.
  - fold (spread (set_prop name v ps) qs).
    rewrite get_prop_spread_absent by done. by apply get_prop_set_prop_eq.
  - apply IH; [by apply NoDup_set_prop|done..].
Qed.

Lemma all_clicks_spec (p : H -> bool) n :
  all_clicks p n = true <->
  forall m h, m ∈ descendants n -> onClick m = Some h -> p h = true.
Proof.
  unfold all_clicks. rewrite forallb_forall. setoid_rewrite <- list_elem_of_In.
  split.
  - intros Hall m h Hm Hh. specialize (Hall m Hm). by rewrite Hh in Hall.
  - intros Hall m Hm. destruct (onClick m) as [h|] eqn:Hh; simpl; eauto.
Qed.

Lemma all_clicks_elim (p : H -> bool) n m h :
  all_clicks p n = true -> m ∈ descendants n -> onClick m = Some h -> p h = true.
Proof. rewrite all_clicks_spec. eauto. Qed.

(** The same for a decidable property of handlers. *)
Lemma all_clicks_decide (P : H -> Prop) `{forall h, Decision (P h)} n m h :
  all_clicks (fun h => bool_decide (P h)) n = true ->
  m ∈ descendants n -> onClick m = Some h -> P h.
Proof.
  intros Hall Hm Hh. eapply bool_decide_eq_true_1.
  exact (all_clicks_elim (fun h => bool_decide (P h)) n m h Hall Hm Hh).
Qed.

Lemma elem_of_clicks h n :
  h ∈ clicks n <-> exists m, m ∈ descendants n /\ onClick m = Some h.
Proof. unfold clicks. by rewrite list_elem_of_omap. Qed.

Lemma descendants_self n : n ∈ descendants n.
Proof. destruct n; simpl; apply elem_of_cons; by left. Qed.

Lemma descendants_Elem tag key ps cs :
  descendants (Elem tag key ps cs) = Elem tag key ps cs :: flat_map descendants cs.
Proof. reflexivity. Qed.

Lemma descendants_Arr cs : descendants (Arr cs) = Arr cs :: flat_map descendants cs.
Proof. reflexivity. Qed.

Lemma descendants_children n :
  descendants n = n :: flat_map descendants (children_of n).
Proof. by destruct n. Qed.

Lemma elem_of_flat_map_descendants c (cs : list (node H)) :
  c ∈ flat_map descendants cs <-> exists c', c' ∈ cs /\ c ∈ descendants c'.
Proof.
  rewrite list_elem_of_In, in_flat_map.
  by setoid_rewrite list_elem_of_In.
Qed.

Lemma descendants_child c n : c ∈ children_of n -> c ∈ descendants n.
Proof.
  intros Hc. rewrite descendants_children. apply elem_of_cons. right.
  apply elem_of_flat_map_descendants. eauto using descendants_self.
Qed.

(** A descendant of a descendant is a descendant. *)
Lemma descendants_trans n : forall m c,
  m ∈ descendants n -> c ∈ descendants m -> c ∈ descendants n.
Proof.
  induction n as [s|q| |tag key ps cs IH|cs IH] using node_forall_ind;
    intros m c Hm Hc; try (apply list_elem_of_singleton in Hm as ->; done).
  all: rewrite descendants_children in Hm; simpl children_of in Hm.
  all: apply elem_of_cons in Hm as [->|Hm]; [done|].
  all: apply elem_of_flat_map_descendants in Hm as (c' & Hc' & Hm).
  all: rewrite descendants_children; apply elem_of_cons; right.
  all: apply elem_of_flat_map_descendants; exists c'; split; [done|].
  all: rewrite Forall_forall in IH; eauto.
Qed.

(** A list of items with the keys [ks], pairwise distinct, is well keyed. *)
Lemma keys_ok_of_keys (cs : list (node H)) (ks : list rkey) :
  key_of <$> cs = Some <$> ks -> NoDup ks -> keys_ok cs = true.
Proof.
  intros Hks Hnd. unfold keys_ok. apply andb_true_iff. split.
  - apply forallb_forall. intros c Hc%list_elem_of_In.
    apply bool_decide_eq_true_2.
    apply (list_elem_of_fmap_2 key_of) in Hc. rewrite Hks in Hc.
    apply list_elem_of_fmap in Hc as (k & -> & _). by eexists.
  - apply bool_decide_eq_true_2.
    replace (omap key_of cs) with ks; [done|].
    clear Hnd. revert ks Hks. induction cs as [|c cs IH]; intros [|k ks] Hks;
      try done. rewrite !fmap_cons in Hks. injection Hks as Hc Hks.
    simpl. rewrite Hc. simpl. f_equal. by apply IH.
Qed.

(** Items built by a [map] callback that keys each with its index are well
    keyed. *)
Lemma keys_ok_imap {A} (f : nat -> A -> node H) (l : list A) :
  (forall i x, key_of (f i x) = Some (KIdx i)) -> keys_ok (imap f l) = true.
Proof.
  intros Hf. apply (keys_ok_of_keys _ (KIdx <$> seq 0 (length l))).
  - rewrite fmap_imap, <- list_fmap_compose, <- imap_seq_0.
    apply imap_ext. intros i x _. apply Hf.
  - apply NoDup_fmap_2; [|apply NoDup_seq]. by intros ?? [=].
Qed.

(** Items built by a [map] callback that keys each with a field of the item
    are well keyed when the field has no repetition. *)
Lemma keys_ok_fmap {A} (f : A -> node H) (k : A -> string) (l : list A) :
  (forall x, key_of (f x) = Some (KStr (k x))) -> NoDup (k <$> l) ->
  keys_ok (f <$> l) = true.
Proof.
  intros Hf Hnd. apply (keys_ok_of_keys _ (KStr <$> (k <$> l))).
  - rewrite <- !list_fmap_compose. apply list_fmap_ext. intros _ x _. apply Hf.
  - apply NoDup_fmap_2; [|done]. by intros ?? [=].
Qed.

(** Collecting over a tree goes through it one element at a time. *)
Lemma collect_Elem {B} (q : node H -> option B) tag key ps cs :
  omap q (descendants (Elem tag key ps cs)) =
  (option_list (q (Elem tag key ps cs)) ++
   flat_map (fun c => omap q (descendants c)) cs)%list.
Proof.
  rewrite descendants_Elem. cbn [omap list_omap].
  rewrite omap_flat_map. by destruct (q _).
Qed.

Lemma collect_Arr {B} (q : node H -> option B) cs :
  omap q (descendants (Arr cs)) =
  (option_list (q (Arr cs)) ++ flat_map (fun c => omap q (descendants c)) cs)%list.
Proof.
  rewrite descendants_Arr. cbn [omap list_omap].
  rewrite omap_flat_map. by destruct (q _).
Qed.

(** Over children built by a [map] with index, item by item. *)
Lemma collect_imap {A B} (q : node H -> option B) (g : nat -> A -> node H)
    (f : A -> list B) (l : list A) :
  (forall i a, l !! i = Some a -> omap q (descendants (g i a)) = f a) ->
  flat_map (fun c => omap q (descendants c)) (imap g l) = l ≫= f.
Proof.
  revert g. induction l as [|a l IH]; intros g Hg; [done|].
  rewrite imap_cons. cbn [flat_map]. rewrite (Hg 0%nat a), (IH (g ∘ S)); [done| |done].
  intros i b Hb. apply (Hg (S i)), Hb.
Qed.

(** What lies below the [k]-th child of a node lies below the node. *)
Lemma descendants_lookup n k c m :
  children_of n !! k = Some c -> m ∈ descendants c -> m ∈ descendants n.
Proof.
  intros Hc%list_elem_of_lookup_2 Hm.
  eapply descendants_trans; [by apply descendants_child|done].
Qed.

Lemma texts_Elem tag key ps cs :
  texts (Elem tag key ps cs) = flat_map texts cs.
Proof. unfold texts. rewrite descendants_Elem. apply omap_flat_map. Qed.

Lemma texts_Arr cs : texts (Arr cs) = flat_map texts cs.
Proof. unfold texts. rewrite descendants_Arr. apply omap_flat_map. Qed.

Lemma count_nodes_Elem p tag key ps cs :
  count_nodes p (Elem tag key ps cs) =
  ((if p (Elem tag key ps cs) then 1 else 0) +
   count p (flat_map descendants cs))%nat.
Proof. unfold count_nodes. by rewrite descendants_Elem, count_cons. Qed.

Lemma count_nodes_Arr p cs :
  count_nodes p (Arr cs) =
  ((if p (Arr cs) then 1 else 0) + count p (flat_map descendants cs))%nat.
Proof. unfold count_nodes. by rewrite descendants_Arr, count_cons. Qed.

Lemma count_nodes_leaf p n :
  children_of n = [] -> count_nodes p n = if p n then 1%nat else 0%nat.
Proof.
  intros Hn. unfold count_nodes. rewrite descendants_children, Hn, count_cons.
  by destruct (p n).
Qed.

Lemma count_nodes_Text p s :
  count_nodes p (Text s) = if p (Text s) then 1%nat else 0%nat.
Proof. by apply count_nodes_leaf. Qed.

Lemma count_nodes_Num p q :
  count_nodes p (Num q) = if p (Num q) then 1%nat else 0%nat.
Proof. by apply count_nodes_leaf. Qed.

Lemma count_nodes_Hole p :
  count_nodes p Hole = if p Hole then 1%nat else 0%nat.
Proof. by apply count_nodes_leaf. Qed.

Lemma count_flat_map_nil (p : node H -> bool) :
  count p (flat_map descendants []) = 0%nat.
Proof. reflexivity. Qed.

Lemma count_flat_map_cons p c (cs : list (node H)) :
  count p (flat_map descendants (c :: cs)) =
  (count_nodes p c + count p (flat_map descendants cs))%nat.
Proof. simpl. by rewrite count_app. Qed.

Lemma count_flat_map_app p (cs ds : list (node H)) :
  count p (flat_map descendants (cs ++ ds)) =
  (count p (flat_map descendants cs) + count p (flat_map descendants ds))%nat.
Proof. by rewrite flat_map_app, count_app. Qed.

(** The count over children built by a [map], when every child built from
    an item holds as many matches as [f] says. *)
Lemma count_flat_map_fmap {A} p (g : A -> node H) (f : A -> bool) (l : list A) :
  (forall a, a ∈ l -> count_nodes p (g a) = if f a then 1%nat else 0%nat) ->
  count p (flat_map descendants (g <$> l)) = count f l.
Proof.
  induction l as [|a l IH]; intros Hg; [done|].
  rewrite fmap_cons, count_flat_map_cons, count_cons, Hg, IH;
    [done| |]; intros; try apply Hg; set_solver.
Qed.

(** The count over children built by a [map] with index, when the child
    built at an index holds one match or none, as [f] says. *)
Lemma count_flat_map_imap {A} p (g : nat -> A -> node H) (f : nat -> bool)
    (l : list A) :
  (forall i a, l !! i = Some a -> count_nodes p (g i a) = if f i then 1%nat else 0%nat) ->
  count p (flat_map descendants (imap g l)) = count f (seq 0 (length l)).
Proof.
  revert g f. induction l as [|a l IH]; intros g f Hg; [done|].
  rewrite imap_cons, count_flat_map_cons. cbn [length seq].
  rewrite count_cons, (Hg 0%nat a), (IH (g ∘ S) (f ∘ S)), <- fmap_S_seq, count_fmap;
    [done| |done].
  intros i b Hb. apply (Hg (S i)), Hb.
Qed.

(** A test on every node, and a collection over every node, go through the
    tree one element at a time. *)
Lemma all_nodes_Elem p tag key ps cs :
  all_nodes p (Elem tag key ps cs) =
  p (Elem tag key ps cs) && forallb (all_nodes p) cs.
Proof.
  unfold all_nodes. rewrite descendants_Elem. cbn [forallb].
  by rewrite forallb_flat_map.
Qed.

Lemma all_nodes_Arr p cs :
  all_nodes p (Arr cs) = p (Arr cs) && forallb (all_nodes p) cs.
Proof.
  unfold all_nodes. rewrite descendants_Arr. cbn [forallb].
  by rewrite forallb_flat_map.
Qed.

(** Children built by a [map] with index pass a test when the child built
    at every index does. *)
Lemma all_nodes_imap {A} p (g : nat -> A -> node H) (l : list A) :
  (forall i a, l !! i = Some a -> all_nodes p (g i a) = true) ->
  forallb (all_nodes p) (imap g l) = true.
Proof.
  intros Hg. apply forallb_true. intros n (i & a & -> & Ha)%elem_of_lookup_imap_1.
  by apply Hg with (i := i).
Qed.

Lemma all_nodes_elim p n m :
  all_nodes p n = true -> m ∈ descendants n -> p m = true.
Proof. apply forallb_elem_of. Qed.

Lemma all_clicks_all_nodes (p : H -> bool) n :
  all_clicks p n = all_nodes (fun m => from_option p true (onClick m)) n.
Proof. reflexivity. Qed.

Lemma attrs_Elem name tag key ps cs :
  attrs name (Elem tag key ps cs) =
  (option_list (str_prop name (Elem tag key ps cs)) ++ flat_map (attrs name) cs)%list.
Proof.
  unfold attrs. rewrite descendants_Elem. cbn [omap list_omap].
  rewrite omap_flat_map. by destruct (str_prop _ _).
Qed.

Lemma attrs_Arr name cs : attrs name (Arr cs) = flat_map (attrs name) cs.
Proof. unfold attrs. rewrite descendants_Arr. cbn. by rewrite omap_flat_map. Qed.

End queries.

(** ** Changing the handler type *)

Definition prop_map {H K} (f : H -> K) (p : prop H) : prop K :=
  match p with PVal v => PVal v | POn h => POn (f h) end.

Fixpoint node_map {H K} (f : H -> K) (n : node H) : node K :=
  match n with
  | Text s => Text s
  | Num q => Num q
  | Hole => Hole
  | Elem tag key ps cs =>
      Elem tag key (prod_map id (prop_map f) <$> ps) (node_map f <$> cs)
  | Arr cs => Arr (node_map f <$> cs)
  end.

Lemma descendants_node_map {H K} (f : H -> K) (n : node H) :
  descendants (node_map f n) = node_map f <$> descendants n.
Proof.
  assert (Hcs : forall cs : list (node H),
    Forall (fun c => descendants (node_map f c) = node_map f <$> descendants c) cs ->
    flat_map descendants (node_map f <$> cs) = node_map f <$> flat_map descendants cs).
  { induction 1 as [|c cs Hc _ IHcs]; [done|].
    rewrite fmap_cons. cbn [flat_map]. by rewrite fmap_app, Hc, IHcs. }
  induction n as [s|q| |tag key ps cs IH|cs IH] using node_forall_ind; try done.
  - cbn [node_map]. rewrite !descendants_Elem, fmap_cons. cbn [node_map].
    by rewrite Hcs.
  - cbn [node_map]. rewrite !descendants_Arr, fmap_cons. cbn [node_map].
    by rewrite Hcs.
Qed.

(** Evaluate the test of a counting step on an element whose props are
    known. *)
Ltac eval_test :=
  match goal with
  | |- context [if ?p ?n then 1%nat else 0%nat] =>
      let b := eval vm_compute in (p n) in
      first [constr_eq b true | constr_eq b false];
      replace (p n) with b by by_compute
  end.

(** Count through a tree of elements: unfold a counting step and evaluate
    its test, as long as this is possible. *)
Ltac count_tree :=
  repeat first
    [ rewrite count_nodes_Elem; eval_test
    | rewrite count_nodes_Text; eval_test
    | rewrite count_nodes_Num; eval_test
    | rewrite count_nodes_Hole; eval_test
    | rewrite count_flat_map_cons
    | rewrite count_nodes_Arr
    | rewrite count_flat_map_nil ];
  rewrite ?count_nil.

(** Test every node of a tree of elements, one element at a time. *)
Ltac all_tree :=
  repeat first
    [ rewrite all_nodes_Elem
    | rewrite all_nodes_Arr
    | progress cbn [forallb] ].

(** Collect over a tree of elements, one element at a time. *)
Ltac collect_tree :=
  repeat first
    [ rewrite collect_Elem
    | rewrite collect_Arr
    | progress cbn [flat_map] ].

(** Go down to the [k]-th child. *)
Ltac child k := eapply (descendants_lookup _ k); [reflexivity|].

#[export] Hint Resolve descendants_self descendants_child : cb.
#[export] Hint Rewrite @count_nodes_Elem @count_nodes_Arr @count_flat_map_cons @count_flat_map_app : cb_rw.
