(* ===== verification/Types.v ===== *)
(** * Types: src/types.ts

    The [Bundle] interface, the string enum [ColorOption] with the string
    each member stands for at run time, and the constant arrays [COLORS] and
    [SIZES], with the facts the page relies on: the enum's strings are
    pairwise distinct, [COLORS] lists every member once, [SIZES] has no
    repetition. *)

From Stdlib Require Import Ascii String.
From S2P Require Import Prelude.

#[local] Open Scope string_scope.

(** [interface Bundle]; the optional [badge] is [None] when absent. *)
Module Bundle.
Record Bundle : Type := {
  id : string;
  name : string;
  description : string;
  includes : list string;
  price : Q;
  badge : option string;
  cta : string;
  image : string
}.
End Bundle.
Abbreviation Bundle := Bundle.Bundle.

#[export] Instance Bundle_eq_dec : EqDecision Bundle.
Proof. solve_decision. Defined.

(** [enum ColorOption]. *)
Inductive ColorOption : Type := Onyx | Navy | Grey | Green.

#[export] Instance ColorOption_eq_dec : EqDecision ColorOption.
Proof. solve_decision. Defined.

(** The string a member is at run time. *)
Definition ColorOption_value (c : ColorOption) : string :=
  match c with
  | Onyx => "Onyx Black"
  | Navy => "Arctic Navy"
  | Grey => "Stone Grey"
  | Green => "Forest Green"
  end.

(** The elements of [COLORS]: [{ name: ColorOption, hex: string }]. *)
Module Color.
Record Color : Type := { name : ColorOption; hex : string }.
End Color.
Abbreviation Color := Color.Color.

#[export] Instance Color_eq_dec : EqDecision Color.
Proof. solve_decision. Defined.

Definition COLORS : list Color := [
  {| Color.name := Onyx; Color.hex := "#1a1a1a" |};
  {| Color.name := Navy; Color.hex := "#1e3a8a" |};
  {| Color.name := Grey; Color.hex := "#4b5563" |};
  {| Color.name := Green; Color.hex := "#14532d" |}
].

Definition SIZES : list string := ["S"; "M"; "L"; "XL"].

(** [a.name === b.name]: the comparison of two entries the page makes, on
    the strings. *)
Definition same_name (a b : Color) : bool :=
  ColorOption_value (Color.name a) =? ColorOption_value (Color.name b).

(** A CSS colour of the form [#rrggbb]. *)
Definition is_hex_digit (c : ascii) : bool :=
  let n := nat_of_ascii c in
  ((48 <=? n) && (n <=? 57) || (97 <=? n) && (n <=? 102))%nat.

Definition is_hex_color (s : string) : bool :=
  match s with
  | String "#" r =>
      (String.length r =? 6)%nat && forallb is_hex_digit (list_ascii_of_string r)
  | _ => false
  end.

(** ** Facts *)

(** Two members of the enum never stand for the same string. *)
#[export] Instance ColorOption_value_inj : Inj (=) (=) ColorOption_value.
Proof. intros [] [] Heq; (done || discriminate Heq). Qed.

Lemma same_name_spec (a b : Color) :
  same_name a b = true <-> Color.name a = Color.name b.
Proof.
  unfold same_name. rewrite String.eqb_eq.
  split; [apply (inj ColorOption_value)|congruence].
Qed.

Lemma same_name_decide (a b : Color) :
  same_name a b = bool_decide (Color.name a = Color.name b).
Proof.
  apply eq_true_iff_eq. by rewrite same_name_spec, bool_decide_eq_true.
Qed.

(** [COLORS] lists every member of the enum, once. *)
Lemma COLORS_names : Color.name <$> COLORS = [Onyx; Navy; Grey; Green].
Proof. reflexivity. Qed.

Lemma COLORS_names_NoDup : NoDup (Color.name <$> COLORS).
Proof. rewrite COLORS_names. by apply (bool_decide_unpack _). Qed.

Lemma COLORS_complete (c : ColorOption) : c ∈ Color.name <$> COLORS.
Proof. rewrite COLORS_names. destruct c; set_solver. Qed.

Lemma COLORS_NoDup : NoDup COLORS.
Proof. eapply NoDup_fmap_1, COLORS_names_NoDup. Qed.

(** An entry of [COLORS] is determined by its name. *)
Lemma COLORS_name_inj (a b : Color) :
  a ∈ COLORS -> b ∈ COLORS -> Color.name a = Color.name b -> a = b.
Proof.
  unfold COLORS. rewrite !elem_of_cons, !elem_of_nil.
  intros Ha Hb; destruct_or!; subst; simpl; (done || discriminate).
Qed.

Lemma COLORS_hex : Forall (fun c => is_hex_color (Color.hex c) = true) COLORS.
Proof. by repeat constructor. Qed.

Lemma SIZES_NoDup : NoDup SIZES.
Proof. by apply (bool_decide_unpack _). Qed.

#[export] Hint Resolve COLORS_names_NoDup COLORS_NoDup SIZES_NoDup COLORS_complete : cb.
