(* ===== verification/Dom.v ===== *)
(** * Dom: what the components ask of the browser and of React

    - [effect]: the statements the event handlers of src/App.tsx and
      src/components/Navbar.tsx execute (calls of the five state setters,
      [scrollIntoView], [window.scrollTo], the opacity fallback of an image);
      a handler is the list of effects its closure runs, in order.
    - [EventTarget]: the contract of [addEventListener] /
      [removeEventListener] that the scroll subscription of the navigation
      bar relies on, as a type class with its laws, and [Window], the
      implementation the page machine runs on.  A listener is identified by
      a number, the identity of the closure that was registered. *)

From Stdlib Require Import Ascii String.
From S2P Require Import Prelude Types.

#[local] Open Scope string_scope.

(** ** Effects of event handlers *)

Inductive effect : Type :=
| SetIsScrolled (b : bool)
| SetIsMobileMenuOpen (b : bool)
| SetSelectedColor (c : Color)
| SetSelectedSize (s : string)
| SetActiveFaq (i : option nat)
| ScrollIntoView (id : string)
| ScrollToInnerHeight
| SetTargetOpacity (v : string).

#[export] Instance effect_eq_dec : EqDecision effect.
Proof. solve_decision. Defined.

Abbreviation handler := (list effect).

(** ** Event targets *)

(** The listeners of a target per event type, in the order they are called.
    Adding a listener that is registered already changes nothing; removing
    one leaves the others in place. *)
Class EventTarget (T : Type) : Type := {
  listeners : string -> T -> list nat;
  addEventListener : string -> nat -> T -> T;
  removeEventListener : string -> nat -> T -> T;
  listeners_add ty h t :
    listeners ty (addEventListener ty h t) =
    if bool_decide (h ∈ listeners ty t) then listeners ty t
    else (listeners ty t ++ [h])%list;
  listeners_add_ne ty ty' h t :
    ty <> ty' -> listeners ty' (addEventListener ty h t) = listeners ty' t;
  listeners_remove ty h t :
    listeners ty (removeEventListener ty h t) =
    filter (fun h' => h' <> h) (listeners ty t);
  listeners_remove_ne ty ty' h t :
    ty <> ty' -> listeners ty' (removeEventListener ty h t) = listeners ty' t
}.

(** *** Consequences of the contract *)

Section event_target.
Context `{EventTarget T}.
Implicit Types (t : T) (ty : string) (h : nat).

Lemma elem_of_listeners_add ty h h' t :
  h' ∈ listeners ty (addEventListener ty h t) <-> h' = h \/ h' ∈ listeners ty t.
Proof.
  rewrite listeners_add. case_bool_decide.
  - split; [auto|]. by intros [->|?].
  - rewrite elem_of_app, list_elem_of_singleton. tauto.
Qed.

Lemma elem_of_listeners_remove ty h h' t :
  h' ∈ listeners ty (removeEventListener ty h t) <-> h' <> h /\ h' ∈ listeners ty t.
Proof. rewrite listeners_remove, list_elem_of_filter. done. Qed.

(** A removed listener is not called any more. *)
Lemma listeners_remove_absent ty h t :
  h ∉ listeners ty (removeEventListener ty h t).
Proof. rewrite elem_of_listeners_remove. tauto. Qed.

(** Removing a listener that was added to a target that did not have it
    restores the target's listeners. *)
Lemma listeners_remove_add ty h t :
  h ∉ listeners ty t ->
  listeners ty (removeEventListener ty h (addEventListener ty h t)) = listeners ty t.
Proof.
  intros Hh. rewrite listeners_remove, listeners_add.
  rewrite bool_decide_eq_false_2 by done.
  rewrite filter_app, filter_cons_False, filter_nil, app_nil_r by tauto.
  apply filter_all. intros h' Hh'. congruence.
Qed.

(** Registration keeps the listeners pairwise distinct. *)
Lemma listeners_add_NoDup ty ty' h t :
  NoDup (listeners ty' t) -> NoDup (listeners ty' (addEventListener ty h t)).
Proof.
  intros Hnd. destruct (decide (ty = ty')) as [<-|Hne].
  - rewrite listeners_add. case_bool_decide; [done|].
    apply NoDup_app. split_and!; [done| |apply NoDup_singleton].
    intros x Hx ->%list_elem_of_singleton. done.
  - by rewrite listeners_add_ne.
Qed.

Lemma listeners_remove_NoDup ty ty' h t :
  NoDup (listeners ty' t) -> NoDup (listeners ty' (removeEventListener ty h t)).
Proof.
  intros Hnd. destruct (decide (ty = ty')) as [<-|Hne].
  - rewrite listeners_remove. by apply NoDup_filter.
  - by rewrite listeners_remove_ne.
Qed.

End event_target.

(** ** The window *)

Module Window.
Record Window : Type := {
  scrollY : Q;
  registered : list (string * nat)
}.
End Window.
Abbreviation Window := Window.Window.

(** [window.scrollY] after the browser scrolled to [y]. *)
Definition scroll_to (y : Q) (w : Window) : Window :=
  {| Window.scrollY := y; Window.registered := Window.registered w |}.

Definition window_listeners (ty : string) (w : Window) : list nat :=
  (filter (fun p => p.1 = ty) (Window.registered w)).*2.

Definition window_add (ty : string) (h : nat) (w : Window) : Window :=
  if bool_decide (h ∈ window_listeners ty w) then w
  else {| Window.scrollY := Window.scrollY w;
          Window.registered := (Window.registered w ++ [(ty, h)])%list |}.

Definition window_remove (ty : string) (h : nat) (w : Window) : Window :=
  {| Window.scrollY := Window.scrollY w;
     Window.registered := filter (fun p => p <> (ty, h)) (Window.registered w) |}.

Lemma window_listeners_remove_eq ty h (l : list (string * nat)) :
  (filter (fun p => p.1 = ty) (filter (fun p => p <> (ty, h)) l)).*2 =
  filter (fun h' => h' <> h) (filter (fun p => p.1 = ty) l).*2.
Proof.
  induction l as [|[ty0 h0] l IH]; [done|].
  rewrite !filter_cons; simpl.
  destruct (decide (ty0 = ty)) as [->|Hty], (decide (h0 = h)) as [->|Hh].
  - rewrite decide_False by tauto.
    by rewrite fmap_cons, filter_cons_False by (simpl; tauto).
  - rewrite decide_True by congruence. rewrite filter_cons_True by done.
    rewrite !fmap_cons, filter_cons_True by done. simpl. by rewrite IH.
  - rewrite decide_True by congruence. by rewrite filter_cons_False.
  - rewrite decide_True by congruence. by rewrite filter_cons_False.
Qed.

Lemma window_listeners_remove_ne ty ty' h (l : list (string * nat)) :
  ty <> ty' ->
  filter (fun p => p.1 = ty') (filter (fun p => p <> (ty, h)) l) =
  filter (fun p => p.1 = ty') l.
Proof.
  intros Hne. induction l as [|[ty0 h0] l IH]; [done|].
  rewrite !filter_cons; simpl.
  destruct (decide (ty0 = ty')) as [->|Hty].
  - rewrite decide_True by congruence. rewrite filter_cons_True by done.
    by rewrite IH.
  - case_decide; [by rewrite filter_cons_False|done].
Qed.

#[export, refine] Instance window_event_target : EventTarget Window := {
  listeners := window_listeners;
  addEventListener := window_add;
  removeEventListener := window_remove
}.
Proof.
  - intros ty h [y l]. unfold window_add.
    case_bool_decide; [done|]. unfold window_listeners; simpl.
    by rewrite filter_app, filter_cons_True, filter_nil, fmap_app.
  - intros ty ty' h [y l] Hne. unfold window_add.
    case_bool_decide; [done|]. unfold window_listeners; simpl.
    by rewrite filter_app, filter_cons_False, filter_nil, app_nil_r.
  - intros ty h [y l]. unfold window_remove, window_listeners; simpl.
    apply window_listeners_remove_eq.
  - intros ty ty' h [y l] Hne. unfold window_remove, window_listeners; simpl.
    by rewrite window_listeners_remove_ne.
Defined.

Lemma listeners_scroll_to ty y w :
  listeners ty (scroll_to y w) = listeners ty w.
Proof. reflexivity. Qed.

#[export] Hint Rewrite @listeners_add @listeners_remove @listeners_scroll_to : cb_rw.
#[export] Hint Resolve @listeners_remove_absent @listeners_add_NoDup
  @listeners_remove_NoDup : cb.
