(* ===== verification/Button.v ===== *)
(** * Button: src/components/Button.tsx

    The [Button] component: a [motion.button] whose class list is the base
    style, the style of the variant, [w-full] when [fullWidth] is set, and
    the caller's classes; the remaining props of the caller (its [onClick]
    among them) are spread over the element's own; a translucent overlay is
    rendered for the primary variant only.  The props that the component
    destructures with a default are [option]s here, [None] for a prop the
    caller leaves out. *)

From Stdlib Require Import Ascii String.
From S2P Require Import Prelude JsString Vdom.

#[local] Open Scope string_scope.

(** [variant?: 'primary' | 'secondary' | 'outline']. *)
Inductive Variant : Type := primary | secondary | outline.

#[export] Instance Variant_eq_dec : EqDecision Variant.
Proof. solve_decision. Defined.

Definition baseStyles : string :=
  "px-8 py-4 text-sm font-medium uppercase tracking-widest transition-all duration-300 relative overflow-hidden group".

Definition variants (v : Variant) : string :=
  match v with
  | primary => "bg-white text-black hover:bg-ice-100"
  | secondary => "bg-charcoal text-white hover:bg-neutral-800 border border-white/10"
  | outline => "bg-transparent border border-white text-white hover:bg-white hover:text-black"
  end.

(** The class attribute: the template string of the component. *)
Definition Button_className (variant : Variant) (fullWidth : bool)
    (className : string) : string :=
  baseStyles ++ " " ++ variants variant ++ " " ++
  (if fullWidth then "w-full" else "") ++ " " ++ className.

(** The overlay of the primary variant. *)
Definition Button_overlay {H} : node H :=
  Elem "div" None
    [("className", PVal (JStr
       "absolute inset-0 bg-ice-200 opacity-0 group-hover:opacity-20 transition-opacity duration-300"))]
    [].

Definition Button {H} (variant : option Variant) (fullWidth : option bool)
    (className : option string) (props : list (string * prop H))
    (children : list (node H)) : node H :=
  let variant := default primary variant in
  let fullWidth := default false fullWidth in
  let className := default "" className in
  Elem "motion.button" None
    (spread
       [("whileHover", PVal (JObj [("scale", JNum 1.02)]));
        ("whileTap", PVal (JObj [("scale", JNum 0.98)]));
        ("className", PVal (JStr (Button_className variant fullWidth className)))]
       props)
    [Elem "span" None [("className", PVal (JStr "relative z-10"))] children;
     if bool_decide (variant = primary) then Button_overlay else Hole].

(** The caller's props do not name the props the component sets itself. *)
Definition plain_props {H} (props : list (string * prop H)) : Prop :=
  NoDup (props.*1) /\
  ("className" ∉ props.*1) /\ ("whileHover" ∉ props.*1) /\ ("whileTap" ∉ props.*1).

(** ** Facts *)

Section button.
Context {H : Type}.
Implicit Types (props : list (string * prop H)) (children : list (node H)).

(** The class tokens of the template, part by part. *)
Lemma tokens_Button_className variant fullWidth className :
  tokens (Button_className variant fullWidth className) =
  (tokens baseStyles ++ tokens (variants variant) ++
   (if fullWidth then ["w-full"] else []) ++ tokens className)%list.
Proof.
  unfold Button_className. rewrite !tokens_app_blank. by destruct fullWidth.
Qed.

Lemma className_Button variant fullWidth className props children :
  plain_props props ->
  Vdom.className (Button variant fullWidth className props children) =
  Button_className (default primary variant) (default false fullWidth)
    (default "" className).
Proof.
  intros (_ & Hc & _). unfold Vdom.className, str_prop, Button; simpl props_of.
  by rewrite get_prop_spread_absent.
Qed.

(** Claim C35. The classes of a button are those of the base style, of its variant, of
    [fullWidth], and the caller's, in this order. *)
Lemma classes_Button variant fullWidth className props children :
  plain_props props ->
  classes (Button variant fullWidth className props children) =
  (tokens baseStyles ++ tokens (variants (default primary variant)) ++
   (if default false fullWidth then ["w-full"] else []) ++
   tokens (default "" className))%list.
Proof.
  intros Hp. unfold classes. rewrite className_Button by done.
  apply tokens_Button_className.
Qed.

(** Claim C36. The click handler the caller passes is the click handler of the button. *)
Lemma onClick_Button variant fullWidth className props children h :
  plain_props props -> ("onClick", POn h) ∈ props ->
  onClick (Button variant fullWidth className props children) = Some h.
Proof.
  intros (Hnd & _) Hin. unfold onClick, on_event, Button; simpl props_of.
  rewrite (get_prop_spread_present _ (POn h)); [done| |done..].
  by apply (bool_decide_unpack _).
Qed.

(** A button without [onClick] has no click handler. *)
Lemma onClick_Button_None variant fullWidth className props children :
  "onClick" ∉ props.*1 ->
  onClick (Button variant fullWidth className props children) = None.
Proof.
  intros Hn. unfold onClick, on_event, Button; simpl props_of.
  by rewrite get_prop_spread_absent.
Qed.

(** The overlay is rendered for the primary variant, and only for it. *)
Lemma overlay_Button variant fullWidth className props children :
  Button_overlay ∈ children_of (Button variant fullWidth className props children)
  <-> default primary variant = primary.
Proof.
  unfold Button; simpl. rewrite !elem_of_cons, elem_of_nil.
  case_bool_decide; split; try done; [by auto|].
  intros [?|[?|[]]]; done.
Qed.

End button.

#[export] Hint Rewrite @className_Button using (by auto with cb) : cb_rw.

Lemma classes_Button_witness :
  classes (Button (H:=nat) (Some secondary) (Some true) (Some "mt-2")
             [("onClick", POn 7%nat)] []) =
  (tokens baseStyles ++ tokens (variants (default primary (Some secondary))) ++
   (if default false (Some true) then ["w-full"] else []) ++
   tokens (default "" (Some "mt-2")))%list.
Proof. apply classes_Button. split_and!; by_decide. Defined.

Lemma onClick_Button_witness :
  onClick (Button (H:=nat) None None None [("onClick", POn 7%nat)] []) = Some 7%nat.
Proof. apply onClick_Button; [split_and!|]; by_decide. Defined.
