(* ===== verification/ModelViewer.v ===== *)
(** * ModelViewer: the embedded 3D viewer (src/components/ModelViewer.tsx)

    A component without props, state or handlers: a frame around an
    [iframe] that loads the viewer of an external site.  [App] does not
    render it (file [Page]). *)

From Stdlib Require Import Ascii String.
From S2P Require Import Prelude JsString Vdom.

#[local] Open Scope string_scope.

(** The address of the embedded model. *)
Definition viewer_src : string :=
  "https://sketchfab.com/models/c378802e1ac840498f2e119be1f6a9b7/embed?ui_theme=dark&autostart=1&transparent=1".

Definition ModelViewer {H} : node H :=
  el "div" "w-full h-full relative group"
    [el "div"
       "absolute top-1/2 left-1/2 -translate-x-1/2 -translate-y-1/2 w-[120%] h-[120%] bg-blue-500/10 blur-[100px] rounded-full pointer-events-none"
       [];
     el "div"
       "sketchfab-embed-wrapper w-full h-full relative z-10 rounded-xl overflow-hidden shadow-2xl border border-white/5"
       [Elem "iframe" None
          [pstr "title" "Fashion Design Underwear For Men Boxer Briefs";
           pstr "frameBorder" "0";
           ("allowFullScreen", PVal (JBool true));
           pstr "allow" "autoplay; fullscreen; xr-spatial-tracking";
           pstr "src" viewer_src;
           cls "w-full h-full min-h-[400px] md:min-h-[600px]"]
          []]].

(** ** Facts *)

(** The component embeds one frame, the viewer, and handles no event. *)
Lemma ModelViewer_frame {H} :
  attrs "src" (ModelViewer (H:=H)) = [viewer_src] /\
  count_nodes (is_tag "iframe") (ModelViewer (H:=H)) = 1%nat /\
  clicks (ModelViewer (H:=H)) = [].
Proof. split_and!; reflexivity. Qed.

(** The frame may go full screen. *)
Lemma ModelViewer_fullscreen {H} :
  val_prop "allowFullScreen" <$> select (is_tag "iframe") (ModelViewer (H:=H)) =
  [Some (JBool true)].
Proof. reflexivity. Qed.
