(* ===== verification/Navbar.v ===== *)
(** * Navbar: src/components/Navbar.tsx

    The navigation bar keeps two booleans: [isScrolled], set by the scroll
    listener to whether [window.scrollY] exceeds 50, and [isMobileMenuOpen],
    flipped by the menu button and cleared by every link of the mobile
    menu.  The listener is registered when the component mounts and removed
    by the cleanup of the same effect.

    [State] and [init] are the two [useState] cells; [handleScroll] is the
    listener's body; [subscribe] and [unsubscribe] are the effect and its
    cleanup, written against the [EventTarget] interface of [Dom]; [run]
    executes an effect of a handler on the state; [render] is the element
    tree the component returns, part by part in the order of the source. *)

From Stdlib Require Import Ascii String.
From S2P Require Import Prelude JsString Vdom Types Dom Button.

#[local] Open Scope string_scope.
#[local] Open Scope js_scope.

Module Navbar.

(** ** State *)

Record State : Type := {
  isScrolled : bool;
  isMobileMenuOpen : bool
}.

#[export] Instance State_eq_dec : EqDecision State.
Proof. solve_decision. Defined.

(** [useState(false)], twice. *)
Definition init : State := {| isScrolled := false; isMobileMenuOpen := false |}.

Definition setIsScrolled (b : bool) (s : State) : State :=
  {| isScrolled := b; isMobileMenuOpen := isMobileMenuOpen s |}.

Definition setIsMobileMenuOpen (b : bool) (s : State) : State :=
  {| isScrolled := isScrolled s; isMobileMenuOpen := b |}.

(** One effect of a handler; the effects of other components and of the
    browser leave the state alone. *)
Definition run (e : effect) (s : State) : State :=
  match e with
  | SetIsScrolled b => setIsScrolled b s
  | SetIsMobileMenuOpen b => setIsMobileMenuOpen b s
  | _ => s
  end.

(** A handler: its effects, in order. *)
Definition run_handler (h : handler) (s : State) : State :=
  fold_left (fun s e => run e s) h s.

(** ** The scroll subscription *)

(** The threshold of the style switch. *)
Definition scroll_threshold : Q := 50.

(** [handleScroll]: [setIsScrolled(window.scrollY > 50)]. *)
Definition handleScroll (w : Window) : handler :=
  [SetIsScrolled (Window.scrollY w >? scroll_threshold)].

(** The effect: [window.addEventListener('scroll', handleScroll)], for the
    closure [h]. *)
Definition subscribe `{EventTarget T} (h : nat) (w : T) : T :=
  addEventListener "scroll" h w.

(** Its cleanup: [window.removeEventListener('scroll', handleScroll)]. *)
Definition unsubscribe `{EventTarget T} (h : nat) (w : T) : T :=
  removeEventListener "scroll" h w.

(** ** Links *)

Module Link.
Record Link : Type := { name : string; href : string }.
End Link.
Abbreviation Link := Link.Link.

Definition navLinks : list Link := [
  {| Link.name := "Shop"; Link.href := "#bundles" |};
  {| Link.name := "How it works"; Link.href := "#how-it-works" |};
  {| Link.name := "Bundles"; Link.href := "#bundles" |};
  {| Link.name := "FAQ"; Link.href := "#faq" |}
].

(** [document.getElementById('bundles')?.scrollIntoView({behavior: 'smooth'})]. *)
Definition scrollToBundles : effect := ScrollIntoView "bundles".

(** ** The element tree *)

Definition top_bar : node handler :=
  Elem "div" None
    [("className", PVal (JStr
       "bg-neutral-900 text-white text-xs py-2 text-center tracking-wide uppercase z-50 relative"))]
    [Text "Free shipping. Discreet packaging. 30 day easy returns."].

Definition logo : node handler :=
  Elem "a" None
    [("href", PVal (JStr "#"));
     ("className", PVal (JStr "text-2xl font-bold tracking-tighter text-white"))]
    [Text "Cold";
     Elem "span" None [("className", PVal (JStr "text-ice-400"))] [Text "Boxers"]].

Definition desktop_link (link : Link) : node handler :=
  Elem "a" (Some (KStr (Link.name link)))
    [("href", PVal (JStr (Link.href link)));
     ("className", PVal (JStr
       "text-sm font-medium text-gray-300 hover:text-white transition-colors uppercase tracking-wider"))]
    [Text (Link.name link)].

Definition desktop_nav : node handler :=
  Elem "div" None
    [("className", PVal (JStr "hidden md:flex items-center gap-8"))]
    [Arr (desktop_link <$> navLinks)].

Definition desktop_actions : node handler :=
  Elem "div" None
    [("className", PVal (JStr "hidden md:flex items-center gap-4"))]
    [Button (Some primary) None (Some "!px-6 !py-2 !text-xs")
       [("onClick", POn [scrollToBundles])]
       [Text "Shop Bundles"];
     Elem "ShoppingBag" None
       [("className", PVal (JStr
          "w-5 h-5 text-white cursor-pointer hover:text-ice-400 transition-colors"))]
       []].

Definition mobile_toggle (s : State) : node handler :=
  Elem "button" None
    [("className", PVal (JStr "md:hidden text-white"));
     ("onClick", POn [SetIsMobileMenuOpen (negb (isMobileMenuOpen s))])]
    [if isMobileMenuOpen s then Elem "X" None [] [] else Elem "Menu" None [] []].

(** The class attribute of the bar: opaque and blurred once scrolled,
    transparent at the top. *)
Definition nav_className (s : State) : string :=
  "fixed top-0 left-0 right-0 z-40 transition-all duration-300 border-b " ++
  (if isScrolled s
   then "bg-onyx/80 backdrop-blur-md border-white/10 py-4"
   else "bg-transparent border-transparent py-6").

Definition nav_bar (s : State) : node handler :=
  Elem "nav" None
    [("className", PVal (JStr (nav_className s)))]
    [Elem "div" None
       [("className", PVal (JStr "max-w-7xl mx-auto px-6 flex items-center justify-between"))]
       [logo; desktop_nav; desktop_actions; mobile_toggle s]].

Definition mobile_link (link : Link) : node handler :=
  Elem "a" (Some (KStr (Link.name link)))
    [("href", PVal (JStr (Link.href link)));
     ("className", PVal (JStr "text-2xl font-light text-white border-b border-white/10 pb-4"));
     ("onClick", POn [SetIsMobileMenuOpen false])]
    [Text (Link.name link)].

Definition mobile_menu : node handler :=
  Elem "motion.div" None
    [("initial", PVal (JObj [("opacity", JNum 0); ("y", JNum (-20))]));
     ("animate", PVal (JObj [("opacity", JNum 1); ("y", JNum 0)]));
     ("exit", PVal (JObj [("opacity", JNum 0); ("y", JNum (-20))]));
     ("className", PVal (JStr "fixed inset-0 z-30 bg-onyx pt-24 px-6 md:hidden"))]
    [Elem "div" None
       [("className", PVal (JStr "flex flex-col gap-6"))]
       [Arr (mobile_link <$> navLinks);
        Button (Some primary) (Some true) None
          [("onClick", POn [SetIsMobileMenuOpen false; scrollToBundles])]
          [Text "Shop Bundles"]]].

Definition mobile_overlay (s : State) : node handler :=
  Elem "AnimatePresence" None []
    [if isMobileMenuOpen s then mobile_menu else Hole].

Definition render (s : State) : node handler :=
  Elem "Fragment" None [] [top_bar; nav_bar s; mobile_overlay s].

(** ** The scroll listener *)

(** Claim C9. After the listener ran, [isScrolled] says whether the offset
    exceeds the threshold of 50. *)
Lemma handleScroll_isScrolled (w : Window) (s : State) :
  isScrolled (run_handler (handleScroll w) s) = true <->
  (50 < Window.scrollY w)%Q.
Proof. simpl. apply Qgtb_lt. Qed.

Lemma handleScroll_not_scrolled (w : Window) (s : State) :
  isScrolled (run_handler (handleScroll w) s) = false <->
  (Window.scrollY w <= 50)%Q.
Proof. simpl. apply Qgtb_le. Qed.

(** The listener does not touch the mobile menu. *)
Lemma handleScroll_menu (w : Window) (s : State) :
  isMobileMenuOpen (run_handler (handleScroll w) s) = isMobileMenuOpen s.
Proof. reflexivity. Qed.

(** The outcome depends on the offset alone, not on the state before: two
    scroll events at the same offset are as good as one. *)
Lemma handleScroll_idempotent (w : Window) (s : State) :
  run_handler (handleScroll w) (run_handler (handleScroll w) s) =
  run_handler (handleScroll w) s.
Proof. reflexivity. Qed.

(** Offsets that are equal as numbers give the same state. *)
Lemma handleScroll_proper (w w' : Window) (s : State) :
  (Window.scrollY w == Window.scrollY w')%Q ->
  run_handler (handleScroll w) s = run_handler (handleScroll w') s.
Proof. intros Hy. simpl. unfold setIsScrolled. by rewrite Hy. Qed.

(** ** The subscription, against the interface of event targets *)

Section subscription.
Context `{EventTarget T}.
Implicit Types (w : T) (h : nat).

Lemma subscribe_listens h w : h ∈ listeners "scroll" (subscribe h w).
Proof. unfold subscribe. rewrite elem_of_listeners_add. by left. Qed.

(** After the cleanup the closure is not called any more. *)
Lemma unsubscribe_silent h w : h ∉ listeners "scroll" (unsubscribe h w).
Proof. apply listeners_remove_absent. Qed.

(** Claim C15. Mounting and unmounting leaves the scroll listeners of the
    target as they were: nothing leaks. *)
Lemma unsubscribe_subscribe h w :
  h ∉ listeners "scroll" w ->
  listeners "scroll" (unsubscribe h (subscribe h w)) = listeners "scroll" w.
Proof. apply listeners_remove_add. Qed.

(** The listeners of the other components stay registered. *)
Lemma unsubscribe_others h h' w :
  h' <> h -> h' ∈ listeners "scroll" w -> h' ∈ listeners "scroll" (unsubscribe h w).
Proof. intros. unfold unsubscribe. by rewrite elem_of_listeners_remove. Qed.

End subscription.

Lemma unsubscribe_subscribe_witness :
  listeners "scroll"
    (unsubscribe 7 (subscribe 7 {| Window.scrollY := 0; Window.registered := [] |})) =
  listeners "scroll" {| Window.scrollY := 0; Window.registered := [] |}.
Proof. apply unsubscribe_subscribe. by_decide. Defined.

(** ** The links *)

Lemma navLinks_names_NoDup : NoDup (Link.name <$> navLinks).
Proof. by_decide. Qed.

(** Every link points into the page: its target is [#] and an identifier. *)
Definition anchor_of (href : string) : option string :=
  match href with
  | String "#" id => Some id
  | _ => None
  end.

Lemma navLinks_anchors :
  omap (anchor_of ∘ Link.href) navLinks = ["bundles"; "how-it-works"; "bundles"; "faq"].
Proof. reflexivity. Qed.

(** ** The tree *)

(** The bar is opaque exactly when the page is scrolled. *)
Lemma nav_bar_opaque (s : State) :
  has_class "bg-onyx/80" (nav_bar s) = isScrolled s /\
  has_class "backdrop-blur-md" (nav_bar s) = isScrolled s /\
  has_class "bg-transparent" (nav_bar s) = negb (isScrolled s).
Proof. destruct s as [[] ?]; repeat split; by_compute. Qed.

(** The menu button flips the menu. *)
Lemma mobile_toggle_click (s : State) :
  onClick (mobile_toggle s) = Some [SetIsMobileMenuOpen (negb (isMobileMenuOpen s))].
Proof. reflexivity. Qed.

(** Two clicks on the menu button, each on the tree rendered from the
    state before it, restore the state. *)
Lemma mobile_toggle_twice (s : State) h1 h2 :
  onClick (mobile_toggle s) = Some h1 ->
  onClick (mobile_toggle (run_handler h1 s)) = Some h2 ->
  run_handler h2 (run_handler h1 s) = s.
Proof.
  rewrite !mobile_toggle_click. intros [= <-] [= <-].
  destruct s as [? []]; reflexivity.
Qed.

(** The tree holds the mobile menu when the menu is open, and no animated
    overlay otherwise. *)
Lemma mobile_menu_rendered (s : State) :
  select (is_tag "motion.div") (render s) =
  if isMobileMenuOpen s then [mobile_menu] else [].
Proof. destruct s as [[] []]; by_compute. Qed.

(** Claim C18. Every click inside the mobile menu closes it. *)
Lemma mobile_menu_clicks_close (s : State) m h :
  m ∈ descendants mobile_menu -> onClick m = Some h ->
  isMobileMenuOpen (run_handler h s) = false.
Proof.
  apply (all_clicks_decide (fun h => isMobileMenuOpen (run_handler h s) = false)).
  destruct s as [[] []]; by_compute.
Qed.

Lemma mobile_menu_clicks_close_witness :
  isMobileMenuOpen (run_handler [SetIsMobileMenuOpen false]
    {| isScrolled := false; isMobileMenuOpen := true |}) = false.
Proof.
  apply (mobile_menu_clicks_close _
           (mobile_link {| Link.name := "FAQ"; Link.href := "#faq" |}));
    [by_decide|reflexivity].
Defined.

(** Claim C20. No click changes [isScrolled]: only the scroll listener does. *)
Lemma clicks_keep_isScrolled (s : State) m h :
  m ∈ descendants (render s) -> onClick m = Some h ->
  isScrolled (run_handler h s) = isScrolled s.
Proof.
  apply (all_clicks_decide (fun h => isScrolled (run_handler h s) = isScrolled s)).
  destruct s as [[] []]; by_compute.
Qed.

Lemma clicks_keep_isScrolled_witness :
  isScrolled (run_handler [SetIsMobileMenuOpen true]
    {| isScrolled := true; isMobileMenuOpen := false |}) = true.
Proof.
  apply (clicks_keep_isScrolled {| isScrolled := true; isMobileMenuOpen := false |}
           (mobile_toggle {| isScrolled := true; isMobileMenuOpen := false |}));
    [by_decide|reflexivity].
Defined.

(** Claim C19. The menu opens by its button only: a click that finds the menu closed
    and leaves it open is a click on the menu button. *)
Lemma menu_opens_by_toggle (s : State) m h :
  isMobileMenuOpen s = false ->
  m ∈ descendants (render s) -> onClick m = Some h ->
  isMobileMenuOpen (run_handler h s) = true ->
  m = mobile_toggle s.
Proof.
  intros Hs Hm Hh Ho.
  assert (forallb (fun m => from_option (fun h =>
      implb (isMobileMenuOpen (run_handler h s)) (bool_decide (m = mobile_toggle s)))
      true (onClick m)) (descendants (render s)) = true) as Hall
    by (destruct s as [[] []]; (discriminate Hs || by_compute)).
  rewrite forallb_forall in Hall.
  apply list_elem_of_In, Hall in Hm. rewrite Hh in Hm. simpl in Hm.
  rewrite Ho in Hm. by apply bool_decide_eq_true_1 in Hm.
Qed.

Lemma menu_opens_by_toggle_witness :
  mobile_toggle init = mobile_toggle init.
Proof.
  apply (menu_opens_by_toggle init (mobile_toggle init) [SetIsMobileMenuOpen true]);
    [reflexivity|by_decide|reflexivity|reflexivity].
Defined.

(** Every array of the tree is keyed, with distinct keys. *)
Lemma render_keyed (s : State) : keyed (render s) = true.
Proof. destruct s as [[] []]; by_compute. Qed.

(** ** The views of the bar *)

(** The bar has four states, hence four views. *)
Definition states : list State :=
  b1 ← [false; true]; b2 ← [false; true];
  [{| isScrolled := b1; isMobileMenuOpen := b2 |}].

Definition views : list (node handler) := render <$> states.

Lemma states_complete (s : State) : s ∈ states.
Proof. destruct s as [[] []]; by_decide. Qed.

Lemma render_view (s : State) : render s ∈ views.
Proof. apply list_elem_of_fmap_2, states_complete. Qed.

(** A test that passes on the four views passes on the bar in every state. *)
Lemma render_cases (p : node handler -> bool) (s : State) :
  forallb p views = true -> p (render s) = true.
Proof. intros Hp. by apply (forallb_elem_of p views), render_view. Qed.

End Navbar.
