(* ===== verification/Catalog.v ===== *)
(** * Catalog: the constant arrays of src/App.tsx

    [bundles], [galleryImages], [faqs] and [reviews], as the page lists
    them, with the invariants of the data model: every bundle includes
    something and has a non-negative price, bundle identifiers are pairwise
    distinct (they are the keys of the cards), a badge that is present is
    not empty, the gallery has no repeated image. *)

From Stdlib Require Import Ascii String.
From S2P Require Import Prelude JsString Types.

#[local] Open Scope string_scope.

Definition bundles : list Bundle := [
  {| Bundle.id := "starter";
     Bundle.name := "Starter";
     Bundle.description := "For trying the fit and feel.";
     Bundle.includes := ["1 ColdBoxers boxer brief"; "1 cooling pad"];
     Bundle.price := 39;
     Bundle.badge := None;
     Bundle.cta := "Get Starter";
     Bundle.image := "images/3 medium.png" |};
  {| Bundle.id := "sauna-set";
     Bundle.name := "Sauna Set";
     Bundle.description := "Built for real sauna routines and pad swapping.";
     Bundle.includes := ["3 ColdBoxers boxer briefs"; "3 cooling pads"];
     Bundle.price := 100;
     Bundle.badge := Some "Most Popular";
     Bundle.cta := "Get the 3 Pack";
     Bundle.image := "images/4 medium.png" |};
  {| Bundle.id := "rotation";
     Bundle.name := "Rotation";
     Bundle.description := "Your full weekly lineup. Always ready.";
     Bundle.includes := ["5 ColdBoxers boxer briefs"; "5 cooling pads"];
     Bundle.price := 155;
     Bundle.badge := Some "Best Value";
     Bundle.cta := "Get the 5 Pack";
     Bundle.image := "images/5 medium.png" |}
].

Definition galleryImages : list string := [
  "images/6 medium.png";
  "images/7 medium.png";
  "images/8 medium.png";
  "images/9 medium.png";
  "images/10 medium.png";
  "images/11 medium.png";
  "images/12 medium.png";
  "images/13 medium.png";
  "images/14 medium.png"
].

Module Faq.
Record Faq : Type := { q : string; a : string }.
End Faq.
Abbreviation Faq := Faq.Faq.

Definition faqs : list Faq := [
  {| Faq.q := "How cold is it?";
     Faq.a := "Refreshing, not extreme. The pocket design helps keep cooling controlled and comfortable." |};
  {| Faq.q := "How long does it last?";
     Faq.a := "Each session is designed to deliver strong cooling for at least 20 minutes. Many customers go longer depending on conditions." |};
  {| Faq.q := "When should I use it around the sauna?";
     Faq.a := "Most men prefer after the hot room, or between rounds. It is a simple cooldown habit." |};
  {| Faq.q := "Can I wear it every day?";
     Faq.a := "Yes. Many customers use it daily, and add pads when they want cooling." |};
  {| Faq.q := "How do I wash it?";
     Faq.a := "Remove the pad. Machine wash cold. Air dry or tumble low. Pads wipe clean and are reusable." |}
].

Module Review.
Record Review : Type := { text : string; author : string }.
End Review.
Abbreviation Review := Review.Review.

Definition reviews : list Review := [
  {| Review.text := "Sauna nights feel different now. Simple, premium, and actually discreet.";
     Review.author := "Verified Buyer" |};
  {| Review.text := "Feels like high end underwear. The cooling pocket is genius.";
     Review.author := "Verified Buyer" |};
  {| Review.text := "Easy habit. I keep a few pads ready and just swap.";
     Review.author := "Verified Buyer" |}
].

(** ** The invariants of a bundle *)

(** [includes] is not empty, the price is not negative, and a badge that is
    present is a non-empty label. *)
Definition bundle_ok (b : Bundle) : bool :=
  negb (bool_decide (Bundle.includes b = [])) &&
  Qle_bool 0 (Bundle.price b) &&
  from_option truthy true (Bundle.badge b).

Lemma bundle_ok_spec (b : Bundle) :
  bundle_ok b = true <->
  Bundle.includes b <> [] /\ (0 <= Bundle.price b)%Q /\
  forall l, Bundle.badge b = Some l -> l <> "".
Proof.
  unfold bundle_ok. rewrite !andb_true_iff, negb_true_iff, bool_decide_eq_false.
  rewrite Qle_bool_iff. destruct (Bundle.badge b) as [l|]; simpl.
  - unfold truthy. rewrite negb_true_iff, String.eqb_neq.
    split; [intros [[? ?] ?]|intros (? & ? & Hl)]; split_and!; try done.
    + by intros ? [= <-].
    + by apply Hl.
  - split; [intros [[? ?] ?]|intros (? & ? & ?)]; by split_and!.
Qed.

(** Every bundle of the catalogue includes at least one item, has a price
    that is not negative, and a badge that is not empty when it has one. *)
Lemma bundles_ok : Forall (fun b => bundle_ok b = true) bundles.
Proof. repeat constructor. Qed.

(** The identifiers, which key the cards, are pairwise distinct. *)
Lemma bundles_ids_NoDup : NoDup (Bundle.id <$> bundles).
Proof. by_decide. Qed.

(** Prices grow with the size of the bundle. *)
Lemma bundles_prices : Bundle.price <$> bundles = [39; 100; 155]%Q.
Proof. reflexivity. Qed.

Lemma galleryImages_NoDup : NoDup galleryImages.
Proof. by_decide. Qed.

Lemma length_galleryImages : length galleryImages = 9%nat.
Proof. reflexivity. Qed.

Lemma length_faqs : length faqs = 5%nat.
Proof. reflexivity. Qed.

(** No two entries ask the same question. *)
Lemma faqs_questions_NoDup : NoDup (Faq.q <$> faqs).
Proof. by_decide. Qed.

#[export] Hint Resolve bundles_ids_NoDup galleryImages_NoDup faqs_questions_NoDup : cb.
