(* ===== verification/Primitives.v ===== *)
(** * Primitives: the animation components of src/App.tsx

    [FadeInUp], [RevealText], [ParallaxImage] and [Marquee].  Each returns
    an element tree whose motion props describe the animation.  A component
    that calls a hook calls its model of file [Hooks] with the options of
    the source, on what the browser knows of the element, which is an
    argument here: the [Visibility] of the text for [RevealText], the
    [Layout] of the image and the scroll offset for [ParallaxImage].  The
    geometry of the marquee is read off the Tailwind classes of the source
    ([w-[300px]], [gap-4], [px-2]) with the usual 16 pixels to the rem.

    The facts: [RevealText] renders one keyed span per word of its text,
    the span of word [i] with a delay of [i / 20]; the offset of
    [ParallaxImage] is the linear map of the scroll progress onto
    [-offset, offset]; [Marquee] renders its images twice, so that the
    strip shifted by half its length shows the same images. *)

From Stdlib Require Import Ascii String.
From S2P Require Import Prelude JsString Motion Hooks Vdom Types Dom.

#[local] Open Scope string_scope.

(** ** FadeInUp *)

Definition FadeInUp (delay : option Q) (className : option string)
    (children : list (node handler)) : node handler :=
  let delay := default 0%Q delay in
  let className := default "" className in
  Elem "motion.div" None
    [("initial", PVal (JObj [("opacity", JNum 0); ("y", JNum 40)]));
     ("whileInView", PVal (JObj [("opacity", JNum 1); ("y", JNum 0)]));
     ("viewport", PVal (JObj [("once", JBool true); ("margin", JStr "-50px")]));
     ("transition", PVal (JObj
        [("duration", JNum 0.8); ("delay", JNum delay);
         ("ease", JArr [JNum 0.21; JNum 0.47; JNum 0.32; JNum 0.98])]));
     ("className", PVal (JStr className))]
    children.

(** ** RevealText *)

(** The delay of the [i]-th word: [i * 0.05]. *)
Definition stagger_delay (i : nat) : Q := (inject_Z (Z.of_nat i) * 0.05)%Q.

Definition reveal_word (isInView : bool) (i : nat) (word : string) : node handler :=
  Elem "span" (Some (KIdx i))
    [("className", PVal (JStr "inline-block overflow-hidden align-bottom mr-[0.25em]"))]
    [Elem "motion.span" None
       [("className", PVal (JStr "inline-block"));
        ("initial", PVal (JObj [("y", JStr "110%")]));
        ("animate", PVal (JObj (if isInView then [("y", JNum 0)] else [])));
        ("transition", PVal (JObj
           [("duration", JNum 0.5); ("delay", JNum (stagger_delay i));
            ("ease", JStr "easeOut")]))]
       [Text word]].

(** [v] is what the observer knows of the element [ref] points at. *)
Definition RevealText (v : Visibility) (text : string) (className : option string) :
    node handler :=
  let className := default "" className in
  let isInView := useInView v {| InView.once := true; InView.margin := "-10%" |} in
  Elem "span" None
    [("ref", PVal JRef);
     ("className", PVal (JStr ("inline-block " ++ className)))]
    [Arr (imap (reveal_word isInView) (split space text))].

(** ** ParallaxImage *)

(** [useTransform(scrollYProgress, [0, 1], [-offset, offset])]. *)
Definition parallax_y (offset : Q) (scrollYProgress : Q) : Q :=
  transform 0 1 (- offset) offset scrollYProgress.

(** The fallback of an image that fails to load. *)
Definition image_fallback : handler := [SetTargetOpacity "0.5"].

(** [l] is where the element [ref] points at lies in the document, and
    [scrollY] how far the window is scrolled. *)
Definition ParallaxImage (l : Layout) (scrollY : Q) (src alt : string)
    (offset : option Q) : node handler :=
  let offset := default 50%Q offset in
  let scrollYProgress := scrollYProgress ["start end"; "end start"] l scrollY in
  let y := parallax_y offset scrollYProgress in
  Elem "div" None
    [("ref", PVal JRef);
     ("className", PVal (JStr
        "overflow-hidden rounded-2xl w-full h-full relative group bg-neutral-900"))]
    [Elem "motion.img" None
       [("style", PVal (JObj [("y", JMotion y); ("scale", JNum 1.15)]));
        ("src", PVal (JStr src));
        ("alt", PVal (JStr alt));
        ("className", PVal (JStr
           "w-full h-full object-cover transition-opacity duration-500 opacity-90 group-hover:opacity-100"));
        ("loading", PVal (JStr "lazy"));
        ("onError", POn image_fallback)]
       [];
     Elem "div" None
       [("className", PVal (JStr
          "absolute inset-0 bg-black/10 group-hover:bg-transparent transition-colors duration-500"))]
       []].

(** ** Marquee *)

(** The key frames of the horizontal translation. *)
Definition marquee_x (reverse : bool) : list jsval :=
  if reverse then [JStr "-50%"; JStr "0%"] else [JStr "0%"; JStr "-50%"].

Definition marquee_item (i : nat) (src : string) : node handler :=
  Elem "div" (Some (KIdx i))
    [("className", PVal (JStr
       "relative w-[300px] h-[400px] shrink-0 rounded-xl overflow-hidden grayscale hover:grayscale-0 transition-all duration-500 border border-white/5 bg-neutral-900"))]
    [Elem "img" None
       [("src", PVal (JStr src));
        ("alt", PVal (JStr "Gallery"));
        ("className", PVal (JStr "w-full h-full object-cover"));
        ("loading", PVal (JStr "lazy"))]
       []].

(** [[...images, ...images]]. *)
Definition marquee_strip (images : list string) : list string := images ++ images.

Definition Marquee (images : list string) (reverse : option bool) : node handler :=
  let reverse := default false reverse in
  Elem "div" None
    [("className", PVal (JStr "flex overflow-hidden w-full relative group"))]
    [Elem "div" None
       [("className", PVal (JStr
          "absolute inset-y-0 left-0 w-24 bg-gradient-to-r from-onyx to-transparent z-10"))]
       [];
     Elem "div" None
       [("className", PVal (JStr
          "absolute inset-y-0 right-0 w-24 bg-gradient-to-l from-onyx to-transparent z-10"))]
       [];
     Elem "motion.div" None
       [("className", PVal (JStr "flex gap-4 px-2"));
        ("animate", PVal (JObj [("x", JArr (marquee_x reverse))]));
        ("transition", PVal (JObj
           [("repeat", JInfinity); ("duration", JNum 40); ("ease", JStr "linear")]))]
       [Arr (imap marquee_item (marquee_strip images))]].

(** The geometry of the strip, in pixels, as its classes give it: items of
    width 300 ([w-[300px]]), 16 between neighbours ([gap-4]), 8 of padding
    at both ends ([px-2]). *)
Definition item_width : Z := 300.
Definition strip_gap : Z := 16.
Definition strip_padding : Z := 8.

(** The left edge of the [i]-th item in the strip. *)
Definition item_left (i : Z) : Z := strip_padding + i * (item_width + strip_gap).

(** The width of a strip of [k] items, [k >= 1]. *)
Definition strip_width (k : Z) : Z :=
  2 * strip_padding + k * item_width + (k - 1) * strip_gap.

(** ** Facts about FadeInUp *)

Lemma FadeInUp_children delay className children :
  children_of (FadeInUp delay className children) = children.
Proof. reflexivity. Qed.

(** The fade plays once: the viewport option [once] is set. *)
Lemma FadeInUp_once delay className children :
  val_prop "viewport" (FadeInUp delay className children) ≫= obj_get "once" =
  Some (JBool true).
Proof. reflexivity. Qed.

Lemma FadeInUp_delay delay className children :
  val_prop "transition" (FadeInUp delay className children) ≫= obj_get "delay" =
  Some (JNum (default 0%Q delay)).
Proof. reflexivity. Qed.

(** ** Facts about RevealText *)

(** The words of the tree are the pieces of the text. *)
Lemma texts_reveal_words (isInView : bool) (l : list string) (k : nat) :
  flat_map texts (imap (fun i => reveal_word isInView (k + i)) l) = l.
Proof.
  revert k. induction l as [|w l IH]; intros k; [done|].
  rewrite imap_cons. cbn [flat_map]. unfold compose.
  rewrite <- (IH (S k)) at 2. simpl. f_equal. f_equal.
  apply imap_ext. intros i x _. f_equal. lia.
Qed.

Section reveal.
Context (v : Visibility).

Lemma RevealText_words text className :
  texts (RevealText v text className) = split space text.
Proof.
  unfold RevealText. rewrite texts_Elem. cbn [flat_map].
  rewrite texts_Arr, app_nil_r. apply (texts_reveal_words _ _ 0).
Qed.

(** Claim C28. Reading the rendered words with spaces between them gives the text. *)
Lemma RevealText_roundtrip text className :
  join space (texts (RevealText v text className)) = text.
Proof. rewrite RevealText_words. apply join_split. Qed.

(** Claim C29. There is one span per word: one more than there are spaces. *)
Lemma RevealText_word_count text className :
  count_nodes (is_tag "motion.span") (RevealText v text className) =
  S (occurrences space text).
Proof.
  rewrite <- length_split. unfold RevealText.
  rewrite count_nodes_Elem, count_flat_map_cons, count_nodes_Arr. simpl.
  rewrite Nat.add_0_r. generalize (split space text) as l.
  generalize (useInView v {| InView.once := true; InView.margin := "-10%" |}).
  intros isInView l.
  change (reveal_word isInView) with (fun i => reveal_word isInView (0 + i)).
  generalize 0%nat as k. induction l as [|w l IH]; intros k; [done|].
  rewrite imap_cons, count_flat_map_cons. simpl. f_equal.
  rewrite <- (IH (S k)). f_equal. f_equal. apply imap_ext. intros i x _.
  unfold compose. f_equal. lia.
Qed.

(** The [i]-th child is the span of the [i]-th word, keyed by [i]. *)
Lemma RevealText_lookup text className i w :
  split space text !! i = Some w ->
  exists arr, children_of (RevealText v text className) = [Arr arr] /\
    arr !! i = Some (reveal_word (seen v) i w).
Proof.
  intros Hw. eexists. split; [reflexivity|].
  by rewrite list_lookup_imap, Hw.
Qed.

(** Claim C34. The words come up one after the other: the animated span of
    the word at place [i] of the text shows that word and starts a
    twentieth of a second times [i] after the first. *)
Theorem RevealText_stagger text className i w :
  split space text !! i = Some w ->
  exists arr m d,
    children_of (RevealText v text className) = [Arr arr] /\
    children_of <$> arr !! i = Some [m] /\
    texts m = [w] /\
    val_prop "transition" m ≫= obj_get "delay" = Some (JNum d) /\
    (d == inject_Z (Z.of_nat i) / 20)%Q.
Proof.
  intros Hw. eexists _, _, (stagger_delay i). split_and!; [reflexivity| | | |].
  - by rewrite list_lookup_imap, Hw.
  - reflexivity.
  - reflexivity.
  - unfold stagger_delay. field.
Qed.

Lemma RevealText_keyed text className :
  keyed (RevealText v text className) = true.
Proof.
  unfold RevealText. cbn [keyed forallb]. rewrite keys_ok_imap by done.
  rewrite !andb_true_r. apply forallb_forall.
  intros c Hc%list_elem_of_In%elem_of_lookup_imap_1.
  by destruct Hc as (i & w & -> & _).
Qed.

End reveal.

Lemma RevealText_stagger_witness :
  exists arr m d,
    children_of (RevealText unseen "Protect the plan." None) = [Arr arr] /\
    children_of <$> arr !! 2%nat = Some [m] /\
    texts m = ["plan."] /\
    val_prop "transition" m ≫= obj_get "delay" = Some (JNum d) /\
    (d == inject_Z (Z.of_nat 2) / 20)%Q.
Proof. apply RevealText_stagger. reflexivity. Defined.

(** The words animate only once the text is in view. *)
Lemma reveal_word_animate isInView i w m :
  children_of (reveal_word isInView i w) = [m] ->
  val_prop "animate" m ≫= obj_get "y" = if isInView then Some (JNum 0) else None.
Proof. intros [= <-]. by destruct isInView. Qed.

Lemma stagger_delay_0 : (stagger_delay 0 == 0)%Q.
Proof. reflexivity. Qed.

Lemma stagger_delay_S i : (stagger_delay (S i) == stagger_delay i + 0.05)%Q.
Proof.
  unfold stagger_delay. rewrite Nat2Z.inj_succ. unfold Z.succ.
  rewrite inject_Z_plus. ring.
Qed.

(** Later words start later. *)
Lemma stagger_delay_lt i j : (i < j)%nat -> (stagger_delay i < stagger_delay j)%Q.
Proof.
  intros Hij. unfold stagger_delay.
  apply Qmult_lt_compat_r; [reflexivity|]. rewrite <- Zlt_Qlt. lia.
Qed.

(** ** Facts about ParallaxImage *)

Section parallax.
Context (offset : Q) (Hoffset : (0 <= offset)%Q).

(** Claim C30. The image never moves further than [offset] from its place. *)
Lemma parallax_y_bounds p : (- offset <= parallax_y offset p <= offset)%Q.
Proof. apply transform_bounds; lra. Qed.

(** It starts at [-offset] when the element enters the viewport and ends at
    [offset] when it leaves. *)
Lemma parallax_y_enter p : (p <= 0)%Q -> (parallax_y offset p == - offset)%Q.
Proof. apply transform_below. lra. Qed.

Lemma parallax_y_leave p : (1 <= p)%Q -> (parallax_y offset p == offset)%Q.
Proof. apply transform_above. lra. Qed.

(** Claim C31. In between it is linear in the progress, and passes through 0 half way. *)
Lemma parallax_y_linear p :
  (0 <= p <= 1)%Q -> (parallax_y offset p == offset * (2 * p - 1))%Q.
Proof.
  intros Hp. unfold parallax_y. rewrite transform_inside by lra. field.
Qed.

Lemma parallax_y_mono p q :
  (p <= q)%Q -> (parallax_y offset p <= parallax_y offset q)%Q.
Proof. apply transform_mono; lra. Qed.

End parallax.

Lemma parallax_y_bounds_witness :
  (- 80 <= parallax_y 80 (1 # 4) <= 80)%Q.
Proof. apply (parallax_y_bounds 80). done. Defined.

Lemma parallax_y_linear_witness :
  (parallax_y 80 (1 # 4) == 80 * (2 * (1 # 4) - 1))%Q.
Proof. apply (parallax_y_linear 80). split; done. Defined.

(** The shift of the image is the shift at the progress of its element
    from the bottom of the viewport to its top. *)
Lemma ParallaxImage_y l y src alt offset m :
  children_of (ParallaxImage l y src alt offset) !! 0%nat = Some m ->
  val_prop "style" m ≫= obj_get "y" =
  Some (JMotion (parallax_y (default 50%Q offset)
                   (scrollYProgress ["start end"; "end start"] l y))).
Proof. by intros [= <-]. Qed.

(** A failed image is dimmed, and nothing else happens. *)
Lemma ParallaxImage_onError l y src alt offset m :
  children_of (ParallaxImage l y src alt offset) !! 0%nat = Some m ->
  on_event "onError" m = Some [SetTargetOpacity "0.5"].
Proof. by intros [= <-]. Qed.

(** ** Facts about Marquee *)

Lemma length_marquee_strip images :
  length (marquee_strip images) = (2 * length images)%nat.
Proof. unfold marquee_strip. rewrite length_app. lia. Qed.

(** The second half of the strip repeats the first. *)
Lemma marquee_strip_wrap images i :
  marquee_strip images !! (i + length images)%nat = images !! i.
Proof. apply lookup_twice_r. Qed.

Lemma marquee_strip_first images i :
  (i < length images)%nat -> marquee_strip images !! i = images !! i.
Proof. apply lookup_twice_l. Qed.

Lemma attrs_marquee_items (l : list string) (k : nat) :
  flat_map (attrs "src") (imap (fun i => marquee_item (k + i)) l) = l.
Proof.
  revert k. induction l as [|w l IH]; intros k; [done|].
  rewrite imap_cons. cbn [flat_map]. unfold compose.
  rewrite <- (IH (S k)) at 2. simpl. f_equal. f_equal.
  apply imap_ext. intros i x _. f_equal. lia.
Qed.

(** Claim C32. The images of the tree, in order: the sequence, twice. *)
Lemma Marquee_srcs images reverse :
  attrs "src" (Marquee images reverse) = (images ++ images)%list.
Proof.
  unfold Marquee, attrs. rewrite !descendants_Elem. cbn [flat_map].
  rewrite !descendants_Elem. cbn [flat_map app]. rewrite descendants_Arr.
  rewrite !app_nil_r. cbn [omap list_omap]. simpl str_prop.
  rewrite omap_flat_map. apply (attrs_marquee_items _ 0).
Qed.

Lemma Marquee_keyed images reverse : keyed (Marquee images reverse) = true.
Proof.
  unfold Marquee. cbn [keyed forallb]. rewrite keys_ok_imap by done.
  rewrite !andb_true_r. apply forallb_forall.
  intros c Hc%list_elem_of_In%elem_of_lookup_imap_1.
  by destruct Hc as (i & w & -> & _).
Qed.

(** The direction flag plays the same key frames backwards. *)
Lemma marquee_x_reverse : marquee_x true = rev (marquee_x false).
Proof. reflexivity. Qed.

(** Claim C33. Shifting a strip of twice [n] items by half its width puts item
    [i + n] where item [i] was: the wrap-around shows no jump. *)
Lemma marquee_seamless (n i : Z) :
  (2 * (item_left (i + n) - item_left i) = strip_width (2 * n))%Z.
Proof. unfold item_left, strip_width, item_width, strip_gap, strip_padding. lia. Qed.
