(* ===== verification/App.v ===== *)
(** * App: the state of the page and its interactive sections (src/App.tsx)

    [State] holds the three [useState] cells of [App]: the selected colour,
    the selected size and the open FAQ entry.  [selectedColor] and
    [selectedSize] start as [COLORS[0]] and [SIZES[1]], which JavaScript
    evaluates to [undefined] for an array that is too short: the cells are
    [option]s, and reading [selectedColor.name] from [undefined] is the one
    place where rendering can fail ([color_button] returns [None] for the
    exception).  [run] executes an effect on the state.

    The sections that read the state are modelled here as the source writes
    them: the bundle section with its configurator and its cards, and the
    FAQ accordion.

    The facts: exactly one swatch and one size button of the configurator
    are marked, a click on a swatch or a size selects it and nothing else,
    a click on a question opens it or closes it, and at most one answer is
    expanded; the buttons of the questions, the swatches and the size
    buttons are on the screen whenever their section renders; a bundle
    card shows the fields of its bundle and has no click handler, for
    every bundle.  One part shows that each section has finitely many
    views ([faq_views], [shop_views]): a property of the tree that the
    kernel can evaluate holds in every state once it holds for each view
    ([faq_section_cases], [bundles_section_cases], [configurator_indexed]). *)

From Stdlib Require Import Ascii String.
From S2P Require Import Prelude JsString Vdom Types Dom Button Catalog.

#[local] Open Scope string_scope.

Module App.

(** ** State *)

Record State : Type := {
  selectedColor : option Color;
  selectedSize : option string;
  activeFaq : option nat
}.

#[export] Instance State_eq_dec : EqDecision State.
Proof. solve_decision. Defined.

(** [useState(COLORS[0])], [useState(SIZES[1])], [useState(null)]. *)
Definition init : State := {|
  selectedColor := COLORS !! 0%nat;
  selectedSize := SIZES !! 1%nat;
  activeFaq := None
|}.

Definition setSelectedColor (c : Color) (s : State) : State :=
  {| selectedColor := Some c; selectedSize := selectedSize s; activeFaq := activeFaq s |}.

Definition setSelectedSize (z : string) (s : State) : State :=
  {| selectedColor := selectedColor s; selectedSize := Some z; activeFaq := activeFaq s |}.

Definition setActiveFaq (i : option nat) (s : State) : State :=
  {| selectedColor := selectedColor s; selectedSize := selectedSize s; activeFaq := i |}.

(** One effect of a handler; the effects of the navigation bar and of the
    browser leave the state alone. *)
Definition run (e : effect) (s : State) : State :=
  match e with
  | SetSelectedColor c => setSelectedColor c s
  | SetSelectedSize z => setSelectedSize z s
  | SetActiveFaq i => setActiveFaq i s
  | _ => s
  end.

Definition run_handler (h : handler) (s : State) : State :=
  fold_left (fun s e => run e s) h s.

(** ** The configurator *)

(** The class attribute of a swatch. *)
Definition color_className (selected : bool) : string :=
  "w-12 h-12 rounded-full border-2 transition-all relative outline-none " ++
  (if selected then "border-ice-500 scale-110 shadow-lg shadow-ice-500/20"
   else "border-transparent hover:scale-105").

(** The label under the selected swatch. *)
Definition color_label (color : Color) : node handler :=
  Elem "div" None
    [("className", PVal (JStr
       "absolute -bottom-8 left-1/2 -translate-x-1/2 text-[10px] font-bold whitespace-nowrap text-white bg-black/80 px-2 py-1 rounded"))]
    [Text (ColorOption_value (Color.name color))].

(** One swatch, [selected] being the value of
    [selectedColor.name === color.name]. *)
Definition color_swatch (selected : bool) (color : Color) : node handler :=
  Elem "button" (Some (KStr (ColorOption_value (Color.name color))))
    [("onClick", POn [SetSelectedColor color]);
     ("className", PVal (JStr (color_className selected)));
     ("style", PVal (JObj [("backgroundColor", JStr (Color.hex color))]));
     ("aria-label", PVal (JStr (ColorOption_value (Color.name color))))]
    [if selected then color_label color else Hole].

(** The callback of [COLORS.map]: [None] when [selectedColor] is
    [undefined], for the exception that reading its [name] throws. *)
Definition color_button (sel : option Color) (color : Color) : option (node handler) :=
  match sel with
  | Some c => Some (color_swatch (same_name c color) color)
  | None => None
  end.

(** [selectedSize === size]. *)
Definition size_selected (sel : option string) (size : string) : bool :=
  from_option (String.eqb size) false sel.

Definition size_className (selected : bool) : string :=
  "flex-1 py-3 text-sm font-bold rounded-lg border-2 transition-all " ++
  (if selected then "bg-white text-black border-white shadow-lg"
   else "bg-transparent text-gray-400 border-neutral-800 hover:border-neutral-600").

Definition size_button (sel : option string) (size : string) : node handler :=
  Elem "button" (Some (KStr size))
    [("onClick", POn [SetSelectedSize size]);
     ("className", PVal (JStr (size_className (size_selected sel size))))]
    [Text size].

Definition configurator_label (text : string) : node handler :=
  Elem "p" None
    [("className", PVal (JStr "text-xs font-bold text-gray-400 uppercase tracking-widest mb-4"))]
    [Text text].

(** The configurator around its swatches. *)
Definition configurator_view (swatches : list (node handler)) (s : State) :
    node handler :=
  Elem "div" None
    [("className", PVal (JStr
       "max-w-xl mx-auto mb-20 p-8 bg-neutral-900 rounded-2xl border border-white/5 shadow-2xl"))]
    [Elem "div" None [("className", PVal (JStr "mb-8"))]
       [configurator_label "Select Color";
        Elem "div" None [("className", PVal (JStr "flex gap-4"))] [Arr swatches]];
     Elem "div" None []
       [configurator_label "Select Size";
        Elem "div" None [("className", PVal (JStr "flex gap-3"))]
          [Arr (size_button (selectedSize s) <$> SIZES)];
        Elem "p" None
          [("className", PVal (JStr "text-xs text-gray-500 mt-4 text-center"))]
          [Text "Tight supportive fit. If you prefer less compression, size up."]]].

Definition configurator (s : State) : option (node handler) :=
  swatches ← mapM (color_button (selectedColor s)) COLORS;
  Some (configurator_view swatches s).

(** ** The bundle cards *)

(** [bundle.badge && <div ...>{bundle.badge}</div>]. *)
Definition bundle_badge (b : Bundle) : node handler :=
  match Bundle.badge b with
  | None => Hole
  | Some l =>
      if truthy l then
        Elem "div" None
          [("className", PVal (JStr
             "absolute top-4 right-4 z-20 bg-ice-500 text-white text-[10px] font-bold uppercase tracking-widest px-3 py-1.5 rounded-full shadow-lg"))]
          [Text l]
      else Text l
  end.

Definition bundle_item (i : nat) (item : string) : node handler :=
  Elem "li" (Some (KIdx i))
    [("className", PVal (JStr "flex items-center gap-3 text-sm text-gray-300"))]
    [Elem "div" None
       [("className", PVal (JStr "w-1.5 h-1.5 bg-ice-500 rounded-full"))] [];
     Text item].

Definition card_className (b : Bundle) : string :=
  "relative bg-neutral-900 rounded-2xl overflow-hidden border transition-all duration-300 " ++
  (if truthy_opt (Bundle.badge b)
   then "border-ice-500 shadow-[0_0_50px_rgba(14,165,233,0.1)]"
   else "border-white/10 hover:border-white/20").

(** The delay of the [idx]-th card: [idx * 0.1]. *)
Definition card_delay (idx : nat) : Q := (inject_Z (Z.of_nat idx) * 0.1)%Q.

Definition bundle_cta (b : Bundle) : node handler :=
  Button (Some (if truthy_opt (Bundle.badge b) then primary else outline))
    (Some true) None [] [Text (Bundle.cta b)].

Definition bundle_card (idx : nat) (b : Bundle) : node handler :=
  Elem "motion.div" (Some (KStr (Bundle.id b)))
    [("initial", PVal (JObj [("opacity", JNum 0); ("y", JNum 50)]));
     ("whileInView", PVal (JObj [("opacity", JNum 1); ("y", JNum 0)]));
     ("viewport", PVal (JObj [("once", JBool true)]));
     ("transition", PVal (JObj [("delay", JNum (card_delay idx))]));
     ("whileHover", PVal (JObj [("y", JNum (-12))]));
     ("className", PVal (JStr (card_className b)))]
    [Elem "div" None
       [("className", PVal (JStr "h-64 overflow-hidden relative group bg-neutral-800"))]
       [Elem "div" None
          [("className", PVal (JStr
             "absolute inset-0 bg-black/10 group-hover:bg-transparent transition-colors z-10"))]
          [];
        Elem "img" None
          [("src", PVal (JStr (Bundle.image b)));
           ("alt", PVal (JStr (Bundle.name b)));
           ("className", PVal (JStr
              "w-full h-full object-cover transform group-hover:scale-105 transition-transform duration-700"));
           ("loading", PVal (JStr "lazy"))]
          [];
        bundle_badge b];
     Elem "div" None [("className", PVal (JStr "p-8"))]
       [Elem "h3" None
          [("className", PVal (JStr "text-2xl font-bold text-white mb-2"))]
          [Text (Bundle.name b)];
        Elem "p" None
          [("className", PVal (JStr "text-gray-400 text-sm h-10 mb-6"))]
          [Text (Bundle.description b)];
        Elem "div" None
          [("className", PVal (JStr "text-4xl font-bold text-white mb-8"))]
          [Text "€"; Num (Bundle.price b)];
        Elem "ul" None [("className", PVal (JStr "space-y-4 mb-8"))]
          [Arr (imap bundle_item (Bundle.includes b))];
        bundle_cta b]].

Definition bundle_cards : node handler :=
  Elem "div" None
    [("className", PVal (JStr "grid lg:grid-cols-3 gap-8 items-start"))]
    [Arr (imap bundle_card bundles)].

(** The section [#bundles]. *)
Definition bundles_section (s : State) : option (node handler) :=
  cfg ← configurator s;
  Some (Elem "section" None
    [("id", PVal (JStr "bundles"));
     ("className", PVal (JStr "py-32 bg-onyx relative"))]
    [Elem "div" None [("className", PVal (JStr "max-w-7xl mx-auto px-6"))]
       [Elem "div" None [("className", PVal (JStr "text-center mb-20"))]
          [Elem "h2" None
             [("className", PVal (JStr "text-4xl md:text-5xl font-bold mb-6"))]
             [Text "Choose your bundle."];
           Elem "p" None [("className", PVal (JStr "text-gray-400 text-lg"))]
             [Text "All bundles include boxer briefs and reusable liquid cooling pads."]];
        cfg;
        bundle_cards]]).

(** ** The FAQ accordion *)

(** [activeFaq === idx]. *)
Definition faq_open (s : State) (idx : nat) : bool :=
  bool_decide (activeFaq s = Some idx).

(** The argument of [setActiveFaq] in the click handler of entry [idx]:
    [activeFaq === idx ? null : idx]. *)
Definition faq_toggle (s : State) (idx : nat) : option nat :=
  if faq_open s idx then None else Some idx.

Definition faq_button (s : State) (idx : nat) (faq : Faq) : node handler :=
  Elem "button" None
    [("onClick", POn [SetActiveFaq (faq_toggle s idx)]);
     ("className", PVal (JStr
        "w-full py-8 flex items-center justify-between text-left hover:text-ice-300 transition-colors group"))]
    [Elem "span" None [("className", PVal (JStr "text-xl font-medium"))]
       [Text (Faq.q faq)];
     Elem "div" None
       [("className", PVal (JStr
          ("transition-transform duration-300 " ++
           (if faq_open s idx then "rotate-45" else ""))))]
       [Elem "Plus" None
          [("className", PVal (JStr "w-6 h-6 text-gray-500 group-hover:text-white"))]
          []]].

Definition faq_panel (s : State) (idx : nat) (faq : Faq) : node handler :=
  Elem "motion.div" None
    [("initial", PVal (JBool false));
     ("animate", PVal (JObj
        [("height", if faq_open s idx then JStr "auto" else JNum 0);
         ("opacity", if faq_open s idx then JNum 1 else JNum 0)]));
     ("className", PVal (JStr "overflow-hidden"))]
    [Elem "p" None
       [("className", PVal (JStr "pb-8 text-gray-400 leading-relaxed text-lg"))]
       [Text (Faq.a faq)]].

Definition faq_entry (s : State) (idx : nat) (faq : Faq) : node handler :=
  Elem "div" (Some (KIdx idx))
    [("className", PVal (JStr "border-b border-white/10"))]
    [faq_button s idx faq; faq_panel s idx faq].

(** The section [#faq]. *)
Definition faq_section (s : State) : node handler :=
  Elem "section" None
    [("id", PVal (JStr "faq")); ("className", PVal (JStr "py-32 bg-onyx"))]
    [Elem "div" None [("className", PVal (JStr "max-w-3xl mx-auto px-6"))]
       [Elem "h2" None
          [("className", PVal (JStr "text-3xl font-bold text-center mb-16"))]
          [Text "FAQ"];
        Elem "div" None [("className", PVal (JStr "space-y-4"))]
          [Arr (imap (faq_entry s) faqs)]]].

(** ** Facts: the state *)

(** The page loads with the first colour, the second size and no open FAQ
    entry. *)
Lemma init_defaults :
  (Color.name <$> selectedColor init) = Some Onyx /\
  selectedSize init = Some "M" /\ activeFaq init = None.
Proof. by split_and!. Qed.

(** Each effect writes at most the cell of its setter. *)
Lemma run_frame (e : effect) (s : State) :
  ((forall c, e <> SetSelectedColor c) -> selectedColor (run e s) = selectedColor s) /\
  ((forall z, e <> SetSelectedSize z) -> selectedSize (run e s) = selectedSize s) /\
  ((forall i, e <> SetActiveFaq i) -> activeFaq (run e s) = activeFaq s).
Proof.
  split_and!; intros He; destruct e; try done; by edestruct He.
Qed.

(** ** Facts: the configurator *)

Lemma mapM_color_button (c : Color) (l : list Color) :
  mapM (color_button (Some c)) l =
  Some ((fun color => color_swatch (same_name c color) color) <$> l).
Proof. apply mapM_total. Qed.

Lemma configurator_Some (s : State) (c : Color) :
  selectedColor s = Some c ->
  configurator s =
  Some (configurator_view
          ((fun color => color_swatch (same_name c color) color) <$> COLORS) s).
Proof. intros Hs. unfold configurator. by rewrite Hs, mapM_color_button. Qed.

(** The configurator renders exactly when a colour is selected: with
    [selectedColor] undefined, reading its name throws. *)
Lemma configurator_defined (s : State) :
  is_Some (configurator s) <-> is_Some (selectedColor s).
Proof.
  destruct (selectedColor s) as [c|] eqn:Hs.
  - rewrite (configurator_Some s c Hs). split; eauto.
  - unfold configurator. rewrite Hs. split; intros [? ?]; done.
Qed.

(** A swatch is marked by the ring of the selected colour. *)
Definition swatch_marked : node handler -> bool := has_class "border-ice-500".

(** A size button is marked by its white fill. *)
Definition size_marked : node handler -> bool := has_class "bg-white".

Lemma count_marked_swatch (selected : bool) (color : Color) :
  count_nodes swatch_marked (color_swatch selected color) =
  if selected then 1%nat else 0%nat.
Proof. unfold color_swatch, color_label. destruct selected; by count_tree. Qed.

Lemma count_marked_size_in_swatch (selected : bool) (color : Color) :
  count_nodes size_marked (color_swatch selected color) = 0%nat.
Proof. unfold color_swatch, color_label. destruct selected; by count_tree. Qed.

Lemma count_marked_size (sel : option string) (size : string) :
  count_nodes size_marked (size_button sel size) =
  if size_selected sel size then 1%nat else 0%nat.
Proof. unfold size_button. destruct (size_selected sel size); by count_tree. Qed.

Lemma count_marked_swatch_in_size (sel : option string) (size : string) :
  count_nodes swatch_marked (size_button sel size) = 0%nat.
Proof. unfold size_button. destruct (size_selected sel size); by count_tree. Qed.

(** The number of entries of [COLORS] with the name of [c]. *)
Lemma count_same_name (c : Color) :
  c ∈ COLORS -> count (same_name c) COLORS = 1%nat.
Proof.
  intros Hc. rewrite <- (count_key_unique Color.name COLORS c) by auto with cb.
  apply count_ext. intros y _. rewrite same_name_decide.
  apply bool_decide_ext. split; congruence.
Qed.

(** The number of entries of [SIZES] equal to [z]. *)
Lemma count_size_selected (z : string) :
  count (size_selected (Some z)) SIZES = if bool_decide (z ∈ SIZES) then 1%nat else 0%nat.
Proof.
  assert (Heq : forall y, size_selected (Some z) y = bool_decide (id y = z)).
  { intros y. simpl. apply eq_true_iff_eq.
    by rewrite String.eqb_eq, bool_decide_eq_true. }
  rewrite (count_ext _ _ _ (fun y _ => Heq y)). case_bool_decide as Hz.
  - apply (count_key_unique id SIZES z); [|done].
    rewrite list_fmap_id. apply SIZES_NoDup.
  - apply count_key_absent. by rewrite list_fmap_id.
Qed.

(** Claim C7. With a colour of [COLORS] selected, exactly one swatch of the
    rendered configurator carries the mark of the selection. *)
Lemma one_swatch_marked (s : State) (c : Color) (cfg : node handler) :
  selectedColor s = Some c -> c ∈ COLORS -> configurator s = Some cfg ->
  count_nodes swatch_marked cfg = 1%nat.
Proof.
  intros Hs Hc. rewrite (configurator_Some s c Hs). intros Hcfg.
  apply (inj Some) in Hcfg as <-. unfold configurator_view, configurator_label.
  remember (_ <$> COLORS) as swatches eqn:Hsw.
  remember (_ <$> SIZES) as sizes eqn:Hsz. count_tree. subst swatches sizes.
  rewrite (count_flat_map_fmap _ _ (same_name c))
    by (intros; apply count_marked_swatch).
  rewrite (count_flat_map_fmap _ _ (fun _ => false))
    by (intros; apply count_marked_swatch_in_size).
  rewrite count_same_name, count_zero by done. reflexivity.
Qed.

(** The configurator as the page loads. *)
Definition cfg0 : node handler := default Hole (configurator init).

Lemma one_swatch_marked_witness : count_nodes swatch_marked cfg0 = 1%nat.
Proof.
  apply (one_swatch_marked init {| Color.name := Onyx; Color.hex := "#1a1a1a" |});
    [reflexivity|by_decide|reflexivity].
Defined.

(** Claim C14. Exactly one size button of the rendered configurator is marked
    when the selected size is one of [SIZES], and none otherwise. *)
Lemma one_size_marked (s : State) (cfg : node handler) :
  configurator s = Some cfg ->
  count_nodes size_marked cfg =
  match selectedSize s with
  | Some z => if bool_decide (z ∈ SIZES) then 1%nat else 0%nat
  | None => 0%nat
  end.
Proof.
  destruct (selectedColor s) as [c|] eqn:Hs;
    [|unfold configurator; by rewrite Hs].
  rewrite (configurator_Some s c Hs). intros Hcfg.
  apply (inj Some) in Hcfg as <-. unfold configurator_view, configurator_label.
  remember (_ <$> COLORS) as swatches eqn:Hsw.
  remember (_ <$> SIZES) as sizes eqn:Hsz. count_tree. subst swatches sizes.
  rewrite (count_flat_map_fmap _ _ (fun _ => false))
    by (intros; apply count_marked_size_in_swatch).
  rewrite (count_flat_map_fmap _ _ (size_selected (selectedSize s)))
    by (intros; apply count_marked_size).
  rewrite count_zero by done. destruct (selectedSize s) as [z|].
  - rewrite count_size_selected. by case_bool_decide.
  - by rewrite (count_zero (size_selected None)).
Qed.

Lemma one_size_marked_witness :
  count_nodes size_marked cfg0 =
  match selectedSize init with
  | Some z => if bool_decide (z ∈ SIZES) then 1%nat else 0%nat
  | None => 0%nat
  end.
Proof. exact (one_size_marked init cfg0 eq_refl). Defined.

(** The swatch of a colour selects that colour and nothing else. *)
Lemma color_swatch_click (s : State) (selected : bool) (color : Color) (h : handler) :
  onClick (color_swatch selected color) = Some h ->
  run_handler h s = setSelectedColor color s.
Proof. by intros [= <-]. Qed.

Lemma size_button_click (s : State) (sel : option string) (size : string) (h : handler) :
  onClick (size_button sel size) = Some h ->
  run_handler h s = setSelectedSize size s.
Proof. by intros [= <-]. Qed.

(** The swatch of every colour and the button of every size are on the
    screen whenever the section renders. *)
Lemma configurator_rendered (s : State) (c : Color) (shop : node handler) :
  selectedColor s = Some c -> bundles_section s = Some shop ->
  configurator_view
    ((fun color => color_swatch (same_name c color) color) <$> COLORS) s
    ∈ descendants shop.
Proof.
  intros Hs. unfold bundles_section. rewrite (configurator_Some s c Hs).
  intros [= <-]. child 0%nat. child 1%nat. apply descendants_self.
Qed.

Lemma color_swatch_rendered (s : State) (c color : Color) (shop : node handler) :
  selectedColor s = Some c -> color ∈ COLORS -> bundles_section s = Some shop ->
  color_swatch (same_name c color) color ∈ descendants shop.
Proof.
  intros Hs Hc Hshop.
  eapply descendants_trans; [by apply configurator_rendered|].
  unfold configurator_view. child 0%nat. child 1%nat. child 0%nat.
  apply descendants_child.
  by apply (list_elem_of_fmap_2 (fun color => color_swatch (same_name c color) color)).
Qed.

Lemma size_button_rendered (s : State) (c : Color) (size : string)
    (shop : node handler) :
  selectedColor s = Some c -> size ∈ SIZES -> bundles_section s = Some shop ->
  size_button (selectedSize s) size ∈ descendants shop.
Proof.
  intros Hs Hz Hshop.
  eapply descendants_trans; [by apply configurator_rendered|].
  unfold configurator_view. child 1%nat. child 1%nat. child 0%nat.
  apply descendants_child. by apply (list_elem_of_fmap_2 (size_button (selectedSize s))).
Qed.

(** ** Facts: the FAQ accordion *)

(** At most one entry is open. *)
Lemma faq_open_unique (s : State) (i j : nat) :
  faq_open s i = true -> faq_open s j = true -> i = j.
Proof.
  unfold faq_open. rewrite !bool_decide_eq_true. congruence.
Qed.

(** The click handler of entry [idx] of the rendered accordion. *)
Lemma faq_button_onClick (s : State) (idx : nat) (faq : Faq) :
  onClick (faq_button s idx faq) = Some [SetActiveFaq (faq_toggle s idx)].
Proof. reflexivity. Qed.

(** The handler of the open entry closes it. *)
Lemma faq_toggle_open (s : State) (idx : nat) :
  activeFaq s = Some idx -> faq_toggle s idx = None.
Proof. intros Hs. unfold faq_toggle, faq_open. by rewrite bool_decide_eq_true_2. Qed.

(** What the handler of entry [idx] writes. *)
Lemma faq_toggle_run (s : State) (idx : nat) :
  activeFaq (run_handler [SetActiveFaq (faq_toggle s idx)] s) =
  if decide (activeFaq s = Some idx) then None else Some idx.
Proof.
  simpl. unfold faq_toggle, faq_open.
  destruct (decide (activeFaq s = Some idx));
    [by rewrite bool_decide_eq_true_2|by rewrite bool_decide_eq_false_2].
Qed.

(** Claim C8. Clicking entry [idx] opens it, unless it was the open one,
    which the click closes; the other cells are untouched. *)
Lemma faq_click (s : State) (idx : nat) (faq : Faq) (h : handler) :
  onClick (faq_button s idx faq) = Some h ->
  activeFaq (run_handler h s) =
    (if decide (activeFaq s = Some idx) then None else Some idx) /\
  selectedColor (run_handler h s) = selectedColor s /\
  selectedSize (run_handler h s) = selectedSize s.
Proof.
  rewrite faq_button_onClick. intros [= <-]. split_and!; try done.
  apply faq_toggle_run.
Qed.

Lemma faq_click_witness :
  activeFaq (run_handler [SetActiveFaq (faq_toggle init 2)] init) =
    (if decide (activeFaq init = Some 2%nat) then None else Some 2%nat) /\
  selectedColor (run_handler [SetActiveFaq (faq_toggle init 2)] init) = selectedColor init /\
  selectedSize (run_handler [SetActiveFaq (faq_toggle init 2)] init) = selectedSize init.
Proof. exact (faq_click init 2 {| Faq.q := "q"; Faq.a := "a" |} _ eq_refl). Defined.

(** Claim C26. A second click on the same entry, on the tree rendered after
    the first, closes what the first opened. *)
Lemma faq_click_twice (s : State) (idx : nat) (faq : Faq) (h1 h2 : handler) :
  activeFaq s <> Some idx ->
  onClick (faq_button s idx faq) = Some h1 ->
  onClick (faq_button (run_handler h1 s) idx faq) = Some h2 ->
  activeFaq (run_handler h2 (run_handler h1 s)) = None.
Proof.
  rewrite !faq_button_onClick. intros Hs [= <-] [= <-].
  rewrite !faq_toggle_run.
  rewrite (decide_False (P := activeFaq s = Some idx)) by done.
  by rewrite decide_True.
Qed.

Lemma faq_click_twice_witness :
  activeFaq (run_handler [SetActiveFaq None]
               (run_handler [SetActiveFaq (Some 2%nat)] init)) = None.
Proof.
  apply (faq_click_twice init 2 {| Faq.q := "q"; Faq.a := "a" |}); done.
Defined.

(** A panel is expanded when it animates to its natural height. *)
Definition panel_expanded (n : node handler) : bool :=
  bool_decide (val_prop "animate" n ≫= obj_get "height" = Some (JStr "auto")).

Lemma count_expanded_entry (s : State) (idx : nat) (faq : Faq) :
  count_nodes panel_expanded (faq_entry s idx faq) =
  if faq_open s idx then 1%nat else 0%nat.
Proof.
  unfold faq_entry, faq_button, faq_panel.
  destruct (faq_open s idx); count_tree; reflexivity.
Qed.

(** The number of answers a state expands. *)
Definition expanded (s : State) : nat :=
  match activeFaq s with
  | Some i => if bool_decide (i < length faqs)%nat then 1%nat else 0%nat
  | None => 0%nat
  end.

Lemma count_expanded_section (s : State) :
  count_nodes panel_expanded (faq_section s) = expanded s.
Proof.
  unfold faq_section, expanded. count_tree.
  rewrite (count_flat_map_imap _ _ (faq_open s))
    by (intros; apply count_expanded_entry).
  unfold faq_open. rewrite count_seq_Some.
  destruct (activeFaq s) as [i|]; [|done].
  apply eq_sym. repeat case_bool_decide; (done || lia).
Qed.

(** Claim C6. The rendered accordion has one expanded panel when an existing
    entry is open, and none otherwise: never two. *)
Lemma faq_section_expanded (s : State) :
  count_nodes panel_expanded (faq_section s) =
  match activeFaq s with
  | Some i => if bool_decide (i < length faqs)%nat then 1%nat else 0%nat
  | None => 0%nat
  end.
Proof. apply count_expanded_section. Qed.

(** The button of every question is on the screen. *)
Lemma faq_button_rendered (s : State) (idx : nat) (faq : Faq) :
  faqs !! idx = Some faq -> faq_button s idx faq ∈ descendants (faq_section s).
Proof.
  intros Hf. unfold faq_section. child 0%nat. child 1%nat. child 0%nat.
  eapply (descendants_lookup _ idx);
    [cbn [children_of]; by rewrite list_lookup_imap, Hf|].
  apply descendants_child. left.
Qed.

(** ** Facts: the views of the two sections *)

(** The FAQ section reads the state through [activeFaq] only, and an index
    past the last question opens nothing: the section has one view per
    question and one with every entry closed. *)
Definition faq_view (o : option nat) : node handler :=
  faq_section {| selectedColor := None; selectedSize := None; activeFaq := o |}.

Definition faq_views : list (node handler) :=
  faq_view <$> None :: (Some <$> seq 0 (length faqs)).

Lemma faq_view_out_of_range (i : nat) :
  (length faqs <= i)%nat -> faq_view (Some i) = faq_view None.
Proof.
  intros Hi. unfold faq_view, faq_section.
  erewrite imap_ext; [reflexivity|].
  intros idx faq Hidx. apply lookup_lt_Some in Hidx.
  unfold faq_entry, faq_button, faq_panel, faq_toggle, faq_open; simpl.
  by rewrite bool_decide_eq_false_2 by (intros [= ->]; lia).
Qed.

Lemma faq_section_view (s : State) : faq_section s ∈ faq_views.
Proof.
  change (faq_section s) with (faq_view (activeFaq s)). unfold faq_views.
  destruct (activeFaq s) as [i|]; [|apply list_elem_of_fmap_2; left].
  destruct (decide (i < length faqs)%nat) as [Hi|Hi].
  - apply list_elem_of_fmap_2. right. apply list_elem_of_fmap_2, elem_of_seq. lia.
  - rewrite faq_view_out_of_range by lia. apply list_elem_of_fmap_2. left.
Qed.

(** A test that passes on every view passes on the section in every state. *)
Lemma faq_section_cases (p : node handler -> bool) (s : State) :
  forallb p faq_views = true -> p (faq_section s) = true.
Proof. intros Hp. apply (forallb_elem_of p faq_views), faq_section_view. done. Qed.

(** The configurator reads the selected colour through its name and the
    selected size through its place in [SIZES]. *)
Definition cfg_view (c : Color) (z : option string) : option (node handler) :=
  configurator {| selectedColor := Some c; selectedSize := z; activeFaq := None |}.

Lemma configurator_cfg_view (s : State) (c : Color) :
  selectedColor s = Some c -> configurator s = cfg_view c (selectedSize s).
Proof. intros Hs. unfold cfg_view. by rewrite !(configurator_Some _ c). Qed.

Lemma cfg_view_name (c c' : Color) (z : option string) :
  Color.name c = Color.name c' -> cfg_view c z = cfg_view c' z.
Proof.
  intros Hn. unfold cfg_view, configurator.
  cbn [selectedColor]. rewrite !mapM_color_button.
  erewrite list_fmap_ext; [reflexivity|].
  intros _ color _. by rewrite !same_name_decide, Hn.
Qed.

Lemma cfg_view_out_of_range (c : Color) (z : string) :
  z ∉ SIZES -> cfg_view c (Some z) = cfg_view c None.
Proof.
  intros Hz. unfold cfg_view, configurator.
  cbn [selectedColor]. rewrite !mapM_color_button.
  unfold configurator_view; cbn [selectedSize mbind option_bind].
  rewrite (list_fmap_ext (size_button (Some z)) (size_button None) SIZES); [done|].
  intros _ size Hsize%list_elem_of_lookup_2.
  unfold size_button, size_selected; simpl.
  destruct (String.eqb_spec size z) as [->|]; done.
Qed.

(** The same for the section around it. *)
Definition shop_view (c : Color) (z : option string) : option (node handler) :=
  bundles_section {| selectedColor := Some c; selectedSize := z; activeFaq := None |}.

Definition selections : list (Color * option string) :=
  c ← COLORS; z ← None :: (Some <$> SIZES); [(c, z)].

Definition shop_views : list (node handler) :=
  omap (fun cz => shop_view cz.1 cz.2) selections.

Lemma bundles_section_shop_view (s : State) (c : Color) :
  selectedColor s = Some c -> bundles_section s = shop_view c (selectedSize s).
Proof.
  intros Hs. unfold shop_view, bundles_section.
  by rewrite !(configurator_Some _ c) by done.
Qed.

Lemma shop_view_name (c c' : Color) (z : option string) :
  Color.name c = Color.name c' -> shop_view c z = shop_view c' z.
Proof.
  intros Hn. unfold shop_view, bundles_section.
  change (configurator _) with (cfg_view c z) at 1.
  by rewrite (cfg_view_name c c' z Hn).
Qed.

Lemma shop_view_out_of_range (c : Color) (z : string) :
  z ∉ SIZES -> shop_view c (Some z) = shop_view c None.
Proof.
  intros Hz. unfold shop_view, bundles_section.
  change (configurator _) with (cfg_view c (Some z)) at 1.
  by rewrite (cfg_view_out_of_range c z Hz).
Qed.

(** The entry of [COLORS] that has the name of a colour. *)
Definition listed (c : Color) : Color :=
  default c (List.find (same_name c) COLORS).

Lemma listed_spec (c : Color) :
  listed c ∈ COLORS /\ Color.name c = Color.name (listed c).
Proof. destruct c as [[] hex]; split; (by_decide || done). Qed.

(** The place of a size in [SIZES], or none. *)
Definition listed_size (z : option string) : option string :=
  z ≫= fun z => if bool_decide (z ∈ SIZES) then Some z else None.

Lemma shop_view_listed_size (c : Color) (z : option string) :
  shop_view c z = shop_view c (listed_size z).
Proof.
  destruct z as [z|]; [unfold listed_size; cbn [mbind option_bind]|done].
  case_bool_decide; [done|]. by apply shop_view_out_of_range.
Qed.

Lemma listed_size_spec (z : option string) :
  listed_size z ∈ None :: (Some <$> SIZES).
Proof.
  destruct z as [z|]; [unfold listed_size; cbn [mbind option_bind]|left].
  case_bool_decide; [right; by apply list_elem_of_fmap_2|left].
Qed.

Lemma selections_spec (c : Color) (z : option string) :
  c ∈ COLORS -> (c, listed_size z) ∈ selections.
Proof.
  intros Hc. apply list_elem_of_bind. exists c. split; [|done].
  apply list_elem_of_bind. exists (listed_size z).
  split; [by apply list_elem_of_singleton|apply listed_size_spec].
Qed.

Lemma bundles_section_view (s : State) (shop : node handler) :
  bundles_section s = Some shop -> shop ∈ shop_views.
Proof.
  intros Hshop. destruct (selectedColor s) as [c|] eqn:Hc.
  2: { unfold bundles_section, configurator in Hshop. by rewrite Hc in Hshop. }
  destruct (listed_spec c) as [Hin Hname].
  rewrite (bundles_section_shop_view s c Hc), (shop_view_name c _ _ Hname),
    shop_view_listed_size in Hshop.
  apply list_elem_of_omap. exists (listed c, listed_size (selectedSize s)).
  split; [by apply selections_spec|done].
Qed.

(** A test that passes on every view passes on the section whenever it
    renders. *)
Lemma bundles_section_cases (p : node handler -> bool) (s : State) shop :
  forallb p shop_views = true -> bundles_section s = Some shop -> p shop = true.
Proof.
  intros Hp Hs. by apply (forallb_elem_of p shop_views), bundles_section_view with s.
Qed.

(** A test of the configurator that passes for every selection of the
    catalogue passes in every state that selects a colour of [COLORS]. *)
Lemma configurator_indexed (p : Color -> option string -> node handler -> bool)
    (s : State) (c : Color) (cfg : node handler) :
  forallb (fun cz => from_option (p cz.1 cz.2) true (cfg_view cz.1 cz.2)) selections
    = true ->
  selectedColor s = Some c -> c ∈ COLORS -> configurator s = Some cfg ->
  p c (listed_size (selectedSize s)) cfg = true.
Proof.
  intros Hp Hs Hc Hcfg.
  assert (cfg_view c (listed_size (selectedSize s)) = Some cfg) as Hv.
  { rewrite <- Hcfg, (configurator_cfg_view s c Hs).
    destruct (selectedSize s) as [z|]; [|done].
    unfold listed_size; cbn [mbind option_bind].
    case_bool_decide; [done|]. symmetry. by apply cfg_view_out_of_range. }
  apply (forallb_elem_of _ _ (c, listed_size (selectedSize s))) in Hp;
    [|by apply selections_spec].
  cbn [fst snd] in Hp. by rewrite Hv in Hp.
Qed.

(** Claim C12. A click on the swatch of a colour of [COLORS] selects it:
    in the configurator rendered next, the swatch of that colour is the one
    marked swatch, and the selected size is the one it was. *)
Theorem swatch_click_selects (s : State) (selected : bool) (color : Color)
    (h : handler) (cfg : node handler) :
  color ∈ COLORS -> onClick (color_swatch selected color) = Some h ->
  configurator (run_handler h s) = Some cfg ->
  select swatch_marked cfg = [color_swatch true color] /\
  selectedSize (run_handler h s) = selectedSize s.
Proof.
  intros Hc [= <-] Hcfg. split; [|done].
  apply (bool_decide_eq_true_1 _).
  apply (configurator_indexed
    (fun c _ cfg => bool_decide (select swatch_marked cfg = [color_swatch true c]))
    (run_handler [SetSelectedColor color] s) color cfg); (done || by_compute).
Qed.

(** Claim C13. A click on the button of a size of [SIZES] selects it: in
    the configurator rendered next, the button of that size is the one
    marked size button, and the selected colour is the one it was. *)
Theorem size_click_selects (s : State) (sel : option string) (size : string)
    (c : Color) (h : handler) (cfg : node handler) :
  size ∈ SIZES -> selectedColor s = Some c -> c ∈ COLORS ->
  onClick (size_button sel size) = Some h ->
  configurator (run_handler h s) = Some cfg ->
  select size_marked cfg = [size_button (Some size) size] /\
  selectedColor (run_handler h s) = selectedColor s.
Proof.
  intros Hz Hs Hc [= <-] Hcfg. split; [|done].
  pose proof (configurator_indexed
    (fun _ z cfg => bool_decide (select size_marked cfg =
       from_option (fun z => [size_button (Some z) z]) [] z))
    (run_handler [SetSelectedSize size] s) c cfg) as Hall.
  cbn [run_handler fold_left run setSelectedSize selectedSize listed_size
       mbind option_bind] in Hall.
  rewrite (bool_decide_eq_true_2 (size ∈ SIZES)) in Hall by done.
  apply (bool_decide_eq_true_1 _), Hall; (done || by_compute).
Qed.

Lemma swatch_click_selects_witness :
  select swatch_marked
    (default Hole (configurator (run_handler
       [SetSelectedColor {| Color.name := Green; Color.hex := "#14532d" |}] init))) =
    [color_swatch true {| Color.name := Green; Color.hex := "#14532d" |}] /\
  selectedSize (run_handler
    [SetSelectedColor {| Color.name := Green; Color.hex := "#14532d" |}] init) =
    selectedSize init.
Proof.
  apply (swatch_click_selects init false
           {| Color.name := Green; Color.hex := "#14532d" |});
    [by_decide|reflexivity|reflexivity].
Defined.

Lemma size_click_selects_witness :
  select size_marked
    (default Hole (configurator (run_handler [SetSelectedSize "XL"] init))) =
    [size_button (Some "XL") "XL"] /\
  selectedColor (run_handler [SetSelectedSize "XL"] init) = selectedColor init.
Proof.
  apply (size_click_selects init (Some "M") "XL"
           {| Color.name := Onyx; Color.hex := "#1a1a1a" |});
    [by_decide|reflexivity|by_decide|reflexivity|reflexivity].
Defined.

(** ** Facts: the bundle cards *)

(** An element without a click handler. *)
Definition inert (n : node handler) : bool :=
  match onClick n with Some _ => false | None => true end.

Lemma bundle_badge_inert (b : Bundle) : all_nodes inert (bundle_badge b) = true.
Proof.
  unfold bundle_badge. destruct (Bundle.badge b) as [l|]; [|done].
  by destruct (truthy l).
Qed.

Lemma bundle_cta_inert (b : Bundle) : all_nodes inert (bundle_cta b) = true.
Proof. unfold bundle_cta. by destruct (truthy_opt (Bundle.badge b)). Qed.

Lemma bundle_card_all_inert (idx : nat) (b : Bundle) :
  all_nodes inert (bundle_card idx b) = true.
Proof.
  unfold bundle_card. all_tree.
  rewrite bundle_badge_inert, bundle_cta_inert, all_nodes_imap by done.
  by_compute.
Qed.

(** Claim C27. No element of a bundle card has a click handler, whatever the
    bundle and its place in the list: the call to action of a card does
    nothing when it is clicked. *)
Theorem bundle_card_inert (idx : nat) (b : Bundle) (n : node handler) :
  n ∈ descendants (bundle_card idx b) -> onClick n = None.
Proof.
  intros Hn. pose proof (all_nodes_elim _ _ _ (bundle_card_all_inert idx b) Hn) as Hi.
  unfold inert in Hi. by destruct (onClick n).
Qed.

(** A bundle without a badge, for the examples. *)
Definition plain_bundle : Bundle := {|
  Bundle.id := "solo"; Bundle.name := "Solo"; Bundle.description := "One pair.";
  Bundle.includes := ["1 boxer brief"]; Bundle.price := 25; Bundle.badge := None;
  Bundle.cta := "Get Solo"; Bundle.image := "images/solo.png"
|}.

Lemma bundle_card_inert_witness : onClick (bundle_cta plain_bundle) = None.
Proof. apply (bundle_card_inert 3 plain_bundle). by_decide. Defined.

(** Claim C39. A card shows what its bundle says, for every bundle: the badge
    when there is one, then the name, the description, the price in euros,
    every included item in the order of the list, and the label of the call
    to action; the image of the card is the image of the bundle, described
    by its name. *)
Theorem bundle_card_shows (idx : nat) (b : Bundle) :
  texts (bundle_card idx b) =
    (option_list (Bundle.badge b) ++
     [Bundle.name b; Bundle.description b; "€"] ++ Bundle.includes b ++
     [Bundle.cta b])%list /\
  numbers (bundle_card idx b) = [Bundle.price b] /\
  attrs "src" (bundle_card idx b) = [Bundle.image b] /\
  attrs "alt" (bundle_card idx b) = [Bundle.name b].
Proof.
  destruct b as [id name desc incl price badge cta image].
  unfold texts, numbers, attrs, bundle_card, bundle_badge, bundle_cta, card_className.
  cbn [Bundle.badge Bundle.name Bundle.description Bundle.includes Bundle.cta
       Bundle.price Bundle.image Bundle.id].
  split_and!; collect_tree.
  all: first [rewrite (collect_imap _ _ (fun a => [a])), list_bind_singleton by done
             |rewrite (collect_imap _ _ (fun _ => [])), list_bind_nil by done].
  all: destruct badge as [l|]; unfold truthy_opt; cbn [from_option];
    [destruct (truthy l)|]; simpl; by rewrite ?app_nil_r.
Qed.

End App.
