(* ===== verification/Sections.v ===== *)
(** * Sections: the static sections of the page (src/App.tsx)

    The sections of [App] that do not read the state, in the order of the
    page: hero, problem statement, outcome, features, gallery, how it works,
    reviews, guarantee and footer.  The hero reads two motion values derived
    from the scroll offset ([heroY], [heroOpacity]); the outcome section
    passes the layout of its image and the visibility of its two headings
    to the components that call the hooks; the footer reads the current
    year.  These inputs are the fields of [Env]. *)

From Stdlib Require Import Ascii String.
From S2P Require Import Prelude JsString Motion Hooks Vdom Types Dom Button Catalog.
From S2P Require Import Primitives.

#[local] Open Scope string_scope.

Module Sections.

(** What the page reads from its surroundings when it renders. *)
Record Env : Type := {
  scrollY : Q;
  outcomeImage : Layout;
  heading : Visibility;
  subheading : Visibility;
  year : Z
}.

(** [useTransform(scrollY, [0, 500], [0, 200])]. *)
Definition heroY (scrollY : Q) : Q := transform 0 500 0 200 scrollY.

(** [useTransform(scrollY, [0, 300], [1, 0])]. *)
Definition heroOpacity (scrollY : Q) : Q := transform 0 300 1 0 scrollY.

(** [document.getElementById(id)?.scrollIntoView({behavior: 'smooth'})]. *)
Definition scrollTo (id : string) : handler := [ScrollIntoView id].

(** ** Hero *)

Module Perk.
Record Perk : Type := { icon : string; text : string }.
End Perk.
Abbreviation Perk := Perk.Perk.

Definition perks : list Perk := [
  {| Perk.icon := "Thermometer"; Perk.text := "20 min cooling sessions" |};
  {| Perk.icon := "RefreshCw"; Perk.text := "Swap pads in seconds" |};
  {| Perk.icon := "Wind"; Perk.text := "Bamboo Lyocell comfort" |};
  {| Perk.icon := "ShieldCheck"; Perk.text := "Tight, supportive fit" |}
].

Definition perk_item (i : nat) (item : Perk) : node handler :=
  Elem "div" (Some (KIdx i)) [cls "flex items-center gap-3"]
    [el "div" "p-2 rounded-full bg-white/5 text-ice-400"
       [el (Perk.icon item) "w-4 h-4" []];
     Elem "span" None [] [Text (Perk.text item)]].

Definition hero_copy (env : Env) : node handler :=
  Elem "motion.div" None
    [pobj "style" [("opacity", JMotion (heroOpacity (scrollY env)))];
     cls "lg:col-span-7 order-2 lg:order-1"]
    [Elem "motion.h1" None
       [pobj "initial" [("opacity", JNum 0); ("y", JNum 20)];
        pobj "animate" [("opacity", JNum 1); ("y", JNum 0)];
        pobj "transition" [("duration", JNum 0.8); ("ease", JStr "easeOut")];
        cls "text-6xl md:text-8xl font-bold tracking-tighter text-white mb-8 leading-[0.9]"]
       [Text "Sauna heat. ";
        Elem "br" None [] [];
        el "span" "text-transparent bg-clip-text bg-gradient-to-r from-ice-300 via-ice-400 to-ice-500"
          [Text "Managed."]];
     Elem "motion.p" None
       [pobj "initial" [("opacity", JNum 0); ("y", JNum 20)];
        pobj "animate" [("opacity", JNum 1); ("y", JNum 0)];
        pobj "transition" [("duration", JNum 0.8); ("delay", JNum 0.2); ("ease", JStr "easeOut")];
        cls "text-xl text-gray-400 mb-10 max-w-lg font-light leading-relaxed border-l-2 border-ice-900 pl-6"]
       [Text "Premium cooling boxer briefs designed to support fertility by helping reduce unwanted heat exposure. Built for sauna routines."];
     Elem "motion.div" None
       [pobj "initial" [("opacity", JNum 0); ("y", JNum 20)];
        pobj "animate" [("opacity", JNum 1); ("y", JNum 0)];
        pobj "transition" [("duration", JNum 0.8); ("delay", JNum 0.4)];
        cls "flex flex-col sm:flex-row gap-4 mb-12"]
       [Button None None None [("onClick", POn (scrollTo "bundles"))]
          [Text "Shop Bundles"];
        Button (Some secondary) None None [("onClick", POn (scrollTo "how-it-works"))]
          [Text "How it works"]];
     Elem "motion.div" None
       [pobj "initial" [("opacity", JNum 0)];
        pobj "animate" [("opacity", JNum 1)];
        pobj "transition" [("delay", JNum 0.6); ("duration", JNum 1)];
        cls "grid grid-cols-2 gap-y-6 gap-x-8 text-sm text-gray-400 font-medium"]
       [Arr (imap perk_item perks)]].

Definition hero_badge : node handler :=
  Elem "motion.div" None
    [pobj "animate" [("y", JArr [JNum (-10); JNum 10; JNum (-10)])];
     pobj "transition" [("repeat", JInfinity); ("duration", JNum 5); ("ease", JStr "easeInOut")];
     cls "absolute -bottom-8 -left-8 bg-neutral-900/90 backdrop-blur-md border border-white/10 p-6 rounded-xl shadow-2xl z-20 max-w-[200px]"]
    [el "div" "text-ice-400 font-bold text-lg mb-1" [Text "Fertility Smart"];
     el "div" "text-xs text-gray-400" [Text "Engineered for heat management and comfort."]].

Definition hero_image (env : Env) : node handler :=
  el "div" "lg:col-span-5 order-1 lg:order-2 relative h-[50vh] lg:h-[70vh] w-full flex items-center justify-center"
    [Elem "motion.div" None
       [pobj "style" [("y", JMotion (heroY (scrollY env)))];
        pobj "initial" [("opacity", JNum 0); ("scale", JNum 0.9); ("rotate", JNum (-5))];
        pobj "animate" [("opacity", JNum 1); ("scale", JNum 1); ("rotate", JNum 0)];
        pobj "transition"
          [("duration", JNum 1.2); ("ease", JArr [JNum 0.22; JNum 1; JNum 0.36; JNum 1])];
        cls "relative w-full h-full z-10"]
       [el "div" "relative w-full h-full rounded-2xl overflow-hidden shadow-2xl border border-white/10 group"
          [el "div" "absolute inset-0 bg-gradient-to-tr from-ice-500/20 to-transparent mix-blend-overlay z-10" [];
           Elem "img" None
             [pstr "src" "images/1 medium.png"; pstr "alt" "ColdBoxers Hero";
              cls "w-full h-full object-cover"]
             []];
        hero_badge];
     el "div" "absolute top-1/2 left-1/2 -translate-x-1/2 -translate-y-1/2 w-[120%] h-[120%] bg-ice-500/10 blur-[80px] rounded-full -z-10" []].

(** The arrow under the hero: [window.scrollTo({ top: window.innerHeight,
    behavior: 'smooth' })]. *)
Definition hero_arrow : node handler :=
  Elem "motion.div" None
    [pobj "animate" [("y", JArr [JNum 0; JNum 10; JNum 0])];
     pobj "transition" [("repeat", JInfinity); ("duration", JNum 2)];
     cls "absolute bottom-8 left-1/2 -translate-x-1/2 text-gray-500 cursor-pointer hover:text-white transition-colors";
     ("onClick", POn [ScrollToInnerHeight])]
    [el "ChevronDown" "w-6 h-6" []].

Definition hero (env : Env) : node handler :=
  el "section" "relative min-h-screen flex items-center pt-32 pb-20 overflow-hidden"
    [el "div" "absolute top-0 right-0 w-2/3 h-full bg-gradient-to-l from-neutral-900 to-transparent opacity-60 z-0 pointer-events-none" [];
     el "div" "absolute bottom-0 left-0 w-[600px] h-[600px] bg-ice-900/10 blur-[150px] rounded-full z-0 pointer-events-none" [];
     el "div" "max-w-7xl mx-auto px-6 w-full grid grid-cols-1 lg:grid-cols-12 gap-12 items-center relative z-10"
       [hero_copy env; hero_image env];
     hero_arrow].

(** ** Problem statement *)

Definition problem : node handler :=
  el "section" "py-32 bg-neutral-900/50 relative overflow-hidden"
    [el "div" "max-w-4xl mx-auto px-6 text-center relative z-10"
       [FadeInUp None None
          [el "h2" "text-5xl md:text-7xl font-bold text-white tracking-tighter mb-8"
             [Text "Heat adds up."]];
        FadeInUp (Some 0.2%Q) None
          [el "p" "text-xl md:text-2xl text-gray-400 font-light leading-relaxed mb-8"
             [Text "Sauna sessions feel great. The heat down there does not. For men, testicular temperature matters. Sperm production works best in a cooler environment."]];
        FadeInUp (Some 0.4%Q) None
          [el "p" "text-lg text-gray-300 max-w-2xl mx-auto"
             [Text "ColdBoxers gives you a clean, simple habit for heat heavy days. No DIY ice tricks. No bulky devices. Just premium underwear that does its job."]]]].

(** ** Outcome *)

Definition outcome_point (title body : string) : node handler :=
  el "div" "flex gap-6 group"
    [el "div" "w-1 bg-neutral-800 h-auto group-hover:bg-ice-500 transition-colors duration-500" [];
     Elem "div" None []
       [el "h4" "text-white font-bold mb-2" [Text title];
        el "p" "text-gray-400" [Text body]]].

Definition outcome (env : Env) : node handler :=
  el "section" "py-32 bg-onyx border-y border-white/5"
    [el "div" "max-w-7xl mx-auto px-6 grid md:grid-cols-2 gap-20 items-center"
       [el "div" "h-[600px] w-full"
          [ParallaxImage (outcomeImage env) (scrollY env) "images/2 medium.png"
             "Lifestyle Sauna"
             (Some 80%Q)];
        el "div" "space-y-12"
          [Elem "div" None []
             [RevealText (heading env) "Keep the lifestyle."
                (Some "text-4xl md:text-5xl font-bold text-white block mb-2");
              RevealText (subheading env) "Protect the plan."
                (Some "text-4xl md:text-5xl font-bold text-gray-500 block")];
           el "div" "space-y-8"
             [FadeInUp (Some 0.2%Q) None
                [outcome_point "Control the Heat"
                   "Go to the sauna and still feel in control afterward. Build a routine that supports fertility without changing who you are."];
              FadeInUp (Some 0.4%Q) None
                [outcome_point "Future Proof"
                   "ColdBoxers is made for men who want premium comfort now, and peace of mind later."]]]]].

(** ** Features *)

Module Feature.
Record Feature : Type := { title : string; desc : string }.
End Feature.
Abbreviation Feature := Feature.Feature.

Definition feature_list : list Feature := [
  {| Feature.title := "Discreet Pocket";
     Feature.desc := "Holds the pad securely without bulky outlines." |};
  {| Feature.title := "Controlled Cooling";
     Feature.desc := "Feel the difference for at least 20 minutes." |};
  {| Feature.title := "Bamboo Lyocell";
     Feature.desc := "Soft, breathable, and smooth on skin." |}
].

(** [idx * 0.1]. *)
Definition feature_delay (idx : nat) : Q := (inject_Z (Z.of_nat idx) * 0.1)%Q.

Definition feature_card (idx : nat) (feature : Feature) : node handler :=
  Elem "motion.div" (Some (KIdx idx))
    [pobj "initial" [("opacity", JNum 0); ("y", JNum 30)];
     pobj "whileInView" [("opacity", JNum 1); ("y", JNum 0)];
     pobj "viewport" [("once", JBool true)];
     pobj "transition" [("delay", JNum (feature_delay idx))];
     pobj "whileHover" [("y", JNum (-10)); ("transition", JObj [("duration", JNum 0.2)])];
     cls "bg-onyx border border-white/5 p-10 rounded-2xl hover:border-ice-500/30 transition-all shadow-lg hover:shadow-ice-500/5 group"]
    [el "div" "mb-6 w-12 h-12 bg-neutral-800 rounded-lg flex items-center justify-center group-hover:bg-ice-500 transition-colors"
       [el "Check" "w-6 h-6 text-white" []];
     el "h3" "text-2xl font-bold text-white mb-4" [Text (Feature.title feature)];
     el "p" "text-gray-400 leading-relaxed" [Text (Feature.desc feature)]].

Definition features : node handler :=
  el "section" "py-32 relative overflow-hidden"
    [el "div" "absolute inset-0 bg-neutral-900 -skew-y-2 transform origin-top-left -z-10 scale-110" [];
     el "div" "max-w-7xl mx-auto px-6"
       [el "div" "text-center mb-20 max-w-3xl mx-auto"
          [el "h2" "text-4xl md:text-5xl font-bold mb-8"
             [Text "Cooling built into premium underwear."];
           el "p" "text-gray-400 text-lg"
             [Text "ColdBoxers is a boxer brief with a discreet front pocket designed for a reusable liquid cooling pad. Insert the pad when you want cooling. Remove it when you do not."]];
        el "div" "grid md:grid-cols-3 gap-8" [Arr (imap feature_card feature_list)];
        el "div" "mt-16 text-center text-xs text-gray-600 font-mono uppercase tracking-widest"
          [Text "Fabric and dyes: OEKO TEX certified • PFAS tested • skin safe dyes"]]].

(** ** Gallery *)

Definition gallery : node handler :=
  el "section" "py-24 bg-black overflow-hidden border-y border-white/5"
    [el "div" "text-center mb-12"
       [el "h2" "text-sm font-bold uppercase tracking-[0.2em] text-ice-500 mb-2"
          [Text "In Action"];
        el "p" "text-white text-2xl font-bold" [Text "The Routine in Motion"]];
     Marquee galleryImages None].

(** ** How it works *)

Module Step.
Record Step : Type := { step : string; title : string; desc : string }.
End Step.
Abbreviation Step := Step.Step.

Definition steps : list Step := [
  {| Step.step := "01"; Step.title := "Chill";
     Step.desc := "Place the cooling pad in your freezer for 60 minutes." |};
  {| Step.step := "02"; Step.title := "Insert";
     Step.desc := "Slide it into the front pocket. The pocket creates a comfortable barrier so it cools without harsh shock." |};
  {| Step.step := "03"; Step.title := "Go";
     Step.desc := "Enjoy a cooling session for 20 minutes or more. Swap to a fresh pad when the first one warms up." |}
].

(** [idx * 0.2]. *)
Definition step_delay (idx : nat) : Q := (inject_Z (Z.of_nat idx) * 0.2)%Q.

Definition step_card (idx : nat) (item : Step) : node handler :=
  Elem "motion.div" (Some (KIdx idx))
    [pobj "initial" [("opacity", JNum 0); ("y", JNum 30)];
     pobj "whileInView" [("opacity", JNum 1); ("y", JNum 0)];
     pobj "transition" [("delay", JNum (step_delay idx))];
     pobj "viewport" [("once", JBool true)];
     cls "relative z-10 bg-black p-4 group"]
    [el "div" "w-24 h-24 bg-neutral-900 rounded-full flex items-center justify-center border border-white/10 mb-8 mx-auto text-3xl font-bold text-ice-500 shadow-[0_0_0_1px_rgba(255,255,255,0.05)] group-hover:shadow-[0_0_30px_rgba(14,165,233,0.2)] transition-shadow duration-500"
       [Text (Step.step item)];
     el "h3" "text-2xl font-bold text-center mb-4 text-white group-hover:text-ice-400 transition-colors"
       [Text (Step.title item)];
     el "p" "text-gray-400 text-center leading-relaxed" [Text (Step.desc item)]].

Definition tips : list string := [
  "Pre chill your pads before you leave";
  "Use one pad after the hot room, or between rounds";
  "Swap pads every 20 minutes for longer sessions"
].

Definition tip_item (i : nat) (tip : string) : node handler :=
  Elem "li" (Some (KIdx i))
    [cls "flex items-center gap-4 p-3 bg-white/5 rounded-lg border border-white/5"]
    [el "Check" "w-5 h-5 text-ice-500 shrink-0" []; Text tip].

Definition routine : node handler :=
  Elem "motion.div" None
    [pobj "initial" [("opacity", JNum 0); ("scale", JNum 0.95)];
     pobj "whileInView" [("opacity", JNum 1); ("scale", JNum 1)];
     pobj "viewport" [("once", JBool true)];
     cls "mt-24 bg-neutral-900/50 p-10 rounded-2xl border border-white/5 max-w-3xl mx-auto backdrop-blur-sm"]
    [el "h4" "text-xl font-bold text-white mb-6 flex items-center gap-3"
       [el "span" "w-2 h-8 bg-ice-500 rounded-full" [];
        Text "Sauna Routine ";
        el "span" "text-gray-500 font-normal" [Text "Recommended"]];
     el "ul" "space-y-4 text-gray-300" [Arr (imap tip_item tips)]].

Definition how_it_works : node handler :=
  Elem "section" None [pstr "id" "how-it-works"; cls "py-32 bg-black"]
    [el "div" "max-w-7xl mx-auto px-6"
       [el "h2" "text-5xl md:text-7xl font-bold text-center mb-24 text-transparent bg-clip-text bg-gradient-to-b from-white to-gray-800"
          [Text "Chill. Insert. Go."];
        el "div" "grid md:grid-cols-3 gap-12 relative"
          [el "div" "hidden md:block absolute top-12 left-0 w-full h-px bg-gradient-to-r from-transparent via-ice-900 to-transparent" [];
           Arr (imap step_card steps)];
        routine]].

(** ** Reviews *)

Definition star (i : nat) (_ : unit) : node handler :=
  Elem "span" (Some (KIdx i)) [cls "text-lg"] [Text "★"].

Definition review_card (i : nat) (review : Review) : node handler :=
  Elem "motion.div" (Some (KIdx i))
    [pobj "whileHover" [("scale", JNum 1.02)];
     cls "bg-neutral-900/30 p-10 rounded-2xl border border-white/5 relative group"]
    [el "div" "text-neutral-800 group-hover:text-ice-500/20 transition-colors text-8xl font-serif absolute -top-8 left-6 leading-none select-none"
       [Text (str1 dquote)];
     el "div" "flex justify-center text-ice-500 mb-6 relative z-10"
       [Arr (imap star (replicate 5 ()))];
     el "p" "text-lg text-gray-300 italic mb-8 relative z-10 leading-relaxed"
       [Text (Review.text review)];
     el "div" "text-xs font-bold uppercase tracking-widest text-gray-500"
       [Text (Review.author review)]].

Definition social_proof : node handler :=
  el "section" "py-32 bg-gradient-to-b from-onyx to-black"
    [el "div" "max-w-7xl mx-auto px-6 text-center"
       [el "h2" "text-3xl md:text-5xl font-bold mb-20"
          [Text "Loved for the routine. "; Elem "br" None [] [];
           Text "Kept for the comfort."];
        el "div" "grid md:grid-cols-3 gap-8" [Arr (imap review_card reviews)];
        el "p" "mt-12 text-sm text-gray-500 flex items-center justify-center gap-2"
          [el "span" "w-2 h-2 rounded-full bg-green-500" [];
           Text "Rated 4.8/5 by 500+ customers."]]].

(** ** Guarantee *)

Definition promise (title body : string) : node handler :=
  el "div" "p-8 bg-gray-50 rounded-2xl"
    [el "h3" "text-xl font-bold mb-3" [Text title];
     el "p" "text-gray-600" [Text body]].

Definition guarantee : node handler :=
  el "section" "py-32 bg-white text-black"
    [el "div" "max-w-5xl mx-auto px-6"
       [el "div" "grid md:grid-cols-2 gap-16 items-center"
          [Elem "div" None []
             [el "h2" "text-5xl font-bold mb-8 leading-tight"
                [Text "Try it. "; Elem "br" None [] [];
                 Text "Keep it if you love it."];
              Button None None (Some "!bg-black !text-white hover:!bg-gray-800")
                [("onClick", POn (scrollTo "bundles"))]
                [Text "Shop Risk Free"]];
           el "div" "grid gap-8"
             [promise "30 day comfort guarantee."
                "If the fit or feel is not right, return it within 30 days. Simple process. No awkward questions.";
              promise "Free shipping, always."
                "Delivered in discreet packaging to your door."]]]].

(** ** Footer *)

Definition footer_link (label : string) : node handler :=
  Elem "a" None [pstr "href" "#"; cls "hover:text-white transition-colors"]
    [Text label].

(** [env] gives the year of [new Date().getFullYear()]. *)
Definition footer (env : Env) : node handler :=
  el "footer" "bg-black py-20 border-t border-white/5"
    [el "div" "max-w-7xl mx-auto px-6"
       [el "div" "flex flex-col md:flex-row justify-between items-center gap-8 mb-16"
          [el "div" "text-center md:text-left"
             [el "h2" "text-3xl font-bold mb-2" [Text "Make sauna days fertility smart."];
              el "p" "text-gray-400" [Text "Premium cooling boxer briefs. Smarter habit."]];
           Button None None None [("onClick", POn (scrollTo "bundles"))]
             [Text "Shop Bundles"]];
        el "div" "border-t border-white/10 pt-10 text-xs text-gray-600 space-y-6 text-center md:text-left"
          [el "p" "max-w-4xl"
             [Text "ColdBoxers is intended for comfort and personal heat management. It is not intended to diagnose, treat, cure, or prevent any disease. Individual results vary. Consult a healthcare professional for personal medical advice."];
           el "div" "flex flex-col md:flex-row justify-between items-center"
             [Elem "p" None []
                [Text "© "; Num (inject_Z (year env));
                 Text " ColdBoxers. All rights reserved."];
              el "div" "flex gap-6 mt-6 md:mt-0"
                [footer_link "Privacy Policy";
                 footer_link "Terms of Service";
                 footer_link "Shipping & Returns"]]]]].

(** ** Facts: the motion values of the hero *)

#[local] Open Scope Q_scope.

(** The copy of the hero fades from opaque at the top to invisible at 300
    and stays invisible below. *)
Lemma heroOpacity_bounds (y : Q) : 0 <= heroOpacity y <= 1.
Proof. apply transform_bounds_desc; lra. Qed.

Lemma heroOpacity_top (y : Q) : y <= 0 -> heroOpacity y == 1.
Proof. apply transform_below. lra. Qed.

(** Claim C37. From an offset of 300 on the copy of the hero is invisible. *)
Lemma heroOpacity_gone (y : Q) : 300 <= y -> heroOpacity y == 0.
Proof. apply transform_above. lra. Qed.

Lemma heroOpacity_gone_witness : heroOpacity 450 == 0.
Proof. apply heroOpacity_gone. done. Defined.

Lemma heroOpacity_linear (y : Q) : 0 <= y <= 300 -> heroOpacity y == 1 - y / 300.
Proof. intros Hy. unfold heroOpacity. rewrite transform_inside by lra. field. Qed.

Lemma heroOpacity_anti (y y' : Q) : y <= y' -> heroOpacity y' <= heroOpacity y.
Proof. apply transform_anti; lra. Qed.

(** The image of the hero is shifted down by 200 at most, and
    never up. *)
Lemma heroY_bounds (y : Q) : 0 <= heroY y <= 200.
Proof. apply transform_bounds; lra. Qed.

Lemma heroY_linear (y : Q) : 0 <= y <= 500 -> heroY y == y * (2 # 5).
Proof. intros Hy. unfold heroY. rewrite transform_inside by lra. field. Qed.

Lemma heroY_mono (y y' : Q) : y <= y' -> heroY y <= heroY y'.
Proof. apply transform_mono; lra. Qed.

#[local] Close Scope Q_scope.

(** ** Facts: the sections *)

(** The three buttons of the hero: to the bundles, to the instructions, and
    one screen down. *)
Lemma clicks_hero env :
  clicks (hero env) =
  [scrollTo "bundles"; scrollTo "how-it-works"; [ScrollToInnerHeight]].
Proof. by_compute. Qed.

(** The image of the hero has no handler for a failed load. *)
Lemma hero_image_no_fallback env :
  on_event "onError" <$> select (is_tag "img") (hero env) = [None].
Proof. by_compute. Qed.

(** Every review is shown with its text, its author and five stars. *)
Lemma review_card_texts i review :
  texts (review_card i review) =
  [str1 dquote; "★"; "★"; "★"; "★"; "★"; Review.text review; Review.author review].
Proof. reflexivity. Qed.

Lemma social_proof_stars :
  count (String.eqb "★") (texts social_proof) = (5 * length reviews)%nat.
Proof. by_compute. Qed.

(** The one number on the page is the year in the footer. *)
Lemma footer_year env :
  select (fun n => if n is Num _ then true else false) (footer env) =
  [Num (inject_Z (year env))].
Proof. by_compute. Qed.

End Sections.
