(* ===== verification/Page.v ===== *)
(** * Page: the whole page and its life cycle (src/App.tsx, src/components/Navbar.tsx)

    [render] is the element tree [App] returns: the navigation bar and the
    eleven sections, in the order of the source.  The facts about the tree
    hold in every state in which it renders: the anchors of the page
    ([ids]), that every link and every scrolling button points at one of
    them, that every array is keyed, and that every animation that starts
    when its element comes into view plays once.

    The second part is the life cycle of the page as a transition system:
    mounting registers the scroll listener of the bar, unmounting removes
    it, a scroll event runs the registered listeners, the observer of a
    heading reports whether it is in view, a click runs the handler of a
    node of the rendered tree.  The invariant of the system gives the
    facts that hold in every reachable state; the last part follows the
    scenario of the specification from any reachable state, with every
    click on an element that is on the page at that moment. *)

From Stdlib Require Import Ascii String.
From S2P Require Import Prelude JsString Motion Hooks Vdom Types Dom Button ModelViewer.
From S2P Require Import Navbar.
From S2P Require Import Catalog Primitives App Sections.

#[local] Open Scope string_scope.

Module Page.

(** ** The tree *)

(** The sections of the page that read neither state. *)
Definition static_sections (env : Sections.Env) : list (node handler) :=
  [Sections.hero env; Sections.problem; Sections.outcome env; Sections.features;
   Sections.gallery; Sections.how_it_works; Sections.social_proof;
   Sections.guarantee; Sections.footer env].

(** The root element around the bar [nav], the bundles section [shop], the
    FAQ section [faq] and the static sections. *)
Definition layout (env : Sections.Env) (nav shop faq : node handler) : node handler :=
  el "div"
    "min-h-screen bg-onyx text-gray-200 selection:bg-ice-500 selection:text-white overflow-x-hidden font-sans"
    [nav; Sections.hero env; Sections.problem; Sections.outcome env;
     Sections.features; Sections.gallery; Sections.how_it_works; shop;
     Sections.social_proof; Sections.guarantee; faq; Sections.footer env].

(** What [App] returns; [None] when rendering throws. *)
Definition render (env : Sections.Env) (nav : Navbar.State) (s : App.State) :
    option (node handler) :=
  shop ← App.bundles_section s;
  Some (layout env (Navbar.render nav) shop (App.faq_section s)).

(** ** Tests on the nodes of the page *)

(** The identifier an effect scrolls to. *)
Definition scroll_target (e : effect) : option string :=
  match e with ScrollIntoView id => Some id | _ => None end.

(** Every element a handler scrolls to is one of [l]. *)
Definition targets_in (l : list string) (h : handler) : bool :=
  forallb (fun id => bool_decide (id ∈ l)) (omap scroll_target h).

(** The link of a node, when it has one, is [#] or points at one of [l]. *)
Definition href_in (l : list string) (n : node handler) : bool :=
  match str_prop "href" n with
  | Some href =>
      (href =? "#") ||
      from_option (fun id => bool_decide (id ∈ l)) false (Navbar.anchor_of href)
  | None => true
  end.

(** An animation that starts when the node comes into view is played once:
    [whileInView] comes with a [viewport] whose [once] is [true]. *)
Definition plays_once (n : node handler) : bool :=
  match val_prop "whileInView" n with
  | Some _ =>
      bool_decide (val_prop "viewport" n ≫= obj_get "once" = Some (JBool true))
  | None => true
  end.

(** The anchors of the page. *)
Definition anchors : list string := ["how-it-works"; "bundles"; "faq"].

(** ** Facts: the tree, section by section *)

Lemma render_Some env nav s page :
  render env nav s = Some page <->
  exists shop, App.bundles_section s = Some shop /\
    page = layout env (Navbar.render nav) shop (App.faq_section s).
Proof.
  unfold render. destruct (App.bundles_section s) as [shop|]; simpl.
  - split; [intros [= <-]; eauto|intros (? & [= <-] & ->); done].
  - split; [done|intros (? & [=] & _)].
Qed.

(** The page renders exactly when a colour is selected. *)
Lemma render_defined env nav s :
  is_Some (render env nav s) <-> is_Some (App.selectedColor s).
Proof.
  rewrite <- App.configurator_defined. unfold render, App.bundles_section.
  destruct (App.configurator s); simpl; split; intros [? ?]; eauto; done.
Qed.

Section all_nodes.
Context (p : node handler -> bool) (env : Sections.Env).
Context (Hroot : forall nav shop faq, p (layout env nav shop faq) = true).
Context (Hstatic : forallb (all_nodes p) (static_sections env) = true).
Context (Hnav : forallb (all_nodes p) Navbar.views = true).
Context (Hshop : forallb (all_nodes p) App.shop_views = true).
Context (Hfaq : forallb (all_nodes p) App.faq_views = true).

(** A test that passes on the root, on the static sections and on every
    view of the bar, of the bundles section and of the FAQ section passes
    on every node of the page. *)
Lemma all_nodes_render nav s page :
  render env nav s = Some page -> all_nodes p page = true.
Proof using All.
  intros (shop & Hs & ->)%render_Some.
  pose proof (Navbar.render_cases _ nav Hnav) as H1.
  pose proof (App.bundles_section_cases _ s shop Hshop Hs) as H2.
  pose proof (App.faq_section_cases _ s Hfaq) as H3.
  etrans; [apply all_nodes_Elem|].
  apply andb_true_intro; split; [apply Hroot|].
  cbn [forallb static_sections] in *. propify.
  repeat match goal with H : _ = true |- _ => rewrite H; clear H end. done.
Qed.

End all_nodes.

(** The identifiers of the page are those of its parts, in document order. *)
Lemma ids_layout env nav shop faq :
  ids (layout env nav shop faq) =
  (ids nav ++ flat_map ids (take 6 (static_sections env)) ++ ids shop ++
   flat_map ids (take 2 (drop 6 (static_sections env))) ++ ids faq ++
   ids (Sections.footer env))%list.
Proof.
  etrans; [apply attrs_Elem|]. cbn [flat_map static_sections take drop].
  change (attrs "id") with (ids (H:=handler)).
  by rewrite !app_nil_l, !app_nil_r, <- ?app_assoc.
Qed.

Definition ids_are (l : list string) (n : node handler) : bool :=
  bool_decide (ids n = l).

Lemma ids_are_elim l n : ids_are l n = true -> ids n = l.
Proof. apply bool_decide_eq_true_1. Qed.

Lemma ids_nav nav : ids (Navbar.render nav) = [].
Proof. apply ids_are_elim, Navbar.render_cases. by_compute. Qed.

Lemma ids_faq s : ids (App.faq_section s) = ["faq"].
Proof.
  apply ids_are_elim, App.faq_section_cases. by_compute.
Qed.

Lemma ids_shop s shop : App.bundles_section s = Some shop -> ids shop = ["bundles"].
Proof.
  intros Hs. apply ids_are_elim.
  apply (App.bundles_section_cases _ s); [by_compute|done].
Qed.

Lemma targets_in_elim l h id :
  targets_in l h = true -> ScrollIntoView id ∈ h -> id ∈ l.
Proof.
  intros Hh Hid. apply (forallb_elem_of _ _ id) in Hh.
  - by apply bool_decide_eq_true_1 in Hh.
  - apply list_elem_of_omap. by exists (ScrollIntoView id).
Qed.

Lemma href_in_elim l n href :
  href_in l n = true -> str_prop "href" n = Some href ->
  href = "#" \/ exists id, href = String "#" id /\ id ∈ l.
Proof.
  unfold href_in. intros Hn Hh. rewrite Hh in Hn.
  apply orb_true_iff in Hn as [Hn|Hn].
  - left. by apply String.eqb_eq.
  - right. destruct href as [|a id]; [done|]. unfold Navbar.anchor_of in Hn.
    destruct (decide (a = "#"%char)) as [->|Ha].
    + exists id. split; [done|]. by apply bool_decide_eq_true_1 in Hn.
    + exfalso. revert Hn Ha. clear.
      destruct a as [[] [] [] [] [] [] [] []]; simpl; congruence.
Qed.

(** ** Facts: the page *)

Lemma ids_page env nav s page :
  render env nav s = Some page -> ids page = anchors.
Proof.
  intros (shop & Hs & ->)%render_Some. rewrite ids_layout.
  rewrite ids_nav, ids_faq, (ids_shop s shop Hs). by_compute.
Qed.

(** A state in which the page renders, for the examples: the page as it
    loads, at the top. *)
Definition layout0 : Layout := {| viewport := 800; top := 2000; height := 600 |}.

Definition env0 : Sections.Env := {|
  Sections.scrollY := 0; Sections.outcomeImage := layout0;
  Sections.heading := unseen; Sections.subheading := unseen;
  Sections.year := 2025
|}.

Definition page0 : node handler :=
  default Hole (render env0 Navbar.init App.init).

Lemma render_page0 : render env0 Navbar.init App.init = Some page0.
Proof. reflexivity. Qed.

(** The button [Shop Bundles] of the bar. *)
Definition shop_button : node handler :=
  Button (Some primary) None (Some "!px-6 !py-2 !text-xs")
    [("onClick", POn [Navbar.scrollToBundles])] [Text "Shop Bundles"].

(** Claim C17. Whenever the page renders, its elements with an identifier
    are, in document order, the sections [how-it-works], [bundles] and
    [faq], and no identifier occurs twice, whatever the state. *)
Theorem page_anchors env nav s page :
  render env nav s = Some page ->
  ids page = ["how-it-works"; "bundles"; "faq"] /\ NoDup (ids page).
Proof.
  intros Hr. rewrite (ids_page _ _ _ _ Hr). split; [done|by_decide].
Qed.

Lemma page_anchors_witness :
  ids page0 = ["how-it-works"; "bundles"; "faq"] /\ NoDup (ids page0).
Proof. exact (page_anchors env0 Navbar.init App.init page0 render_page0). Defined.

(** Claim C10. Every button of the page that scrolls to an element names an
    element the page has: the target of [getElementById] is never missing,
    in any state of the bar and of the page. *)
Theorem scroll_targets_exist env nav s page m h id :
  render env nav s = Some page ->
  m ∈ descendants page -> onClick m = Some h -> ScrollIntoView id ∈ h ->
  id ∈ ids page.
Proof.
  intros Hr Hm Hh Hid. rewrite (ids_page _ _ _ _ Hr).
  apply targets_in_elim with h; [|done].
  pose proof (all_nodes_render
    (fun m => from_option (targets_in anchors) true (onClick m)) env) as Hall.
  eapply all_nodes_elim in Hall; [by rewrite Hh in Hall|..|done]; try done;
    intros; by_compute.
Qed.

Lemma scroll_targets_exist_witness : "bundles" ∈ ids page0.
Proof.
  apply (scroll_targets_exist env0 Navbar.init App.init page0
           shop_button [Navbar.scrollToBundles] "bundles" render_page0).
  - by_decide.
  - reflexivity.
  - by_decide.
Defined.

(** Claim C16. Every link of the page is the placeholder [#] or points at
    an element the page has. *)
Theorem links_resolve env nav s page m href :
  render env nav s = Some page ->
  m ∈ descendants page -> str_prop "href" m = Some href ->
  href = "#" \/ exists id, href = String "#" id /\ id ∈ ids page.
Proof.
  intros Hr Hm Hh. rewrite (ids_page _ _ _ _ Hr).
  apply href_in_elim with m; [|done].
  pose proof (all_nodes_render (href_in anchors) env) as Hall.
  eapply all_nodes_elim in Hall; [done|..|done]; try done; intros; by_compute.
Qed.

Lemma links_resolve_witness :
  "#faq" = "#" \/ exists id, "#faq" = String "#" id /\ id ∈ ids page0.
Proof.
  apply (links_resolve env0 Navbar.init App.init page0
           (Navbar.desktop_link {| Navbar.Link.name := "FAQ"; Navbar.Link.href := "#faq" |})
           "#faq" render_page0).
  - by_decide.
  - reflexivity.
Defined.

(** Claim C21. Every animation of the page that starts when its element
    comes into view is declared to play once. *)
Theorem page_plays_once env nav s page m :
  render env nav s = Some page ->
  m ∈ descendants page -> is_Some (val_prop "whileInView" m) ->
  val_prop "viewport" m ≫= obj_get "once" = Some (JBool true).
Proof.
  intros Hr Hm [v Hv].
  pose proof (all_nodes_render plays_once env) as Hall.
  eapply all_nodes_elim in Hall; [|try done; intros; by_compute..|done].
  unfold plays_once in Hall. rewrite Hv in Hall. by apply bool_decide_eq_true_1 in Hall.
Qed.

Lemma page_plays_once_witness :
  val_prop "viewport" Sections.routine ≫= obj_get "once" = Some (JBool true).
Proof.
  apply (page_plays_once env0 Navbar.init App.init page0 Sections.routine render_page0).
  - by_decide.
  - by eexists.
Defined.

(** Claim C24. The one element of the page that handles a failed load is
    the image of the outcome section: no other image has a fallback. *)
Theorem onError_only_outcome env nav s page m :
  render env nav s = Some page ->
  m ∈ descendants page -> is_Some (on_event "onError" m) ->
  str_prop "src" m = Some "images/2 medium.png".
Proof.
  intros Hr Hm [h Hh].
  pose proof (all_nodes_render
    (fun m => match on_event "onError" m with
              | Some _ => bool_decide (str_prop "src" m = Some "images/2 medium.png")
              | None => true
              end) env) as Hall.
  eapply all_nodes_elim in Hall; [|try done; intros; by_compute..|done].
  rewrite Hh in Hall. by apply bool_decide_eq_true_1 in Hall.
Qed.

(** Claim C38. The page does not embed the 3D viewer: no element of the
    rendered page is a frame, and nothing of it loads the viewer's address,
    in any state. *)
Theorem page_has_no_viewer env nav s page m :
  render env nav s = Some page -> m ∈ descendants page ->
  is_tag "iframe" m = false /\ str_prop "src" m <> Some viewer_src.
Proof.
  intros Hr Hm.
  pose proof (all_nodes_render
    (fun m => negb (is_tag "iframe" m) &&
              negb (bool_decide (str_prop "src" m = Some viewer_src))) env) as Hall.
  eapply all_nodes_elim in Hall; [|try done; intros; by_compute..|done].
  apply andb_true_iff in Hall as [H1 H2]. propify. by split.
Qed.

Lemma page_has_no_viewer_witness :
  is_tag "iframe" page0 = false /\ str_prop "src" page0 <> Some viewer_src.
Proof.
  apply (page_has_no_viewer env0 Navbar.init App.init page0 page0 render_page0).
  apply descendants_self.
Defined.

(** No element with a click handler lies inside another one: a click runs
    one handler, which is why an event of the life cycle below names the
    element whose handler runs. *)
Definition handles_alone (n : node handler) : bool :=
  match onClick n with
  | Some _ =>
      forallb (fun c => bool_decide (onClick c = None))
        (flat_map descendants (children_of n))
  | None => true
  end.

Lemma clicks_not_nested env nav s page m c :
  render env nav s = Some page -> m ∈ descendants page ->
  is_Some (onClick m) -> c ∈ flat_map descendants (children_of m) ->
  onClick c = None.
Proof.
  intros Hr Hm [h Hh] Hc.
  pose proof (all_nodes_render handles_alone env) as Hall.
  eapply all_nodes_elim in Hall; [|try done; intros; by_compute..|done].
  unfold handles_alone in Hall. rewrite Hh in Hall.
  by apply (forallb_elem_of _ _ c), bool_decide_eq_true_1 in Hall.
Qed.

(** The image of the outcome section as the page loads. *)
Definition outcome_image : node handler :=
  default Hole
    (children_of (ParallaxImage layout0 0 "images/2 medium.png" "Lifestyle Sauna"
                    (Some 80%Q))
       !! 0%nat).

Lemma onError_only_outcome_witness :
  str_prop "src" outcome_image = Some "images/2 medium.png".
Proof.
  apply (onError_only_outcome env0 Navbar.init App.init page0 outcome_image
           render_page0).
  - by_decide.
  - by eexists.
Defined.

(** Claim C23. Every array of the page is keyed, with pairwise distinct
    keys: no list of the page is rendered without a stable identity. *)
Theorem page_keyed env nav s page :
  render env nav s = Some page -> keyed page = true.
Proof.
  intros (shop & Hs & ->)%render_Some. unfold layout, el. cbn [keyed forallb].
  rewrite (Navbar.render_cases keyed nav), (App.faq_section_cases keyed s),
    (App.bundles_section_cases keyed s shop) by (done || by_compute).
  by_compute.
Qed.

Lemma page_keyed_witness : keyed page0 = true.
Proof. exact (page_keyed env0 Navbar.init App.init page0 render_page0). Defined.

(** ** The life cycle of the page *)

(** A mounted instance of the page: the state cells of [App] and of
    [Navbar], the identity of the [handleScroll] closure its effect
    registered, and what the observers of the two outcome headings know. *)
Record Mounted : Type := {
  app : App.State;
  nav : Navbar.State;
  listener : nat;
  heading : Visibility;
  subheading : Visibility
}.

(** The browser window with the page in it.  [outcomeImage] is where the
    image of the outcome section lies in the document, [fresh] the identity
    of the next closure, and [stale] counts the state updates that reached
    an instance that is gone. *)
Record State : Type := {
  window : Window;
  outcomeImage : Layout;
  year : Z;
  mounted : option Mounted;
  fresh : nat;
  stale : nat
}.

Definition with_window (w : Window) (s : State) : State :=
  {| window := w; outcomeImage := outcomeImage s; year := year s;
     mounted := mounted s; fresh := fresh s; stale := stale s |}.

Definition with_mounted (o : option Mounted) (s : State) : State :=
  {| window := window s; outcomeImage := outcomeImage s; year := year s;
     mounted := o; fresh := fresh s; stale := stale s |}.

Definition with_nav (n : Navbar.State) (m : Mounted) : Mounted :=
  {| app := app m; nav := n; listener := listener m;
     heading := heading m; subheading := subheading m |}.

(** The window as it is when the document loads at offset [y], in year
    [yr], with the outcome image laid out at [l]. *)
Definition init (y : Q) (yr : Z) (l : Layout) : State := {|
  window := {| Window.scrollY := y; Window.registered := [] |};
  outcomeImage := l; year := yr; mounted := None; fresh := 0; stale := 0
|}.

(** What [App] reads from its surroundings in a state. *)
Definition env_of (s : State) (m : Mounted) : Sections.Env := {|
  Sections.scrollY := Window.scrollY (window s);
  Sections.outcomeImage := outcomeImage s;
  Sections.heading := heading m;
  Sections.subheading := subheading m;
  Sections.year := year s
|}.

(** The tree on the screen. *)
Definition view (s : State) : option (node handler) :=
  m ← mounted s; render (env_of s m) (nav m) (app m).

(** Mounting: the state cells take their initial values and the effect of
    [Navbar] registers a new [handleScroll]. *)
Definition mount (s : State) : State := {|
  window := Navbar.subscribe (fresh s) (window s);
  outcomeImage := outcomeImage s; year := year s;
  mounted := Some {| app := App.init; nav := Navbar.init; listener := fresh s;
                     heading := unseen; subheading := unseen |};
  fresh := S (fresh s); stale := stale s
|}.

(** Unmounting: the cleanup of the effect removes the listener. *)
Definition unmount (m : Mounted) (s : State) : State :=
  with_mounted None (with_window (Navbar.unsubscribe (listener m) (window s)) s).

(** The browser calls one registered scroll listener: the closure of the
    mounted instance updates its bar, any other closure belongs to an
    instance that is gone. *)
Definition deliver (s : State) (h : nat) : State :=
  match mounted s with
  | Some m =>
      if bool_decide (listener m = h)
      then with_mounted
             (Some (with_nav (Navbar.run_handler (Navbar.handleScroll (window s)) (nav m)) m)) s
      else {| window := window s; outcomeImage := outcomeImage s; year := year s;
              mounted := mounted s; fresh := fresh s; stale := S (stale s) |}
  | None => {| window := window s; outcomeImage := outcomeImage s; year := year s;
               mounted := None; fresh := fresh s; stale := S (stale s) |}
  end.

(** The window scrolled to [y]; then the scroll event is dispatched to the
    registered listeners, in order. *)
Definition scroll (y : Q) (s : State) : State :=
  let s1 := with_window (scroll_to y (window s)) s in
  fold_left deliver (listeners "scroll" (window s1)) s1.

(** The elements the page observes. *)
Inductive target : Type := Heading | Subheading.

(** The observer of a heading reports whether it is in view. *)
Definition intersect (t : target) (now : bool) (m : Mounted) : Mounted :=
  match t with
  | Heading =>
      {| app := app m; nav := nav m; listener := listener m;
         heading := observed now (heading m); subheading := subheading m |}
  | Subheading =>
      {| app := app m; nav := nav m; listener := listener m;
         heading := heading m; subheading := observed now (subheading m) |}
  end.

(** A click handler runs: each setter writes its own cell. *)
Definition click (h : handler) (m : Mounted) : Mounted :=
  {| app := App.run_handler h (app m); nav := Navbar.run_handler h (nav m);
     listener := listener m;
     heading := heading m; subheading := subheading m |}.

(** What happens to a page. *)
Inductive event : Type :=
  | Mount
  | Unmount
  | Scroll (y : Q)
  | Intersect (t : target) (visible : bool)
  | Click (n : node handler).

(** One event, as a function: [None] when the event cannot happen in the
    state (mounting twice, clicking a node that is not on the screen). *)
Definition exec (e : event) (s : State) : option State :=
  match e with
  | Mount => match mounted s with Some _ => None | None => Some (mount s) end
  | Unmount => m ← mounted s; Some (unmount m s)
  | Scroll y => Some (scroll y s)
  | Intersect t visible =>
      m ← mounted s; Some (with_mounted (Some (intersect t visible m)) s)
  | Click n =>
      m ← mounted s; page ← view s;
      if bool_decide (n ∈ descendants page)
      then h ← onClick n; Some (with_mounted (Some (click h m)) s)
      else None
  end.

(** The same as a relation. *)
Inductive step : State -> event -> State -> Prop :=
  | step_mount s :
      mounted s = None -> step s Mount (mount s)
  | step_unmount s m :
      mounted s = Some m -> step s Unmount (unmount m s)
  | step_scroll s y :
      step s (Scroll y) (scroll y s)
  | step_intersect s m t visible :
      mounted s = Some m ->
      step s (Intersect t visible) (with_mounted (Some (intersect t visible m)) s)
  | step_click s m page n h :
      mounted s = Some m -> view s = Some page ->
      n ∈ descendants page -> onClick n = Some h ->
      step s (Click n) (with_mounted (Some (click h m)) s).

(** The states a page can be in. *)
Inductive reachable : State -> Prop :=
  | reachable_init y yr l : reachable (init y yr l)
  | reachable_step s e s' : reachable s -> step s e s' -> reachable s'.

(** A sequence of events, from left to right. *)
Definition run (es : list event) (s : State) : option State :=
  foldl (fun o e => o ≫= exec e) (Some s) es.

(** ** Well-formed selections *)

(** The effect writes a colour of [COLORS], a size of [SIZES] or the index
    of a question into the state, or does not write these cells. *)
Definition effect_ok (e : effect) : bool :=
  match e with
  | SetSelectedColor c => bool_decide (c ∈ COLORS)
  | SetSelectedSize z => bool_decide (z ∈ SIZES)
  | SetActiveFaq (Some i) => bool_decide (i < length faqs)%nat
  | _ => true
  end.

(** The selections of the state are entries of the catalogue. *)
Definition app_ok (a : App.State) : bool :=
  bool_decide (App.selectedColor a ∈ Some <$> COLORS) &&
  bool_decide (App.selectedSize a ∈ Some <$> SIZES) &&
  from_option (fun i => bool_decide (i < length faqs)%nat) true (App.activeFaq a).

Lemma app_ok_spec a :
  app_ok a = true <->
  (exists c, App.selectedColor a = Some c /\ c ∈ COLORS) /\
  (exists z, App.selectedSize a = Some z /\ z ∈ SIZES) /\
  (forall i, App.activeFaq a = Some i -> (i < length faqs)%nat).
Proof.
  unfold app_ok. rewrite !andb_true_iff, !bool_decide_eq_true, !list_elem_of_fmap.
  enough (from_option (fun i => bool_decide (i < length faqs)%nat) true (App.activeFaq a)
          = true <-> forall i, App.activeFaq a = Some i -> (i < length faqs)%nat)
    as -> by tauto.
  destruct (App.activeFaq a) as [i|]; simpl; [rewrite bool_decide_eq_true|];
    split; try done; [by intros ? ? [= <-]|auto].
Qed.

Lemma init_ok : app_ok App.init = true.
Proof. by_compute. Qed.

Lemma run_ok e a : effect_ok e = true -> app_ok a = true -> app_ok (App.run e a) = true.
Proof.
  rewrite !app_ok_spec. intros He (Hc & Hz & Hf).
  destruct e as [| |c|z|[i|]| | |]; cbn [effect_ok] in He; propify;
    (split_and!; [try done..|]); simpl; eauto; by intros ? [= <-].
Qed.

Lemma run_handler_ok h a :
  forallb effect_ok h = true -> app_ok a = true -> app_ok (App.run_handler h a) = true.
Proof.
  unfold App.run_handler. revert a.
  induction h as [|e h IH]; intros a Hh Ha; [done|].
  cbn [forallb fold_left] in *. propify. by apply IH, run_ok.
Qed.

(** Every click handler of the page writes entries of the catalogue. *)
Lemma clicks_ok env nav s page m h :
  render env nav s = Some page ->
  m ∈ descendants page -> onClick m = Some h -> forallb effect_ok h = true.
Proof.
  intros Hr Hm Hh.
  pose proof (all_nodes_render
    (fun m => from_option (forallb effect_ok) true (onClick m)) env) as Hall.
  eapply all_nodes_elim in Hall; [by rewrite Hh in Hall|..|done]; try done;
    intros; by_compute.
Qed.

(** ** Facts: the two forms of a step *)

Lemma step_exec s e s' : step s e s' <-> exec e s = Some s'.
Proof.
  split.
  - intros Hstep. destruct Hstep as [s Hm|s m Hm|s y|s m t v Hm|s m page n h Hm Hv Hn Hh];
      unfold exec; rewrite ?Hm, ?Hv; simpl; try done.
    rewrite bool_decide_eq_true_2 by done. by rewrite Hh.
  - destruct e as [| |y|t v|n]; unfold exec.
    + destruct (mounted s) eqn:Hm; [done|]. intros [= <-]. by constructor.
    + destruct (mounted s) as [m|] eqn:Hm; [|done]. intros [= <-]. by constructor.
    + intros [= <-]. constructor.
    + destruct (mounted s) as [m|] eqn:Hm; [|done]. intros [= <-]. by constructor.
    + destruct (mounted s) as [m|] eqn:Hm; [|done]. simpl.
      destruct (view s) as [page|] eqn:Hv; [|done]. simpl.
      case_bool_decide; [|done].
      destruct (onClick n) as [h|] eqn:Hh; [|done]. intros [= <-].
      by apply step_click with page.
Qed.

(** ** Facts: what holds in every reachable state *)

(** The scroll listeners of the window are the closure of the mounted
    instance and nothing else; closure identities are not reused; no update
    reached an instance that is gone; the selections are entries of the
    catalogue. *)
Definition inv (s : State) : Prop :=
  listeners "scroll" (window s) = from_option (fun m => [listener m]) [] (mounted s) /\
  (forall h, h ∈ listeners "scroll" (window s) -> (h < fresh s)%nat) /\
  stale s = 0%nat /\
  from_option (fun m => app_ok (app m) = true) True (mounted s).

Lemma inv_init y yr l : inv (init y yr l).
Proof. split_and!; try done. by intros h ?%elem_of_nil. Qed.

Lemma inv_mount s : mounted s = None -> inv s -> inv (mount s).
Proof.
  intros Hm (Hl & Hf & Hs & _). rewrite Hm in Hl; cbn [from_option] in Hl.
  assert (listeners "scroll" (window (mount s)) = [fresh s]) as Hl'.
  { unfold mount, Navbar.subscribe; cbn [window].
    rewrite listeners_add, Hl. by rewrite bool_decide_eq_false_2 by apply not_elem_of_nil. }
  split_and!; [done| |done|apply init_ok].
  intros h. rewrite Hl'. intros ->%list_elem_of_singleton. simpl. lia.
Qed.

Lemma inv_unmount s m : mounted s = Some m -> inv s -> inv (unmount m s).
Proof.
  intros Hm (Hl & Hf & Hs & _). rewrite Hm in Hl; cbn [from_option] in Hl.
  assert (listeners "scroll" (window (unmount m s)) = []) as Hl'.
  { unfold unmount, Navbar.unsubscribe; cbn [window with_mounted with_window].
    rewrite listeners_remove, Hl. by rewrite filter_cons_False, filter_nil by tauto. }
  split_and!; [done| |done..]. intros h. rewrite Hl'. by intros ?%elem_of_nil.
Qed.

(** A scroll event reaches the mounted instance, once, and nobody else. *)
Lemma scroll_mounted s m y :
  inv s -> mounted s = Some m ->
  scroll y s =
  {| window := scroll_to y (window s); outcomeImage := outcomeImage s; year := year s;
     mounted := Some (with_nav
       (Navbar.run_handler (Navbar.handleScroll (scroll_to y (window s))) (nav m)) m);
     fresh := fresh s; stale := stale s |}.
Proof.
  intros (Hl & _) Hm. unfold scroll; cbn [window with_window].
  rewrite listeners_scroll_to, Hl, Hm. cbn [from_option fold_left].
  unfold deliver; cbn [mounted with_window]. rewrite Hm.
  by rewrite bool_decide_eq_true_2.
Qed.

Lemma scroll_unmounted s y :
  inv s -> mounted s = None ->
  scroll y s =
  {| window := scroll_to y (window s); outcomeImage := outcomeImage s; year := year s;
     mounted := None; fresh := fresh s; stale := stale s |}.
Proof.
  intros (Hl & _) Hm. unfold scroll, with_window; cbn [window].
  by rewrite listeners_scroll_to, Hl, Hm.
Qed.

Lemma inv_scroll s y : inv s -> inv (scroll y s).
Proof.
  intros Hinv. pose proof Hinv as (Hl & Hf & Hs & Ha).
  destruct (mounted s) as [m|] eqn:Hm.
  - by rewrite (scroll_mounted s m).
  - by rewrite scroll_unmounted.
Qed.

Lemma inv_step s e s' : step s e s' -> inv s -> inv s'.
Proof.
  intros Hstep Hinv.
  destruct Hstep as [s Hm|s m Hm|s y|s m t v Hm|s m page n h Hm Hv Hn Hh].
  - by apply inv_mount.
  - by apply inv_unmount.
  - by apply inv_scroll.
  - destruct Hinv as (Hl & Hf & Hs & Ha). rewrite Hm in Hl, Ha.
    split_and!; try done; by destruct t.
  - destruct Hinv as (Hl & Hf & Hs & Ha). rewrite Hm in Hl, Ha.
    split_and!; try done. cbn [mounted with_mounted from_option click app].
    apply run_handler_ok; [|done].
    unfold view in Hv. rewrite Hm in Hv. by eapply clicks_ok.
Qed.

Lemma reachable_inv s : reachable s -> inv s.
Proof. induction 1; eauto using inv_init, inv_step. Qed.

Lemma reachable_run es s s' : reachable s -> run es s = Some s' -> reachable s'.
Proof.
  unfold run. revert s'. induction es as [|e es IH] using rev_ind; intros s' Hs.
  - by intros [= <-].
  - rewrite foldl_app. cbn [foldl].
    destruct (foldl _ _ es) as [s1|]; [|done]. simpl. intros He%step_exec.
    eapply reachable_step; [by apply IH|done].
Qed.

(** The page just after it was mounted in a window at the top. *)
Definition state0 : State := mount (init 0 2025 layout0).

(** Its instance. *)
Definition mounted0 : Mounted :=
  {| app := App.init; nav := Navbar.init; listener := 0;
     heading := unseen; subheading := unseen |}.

Lemma reachable_state0 : reachable state0.
Proof. apply reachable_step with (init 0 2025 layout0) Mount; by constructor. Qed.

(** Claim C1. In every reachable state the scroll listeners of the window
    are exactly the closure of the mounted instance: one listener while the
    page is mounted, none before it is mounted and none after it is
    unmounted, however often it is mounted again. *)
Theorem listener_iff_mounted s :
  reachable s ->
  listeners "scroll" (window s) = from_option (fun m => [listener m]) [] (mounted s).
Proof. by intros (? & _)%reachable_inv. Qed.

Lemma listener_iff_mounted_witness :
  listeners "scroll" (window state0) =
  from_option (fun m => [listener m]) [] (mounted state0).
Proof. exact (listener_iff_mounted state0 reachable_state0). Defined.

(** Claim C2. No state update ever reaches an instance that is gone: a
    scroll event after unmounting finds no listener. *)
Theorem no_update_after_unmount s : reachable s -> stale s = 0%nat.
Proof. by intros (_ & _ & ? & _)%reachable_inv. Qed.

Lemma no_update_after_unmount_witness : stale state0 = 0%nat.
Proof. exact (no_update_after_unmount state0 reachable_state0). Defined.

(** Claim C4. In every reachable state the selected colour is an entry of
    [COLORS], the selected size an entry of [SIZES] and the open question,
    if any, an index of [faqs]: nothing is ever unselected. *)
Theorem selection_listed s m :
  reachable s -> mounted s = Some m ->
  (exists c, App.selectedColor (app m) = Some c /\ c ∈ COLORS) /\
  (exists z, App.selectedSize (app m) = Some z /\ z ∈ SIZES) /\
  (forall i, App.activeFaq (app m) = Some i -> (i < length faqs)%nat).
Proof.
  intros (_ & _ & _ & Ha)%reachable_inv Hm. rewrite Hm in Ha.
  by apply app_ok_spec.
Qed.

(** Claim C3. Rendering never throws: in every reachable state with the
    page mounted there is a tree on the screen. *)
Theorem view_defined s :
  reachable s -> is_Some (mounted s) -> is_Some (view s).
Proof.
  intros (_ & _ & _ & Ha)%reachable_inv [m Hm]. rewrite Hm in Ha.
  unfold view. rewrite Hm. cbn [mbind option_bind]. apply render_defined.
  apply app_ok_spec in Ha as ((c & -> & _) & _). eauto.
Qed.

Lemma view_defined_witness : is_Some (view state0).
Proof. apply (view_defined state0 reachable_state0). by eexists. Defined.

(** Claim C11. After a scroll event the bar of the mounted page is opaque
    exactly when the offset the window scrolled to exceeds 50, whatever the
    bar was before. *)
Theorem scroll_isScrolled s y s' m' :
  reachable s -> step s (Scroll y) s' -> mounted s' = Some m' ->
  Navbar.isScrolled (nav m') = Qgtb y 50.
Proof.
  intros Hinv%reachable_inv Hstep. inversion Hstep; subst.
  destruct (mounted s) as [m|] eqn:Hm.
  - rewrite (scroll_mounted s m) by done. by intros [= <-].
  - by rewrite scroll_unmounted.
Qed.

(** Claim C25. A page that is mounted in a window that is scrolled already
    shows the transparent bar until the first scroll event: the listener
    does not run when it is registered. *)
Theorem mount_scrolled_transparent y yr l :
  (50 < y)%Q ->
  exists m, mounted (mount (init y yr l)) = Some m /\
    Navbar.isScrolled (nav m) = false /\
    Qgtb (Window.scrollY (window (mount (init y yr l)))) Navbar.scroll_threshold = true.
Proof.
  intros Hy. eexists. split_and!; [done..|].
  apply Qgtb_lt. by destruct y.
Qed.

(** A scroll event leaves the hooks of the headings alone. *)
Lemma deliver_inView s h m :
  mounted s = Some m ->
  exists m1, mounted (deliver s h) = Some m1 /\
    heading m1 = heading m /\ subheading m1 = subheading m.
Proof.
  intros Hm. unfold deliver. rewrite Hm.
  case_bool_decide; eexists; (split; [reflexivity|done]).
Qed.

Lemma fold_deliver_inView l : forall s m,
  mounted s = Some m ->
  exists m1, mounted (fold_left deliver l s) = Some m1 /\
    heading m1 = heading m /\ subheading m1 = subheading m.
Proof.
  induction l as [|h l IH]; intros s m Hm; [eauto|]. cbn [fold_left].
  destruct (deliver_inView s h m Hm) as (m1 & H1 & <- & <-). by apply IH.
Qed.

Lemma scroll_inView s y m :
  mounted s = Some m ->
  exists m1, mounted (scroll y s) = Some m1 /\
    heading m1 = heading m /\ subheading m1 = subheading m.
Proof. intros Hm. by apply fold_deliver_inView. Qed.

(** Once a heading of the outcome section was seen, its hook stays [true]
    for as long as the page is mounted. *)
Lemma inView_latched s e s' m m' :
  step s e s' -> mounted s = Some m -> mounted s' = Some m' ->
  (seen (heading m) = true -> seen (heading m') = true) /\
  (seen (subheading m) = true -> seen (subheading m') = true).
Proof.
  intros Hstep Hm Hm'.
  destruct Hstep as [s Hn|s m0 Hm0|s y|s m0 t v Hm0|s m0 page n h Hm0 Hv Hn Hh];
    try (rewrite Hm in Hm0; injection Hm0 as <-).
  - congruence.
  - discriminate Hm'.
  - destruct (scroll_inView s y m Hm) as (m1 & H1 & H2 & H3).
    rewrite H1 in Hm'. injection Hm' as <-. by rewrite H2, H3.
  - injection Hm' as <-.
    destruct t; cbn [intersect heading subheading]; split; auto using seen_observed.
  - injection Hm' as <-. done.
Qed.

Lemma selection_listed_witness :
  (exists c, App.selectedColor App.init = Some c /\ c ∈ COLORS) /\
  (exists z, App.selectedSize App.init = Some z /\ z ∈ SIZES) /\
  (forall i, App.activeFaq App.init = Some i -> (i < length faqs)%nat).
Proof. exact (selection_listed state0 _ reachable_state0 eq_refl). Defined.

Lemma scroll_isScrolled_witness :
  Navbar.isScrolled
    (nav {| app := App.init; nav := Navbar.setIsScrolled true Navbar.init;
            listener := 0; heading := unseen; subheading := unseen |}) =
  Qgtb 120 50.
Proof.
  apply (scroll_isScrolled state0 120 (scroll 120 state0) _ reachable_state0).
  - constructor.
  - reflexivity.
Defined.

Lemma mount_scrolled_transparent_witness :
  exists m, mounted (mount (init 800 2025 layout0)) = Some m /\
    Navbar.isScrolled (nav m) = false /\
    Qgtb (Window.scrollY (window (mount (init 800 2025 layout0))))
      Navbar.scroll_threshold = true.
Proof. apply mount_scrolled_transparent. reflexivity. Defined.

(** A word of a heading that is still in its hidden position. *)
Definition hidden_word (n : node handler) : bool :=
  is_tag "motion.span" n && bool_decide (val_prop "animate" n = Some (JObj [])).

Lemma hidden_words env :
  count_nodes hidden_word (Sections.outcome env) =
  ((if seen (Sections.heading env) then 0 else 3) +
   (if seen (Sections.subheading env) then 0 else 3))%nat.
Proof. destruct env as [y l [v1 []] [v2 []] yr]; by_compute. Qed.

(** Claim C22. Along every step that keeps the page mounted, the number of
    words of the outcome headings that are still hidden does not grow: a
    word that was revealed does not go back to its hidden position. *)
Theorem reveal_once s e s' m m' :
  step s e s' -> mounted s = Some m -> mounted s' = Some m' ->
  (count_nodes hidden_word (Sections.outcome (env_of s' m')) <=
   count_nodes hidden_word (Sections.outcome (env_of s m)))%nat.
Proof.
  intros Hstep Hm Hm'. rewrite !hidden_words.
  cbn [env_of Sections.heading Sections.subheading].
  destruct (inView_latched s e s' m m' Hstep Hm Hm') as [H1 H2].
  destruct (seen (heading m)), (seen (subheading m));
    rewrite ?H1, ?H2 by done; repeat destruct_match; lia.
Qed.

(** The instance after its first heading was seen, and its state. *)
Definition mounted1 : Mounted := intersect Heading true mounted0.

Definition state1 : State := with_mounted (Some mounted1) state0.

Lemma reveal_once_witness :
  (count_nodes hidden_word
     (Sections.outcome
        (env_of (with_mounted (Some (intersect Heading false mounted1)) state1)
                (intersect Heading false mounted1))) <=
   count_nodes hidden_word (Sections.outcome (env_of state1 mounted1)))%nat.
Proof.
  apply (reveal_once state1 (Intersect Heading false)).
  - by constructor.
  - reflexivity.
  - reflexivity.
Defined.

(** ** Clicks on the page *)

(** The buttons of the accordion and of the configurator are on the page
    whenever it renders. *)
Lemma faq_button_on_page env nav a page i faq :
  render env nav a = Some page -> faqs !! i = Some faq ->
  App.faq_button a i faq ∈ descendants page.
Proof.
  intros (shop & _ & ->)%render_Some Hf. unfold layout, el.
  child 10%nat. by apply App.faq_button_rendered.
Qed.

Lemma color_swatch_on_page env nav a page c color :
  render env nav a = Some page -> App.selectedColor a = Some c -> color ∈ COLORS ->
  App.color_swatch (same_name c color) color ∈ descendants page.
Proof.
  intros (shop & Hs & ->)%render_Some Hc Hin. unfold layout, el.
  child 7%nat. by apply App.color_swatch_rendered with a.
Qed.

Lemma size_button_on_page env nav a page c size :
  render env nav a = Some page -> App.selectedColor a = Some c -> size ∈ SIZES ->
  App.size_button (App.selectedSize a) size ∈ descendants page.
Proof.
  intros (shop & Hs & ->)%render_Some Hc Hin. unfold layout, el.
  child 7%nat. by apply App.size_button_rendered with c.
Qed.

(** The expanded answers of the page are those of the accordion. *)
Definition none_expanded (n : node handler) : bool :=
  bool_decide (count_nodes App.panel_expanded n = 0%nat).

Lemma none_expanded_elim n : none_expanded n = true -> count_nodes App.panel_expanded n = 0%nat.
Proof. apply bool_decide_eq_true_1. Qed.

Lemma static_none_expanded env : forallb none_expanded (static_sections env) = true.
Proof. destruct env as [y l [v1 []] [v2 []] yr]; by_compute. Qed.

Lemma count_expanded_page env nav a page :
  render env nav a = Some page ->
  count_nodes App.panel_expanded page = App.expanded a.
Proof.
  intros (shop & Hs & ->)%render_Some. unfold layout, el.
  pose proof (static_none_expanded env) as Hstatic.
  cbn [forallb static_sections] in Hstatic. propify.
  rewrite count_nodes_Elem, !count_flat_map_cons, count_flat_map_nil.
  rewrite App.count_expanded_section.
  rewrite (none_expanded_elim (Navbar.render nav)) by (apply Navbar.render_cases; by_compute).
  rewrite (none_expanded_elim shop)
    by (apply (App.bundles_section_cases _ a); [by_compute|done]).
  rewrite !none_expanded_elim by tauto. eval_test. lia.
Qed.

(** What a visitor sees of the state: the name of the selected colour, the
    selected size, the open question, whether the bar is opaque, and the
    number of expanded answers on the screen. *)
Definition observe (s : State) :
    option (option ColorOption * option string * option nat * bool * option nat) :=
  m ← mounted s;
  Some (Color.name <$> App.selectedColor (app m), App.selectedSize (app m),
        App.activeFaq (app m), Navbar.isScrolled (nav m),
        count_nodes App.panel_expanded <$> view s).

Lemma observe_mounted s m c :
  mounted s = Some m -> App.selectedColor (app m) = Some c ->
  observe s =
  Some (Some (Color.name c), App.selectedSize (app m), App.activeFaq (app m),
        Navbar.isScrolled (nav m), Some (App.expanded (app m))).
Proof.
  intros Hm Hc. unfold observe, view. rewrite Hm. cbn [mbind option_bind].
  rewrite Hc. cbn [fmap option_fmap option_map].
  destruct (proj2 (render_defined (env_of s m) (nav m) (app m))) as [page Hp]; [eauto|].
  rewrite Hp. cbn [fmap option_fmap option_map].
  by rewrite (count_expanded_page _ _ _ _ Hp).
Qed.

(** Claim C40. In every reachable state the page shows one expanded answer
    when a question is open and none otherwise: a click never leaves two
    answers open, and the open question is always one the page lists. *)
Theorem one_answer_expanded s m page :
  reachable s -> mounted s = Some m -> view s = Some page ->
  count_nodes App.panel_expanded page =
  match App.activeFaq (app m) with Some _ => 1%nat | None => 0%nat end.
Proof.
  intros (_ & _ & _ & Ha)%reachable_inv Hm Hv. rewrite Hm in Ha.
  apply app_ok_spec in Ha as (_ & _ & Hf).
  unfold view in Hv. rewrite Hm in Hv. rewrite (count_expanded_page _ _ _ _ Hv).
  unfold App.expanded. destruct (App.activeFaq (app m)) as [i|]; [|done].
  by rewrite bool_decide_eq_true_2 by auto.
Qed.

Lemma one_answer_expanded_witness :
  count_nodes App.panel_expanded page0 =
  match App.activeFaq (app mounted0) with Some _ => 1%nat | None => 0%nat end.
Proof.
  apply (one_answer_expanded state0 mounted0 page0 reachable_state0); reflexivity.
Defined.

(** The events that can happen, and the state after them. *)
Lemma exec_mount s : mounted s = None -> exec Mount s = Some (mount s).
Proof. unfold exec. by intros ->. Qed.

Lemma exec_scroll s m y :
  inv s -> mounted s = Some m ->
  exec (Scroll y) s =
  Some {| window := scroll_to y (window s); outcomeImage := outcomeImage s;
          year := year s;
          mounted := Some (with_nav
            (Navbar.run_handler (Navbar.handleScroll (scroll_to y (window s))) (nav m)) m);
          fresh := fresh s; stale := stale s |}.
Proof. intros Hinv Hm. unfold exec. by rewrite (scroll_mounted s m). Qed.

Lemma exec_click s m page n h :
  mounted s = Some m -> view s = Some page ->
  n ∈ descendants page -> onClick n = Some h ->
  exec (Click n) s = Some (with_mounted (Some (click h m)) s).
Proof. intros. apply step_exec. by apply step_click with page. Qed.

(** A click on a node of the page that has a handler, in a state in which
    the page renders. *)
Lemma exec_click_on s m c n h :
  mounted s = Some m -> App.selectedColor (app m) = Some c ->
  (forall page, view s = Some page -> n ∈ descendants page) ->
  onClick n = Some h ->
  exec (Click n) s = Some (with_mounted (Some (click h m)) s).
Proof.
  intros Hm Hc Hn Hh.
  destruct (proj2 (render_defined (env_of s m) (nav m) (app m))) as [page Hp]; [eauto|].
  assert (view s = Some page) as Hv by (unfold view; by rewrite Hm).
  apply exec_click with page; auto.
Qed.

Lemma click_faq s m a c i faq :
  mounted s = Some m -> app m = a -> App.selectedColor a = Some c ->
  faqs !! i = Some faq ->
  exec (Click (App.faq_button a i faq)) s =
  Some (with_mounted (Some (click [SetActiveFaq (App.faq_toggle a i)] m)) s).
Proof.
  intros Hm <- Hc Hf. apply exec_click_on with c; try done.
  intros page Hv. unfold view in Hv. rewrite Hm in Hv.
  by apply faq_button_on_page with (env_of s m) (nav m).
Qed.

Lemma click_swatch s m c color selected :
  mounted s = Some m -> App.selectedColor (app m) = Some c -> color ∈ COLORS ->
  selected = same_name c color ->
  exec (Click (App.color_swatch selected color)) s =
  Some (with_mounted (Some (click [SetSelectedColor color] m)) s).
Proof.
  intros Hm Hc Hin ->. apply exec_click_on with c; try done.
  intros page Hv. unfold view in Hv. rewrite Hm in Hv.
  by apply color_swatch_on_page with (env_of s m) (nav m) (app m).
Qed.

Lemma click_size s m c size sel :
  mounted s = Some m -> App.selectedColor (app m) = Some c -> size ∈ SIZES ->
  sel = App.selectedSize (app m) ->
  exec (Click (App.size_button sel size)) s =
  Some (with_mounted (Some (click [SetSelectedSize size] m)) s).
Proof.
  intros Hm Hc Hin ->. apply exec_click_on with c; try done.
  intros page Hv. unfold view in Hv. rewrite Hm in Hv.
  by apply size_button_on_page with (env_of s m) (nav m) c.
Qed.

(** ** The scenario of the specification *)

(** The states after each event of a sequence. *)
Fixpoint trace (es : list event) (s : State) : list (option State) :=
  match es with
  | [] => []
  | e :: es => let o := exec e s in o :: from_option (trace es) [] o
  end.

Lemma trace_cons e es s s' :
  exec e s = Some s' -> trace (e :: es) s = Some s' :: trace es s'.
Proof. cbn [trace]. by intros ->. Qed.

(** The scenario: mount, scroll to [y], click question [i] twice, click the
    swatch of [color]. *)
Definition scenario (y : Q) (i : nat) (faq : Faq) (color : Color) : list event :=
  [Mount; Scroll y;
   Click (App.faq_button App.init i faq);
   Click (App.faq_button (App.setActiveFaq (Some i) App.init) i faq);
   Click (App.color_swatch (bool_decide (Color.name color = Onyx)) color)].

(** Claim C5. The scenario of the specification, from every reachable state
    without a page, for every scroll offset, every question and every
    colour: the page mounts with the first colour, size M, no question open
    and a transparent bar; after scrolling to [y] the bar is opaque exactly
    when [y] exceeds 50; a click on a question expands that answer and no
    other; a second click collapses it; a click on the swatch of a colour
    selects it and leaves the size and the bar alone.  Every click is on an
    element the page shows at that moment. *)
Theorem end_to_end s y i faq color :
  reachable s -> mounted s = None -> faqs !! i = Some faq -> color ∈ COLORS ->
  (fun o => o ≫= observe) <$> trace (scenario y i faq color) s =
  [Some (Some Onyx, Some "M", None, false, Some 0%nat);
   Some (Some Onyx, Some "M", None, Qgtb y 50, Some 0%nat);
   Some (Some Onyx, Some "M", Some i, Qgtb y 50, Some 1%nat);
   Some (Some Onyx, Some "M", None, Qgtb y 50, Some 0%nat);
   Some (Some (Color.name color), Some "M", None, Qgtb y 50, Some 0%nat)].
Proof.
  intros Hs Hm Hf Hc. pose proof (inv_mount s Hm (reachable_inv s Hs)) as Hinv.
  unfold scenario.
  rewrite (trace_cons Mount _ s _ (exec_mount s Hm)).
  rewrite (trace_cons (Scroll y) _ _ _ (exec_scroll _ _ y Hinv eq_refl)).
  erewrite (trace_cons (Click _)) by (eapply click_faq; [reflexivity..|exact Hf]).
  erewrite (trace_cons (Click _)) by (eapply click_faq; [reflexivity..|exact Hf]).
  rewrite (App.faq_toggle_open (App.setActiveFaq (Some i) App.init) i eq_refl).
  apply lookup_lt_Some in Hf as Hi. unfold COLORS in Hc.
  repeat (apply elem_of_cons in Hc as [->|Hc]); [..|by apply elem_of_nil in Hc].
  all: erewrite (trace_cons (Click _))
    by (eapply click_swatch; [reflexivity|reflexivity|by_decide|reflexivity]).
  all: cbn [trace fmap list_fmap mbind option_bind].
  all: do 5 (erewrite observe_mounted; [|reflexivity..]).
  all: unfold App.expanded; cbn [app nav click with_nav App.run_handler fold_left
    App.run App.activeFaq App.setActiveFaq App.setSelectedColor].
  all: change (App.faq_toggle App.init i) with (Some i); cbv beta iota.
  all: by rewrite bool_decide_eq_true_2.
Qed.

(** The third question and the fourth colour. *)
Definition faq2 : Faq := default {| Faq.q := ""; Faq.a := "" |} (faqs !! 2%nat).

Definition green : Color := {| Color.name := Green; Color.hex := "#14532d" |}.

Lemma end_to_end_witness :
  (fun o => o ≫= observe) <$> trace (scenario 120 2 faq2 green) (init 0 2025 layout0) =
  [Some (Some Onyx, Some "M", None, false, Some 0%nat);
   Some (Some Onyx, Some "M", None, Qgtb 120 50, Some 0%nat);
   Some (Some Onyx, Some "M", Some 2%nat, Qgtb 120 50, Some 1%nat);
   Some (Some Onyx, Some "M", None, Qgtb 120 50, Some 0%nat);
   Some (Some (Color.name green), Some "M", None, Qgtb 120 50, Some 0%nat)].
Proof. apply end_to_end; [constructor|reflexivity|reflexivity|by_decide]. Defined.

(** ** Reachability, by traces *)

Lemma run_snoc es e s : run (es ++ [e])%list s = run es s ≫= exec e.
Proof. unfold run. by rewrite foldl_app. Qed.

(** The reachable states are the states the executable machine arrives in
    after a sequence of events from a freshly loaded window. *)
Lemma reachable_iff_run s :
  reachable s <-> exists y yr l es, run es (init y yr l) = Some s.
Proof.
  split.
  - induction 1 as [y yr l|s e s' _ (y & yr & l & es & Hrun) Hstep%step_exec].
    + by exists y, yr, l, [].
    + exists y, yr, l, (es ++ [e])%list. by rewrite run_snoc, Hrun.
  - intros (y & yr & l & es & Hrun). eapply reachable_run; [|done]. constructor.
Qed.

End Page.
